(** * PainelInovatus: the health-check engine of [monitor.py] and the
      snapshot reader of [app.py], embedded and verified.

    The module-level dictionaries of [monitor.py] ([history],
    [offline_time], [oscillation_detected]) are finite maps keyed by the
    unit's name, the rolling lists are lists, Python integers are [Z].
    Code that can raise runs in a state-and-exception monad that keeps
    the mutations made before the exception, as Python does.

    Rounds run one at a time, as the loop runs them, so the lock around
    the update is not a step of its own; [time.sleep] and the copies
    taken of lists and dictionaries (values here) leave no trace. What
    the environment decides, the clock reading of a round, the order
    in which its futures complete and the answers of the network, is
    an input. *)

From stdpp Require Import gmap strings list fin_maps pretty sorting.
From Stdlib Require Import ZArith Lia.

Local Open Scope string_scope.
Local Open Scope list_scope.
Local Open Scope Z_scope.

(** ** Python runtime: exceptions and insertion-ordered dictionaries *)

Inductive exn :=
| KeyError (k : string)
| IndexError
| OtherException (what : string).

Inductive outcome (A : Type) :=
| Ok (a : A)
| Raise (e : exn).
Arguments Ok {A} a.
Arguments Raise {A} e.

Definition is_ok {A} (o : outcome A) : bool :=
  match o with Ok _ => true | Raise _ => false end.

(** A computation over the interpreter state [S]: it returns a value or
    raises, and in both cases hands back the state as it left it. *)
Definition M (S A : Type) : Type := S -> outcome A * S.

Definition ret {S A} (a : A) : M S A := fun s => (Ok a, s).

Definition raise {S A} (e : exn) : M S A := fun s => (Raise e, s).

Definition bind {S A B} (m : M S A) (k : A -> M S B) : M S B :=
  fun s =>
    match m s with
    | (Ok a, s') => k a s'
    | (Raise e, s') => (Raise e, s')
    end.

(** [try: m  except Exception: h] *)
Definition try_except {S A} (m : M S A) (h : exn -> M S A) : M S A :=
  fun s =>
    match m s with
    | (Ok a, s') => (Ok a, s')
    | (Raise e, s') => h e s'
    end.

Definition gets {S A} (f : S -> A) : M S A := fun s => (Ok (f s), s).

Definition modify {S} (f : S -> S) : M S unit := fun s => (Ok tt, f s).

Declare Scope py_scope.
Delimit Scope py_scope with py.
Notation "x <- m ;; k" := (bind m (fun x => k))
  (at level 100, m at next level, right associativity) : py_scope.
Notation "m ;;; k" := (bind m (fun _ => k))
  (at level 100, k at level 200, right associativity) : py_scope.
Local Open Scope py_scope.

(** [len(l)] *)
Definition len {A} (l : list A) : Z := Z.of_nat (length l).

(** A [dict] whose iteration order matters: pairs in insertion order,
    keys unique. [dict_set] is [d[k] = v]: an existing key keeps its
    place, a new key goes last. *)
Fixpoint dict_set {V} (d : list (string * V)) (k : string) (v : V)
  : list (string * V) :=
  match d with
  | [] => [(k, v)]
  | (k', v') :: d' =>
      if String.eqb k' k then (k', v) :: d' else (k', v') :: dict_set d' k v
  end.

Fixpoint dict_get {V} (d : list (string * V)) (k : string) : option V :=
  match d with
  | [] => None
  | (k', v') :: d' => if String.eqb k' k then Some v' else dict_get d' k
  end.

(** ** Configuration ([monitor.py], lines 20-61) *)

Definition MAX_HISTORY_LEN : Z := 100.
Definition CHECK_INTERVAL : Z := 5.

Definition SITES : list (string * string) :=
  [ ("Alto Garças", "https://altogarcas.celk.com.br/");
    ("Alto Paraguai", "https://altoparaguai.celk.com.br/");
    ("Aripuanã", "https://aripuana.celk.com.br/");
    ("Brasnorte", "https://brasnorte.celk.com.br/");
    ("Cassilândia", "https://cassilandia.celk.com.br/");
    ("Chapada dos Guimarães", "https://chapadadosguimaraes.celk.com.br/");
    ("Confresa", "https://confresa.celk.com.br/");
    ("Mirassol D'Oeste", "https://mirassoldoeste.celk.com.br/");
    ("Nortelândia", "https://nortelandia.celk.com.br/");
    ("Nossa Senhora do Livramento",
      "https://nossasenhoradolivramento.celk.com.br/");
    ("Nova Nazaré", "https://novanazare.celk.com.br/");
    ("Nova Maringá", "https://novamaringa.celk.com.br/");
    ("Planalto da Serra", "https://planaltodaserra.celk.com.br/");
    ("Santo Antônio do Leverger",
      "https://santoantoniodoleverger.celk.com.br/");
    ("São José do Rio Claro", "https://saojosedorioclaro.celk.com.br/");
    ("São José dos Quatro Marcos",
      "https://saojosedosquatromarcos.celk.com.br/");
    ("Vila Bela", "https://vilabela.celk.com.br/");
    ("Várzea Grande", "https://varzeagrande.celk.com.br/");
    ("Hospital Aparecida", "https://hmaparecida.celk.com.br/");
    ("Hospital Aripuanã", "https://hospitalaripuana.celk.com.br/");
    ("Hospital Brasnorte", "https://hospitalbrasnorte.celk.com.br/");
    ("Hospital Confresa", "https://hospitalconfresa.celk.com.br/");
    ("Hospital Campinápolis", "https://hospitalcampinapolis.celk.com.br/");
    ("Hospital Livramento",
      "https://hospitalnossasenhoradolivramento.celk.com.br/");
    ("Hospital Nova Xavantina", "https://hospitalnovaxavantina.celk.com.br/");
    ("Hospital Salto do Céu", "https://hospitalsaltodoceu.celk.com.br/");
    ("Hospital São José do Rio Claro",
      "https://hospitalsjrioclaro.celk.com.br/");
    ("Hospital Várzea Grande", "https://hospitalvarzeagrande.celk.com.br/") ].

(** [ORDERED_NAMES = list(SITES.keys())] *)
Definition ORDERED_NAMES : list string := map fst SITES.

Arguments SITES : simpl never.
Arguments ORDERED_NAMES : simpl never.

(** ** Data produced by a round *)

(** The ["tempo"] entry of a report row: seconds for a "Queda", the
    string ["-"] for an "Oscilação". *)
Inductive tempo_val :=
| Seconds (n : Z)
| Dash.

(** One row of [relatorio_quedas] or [relatorio_oscilacoes]:
    [{"data": .., "nome": .., "tempo": .., "tipo": ..}]. *)
Record row := mkRow {
  r_data : string;
  r_nome : string;
  r_tempo : tempo_val;
  r_tipo : string }.

(** The dictionary returned by [get_status_data]. *)
Record snapshot := mkSnapshot {
  s_timestamps : list string;
  s_data : list (string * list Z);
  s_status_colors : list (string * string);
  s_quedas : list row;
  s_oscilacoes : list row }.

(** ** The network, as the prober sees it *)

(** What [_session.get(url, timeout=4)] does: it returns a response
    with a status code, or raises. *)
Inductive get_result :=
| Response (status_code : Z)
| ConnectionError
| Timeout
| RequestException (what : string).

(** [respond url k] is the result of the [k]-th request made to [url];
    [requests] counts the requests made to each URL so far. *)
Record net := mkNet {
  respond : string -> nat -> get_result;
  requests : gmap string nat }.

Definition request_count (w : net) (url : string) : nat :=
  default 0%nat (requests w !! url).

(** ** Module state of [monitor.py] (lines 64-72)

    [LATEST_DATA] is [None] while it is still the initial [{}] and
    [Some snap] once the loop has bound it to a round's result.
    [threads] lists the names of the threads started so far, [console]
    what was printed or traced, [network] the outside world. *)
Record state := mkState {
  history : gmap string (list Z);
  timestamps : list string;
  offline_time : gmap string Z;
  oscillation_detected : gmap string bool;
  LATEST_DATA : option snapshot;
  _thread_started : bool;
  threads : list string;
  console : list string;
  network : net }.

Definition set_history (f : gmap string (list Z) -> gmap string (list Z))
  (s : state) : state :=
  mkState (f (history s)) (timestamps s) (offline_time s)
    (oscillation_detected s) (LATEST_DATA s) (_thread_started s)
    (threads s) (console s) (network s).

Definition set_timestamps (f : list string -> list string) (s : state)
  : state :=
  mkState (history s) (f (timestamps s)) (offline_time s)
    (oscillation_detected s) (LATEST_DATA s) (_thread_started s)
    (threads s) (console s) (network s).

Definition set_offline_time (f : gmap string Z -> gmap string Z) (s : state)
  : state :=
  mkState (history s) (timestamps s) (f (offline_time s))
    (oscillation_detected s) (LATEST_DATA s) (_thread_started s)
    (threads s) (console s) (network s).

Definition set_oscillation_detected
  (f : gmap string bool -> gmap string bool) (s : state) : state :=
  mkState (history s) (timestamps s) (offline_time s)
    (f (oscillation_detected s)) (LATEST_DATA s) (_thread_started s)
    (threads s) (console s) (network s).

Definition set_LATEST_DATA (d : option snapshot) (s : state) : state :=
  mkState (history s) (timestamps s) (offline_time s)
    (oscillation_detected s) d (_thread_started s) (threads s) (console s)
    (network s).

Definition set_thread_started (b : bool) (s : state) : state :=
  mkState (history s) (timestamps s) (offline_time s)
    (oscillation_detected s) (LATEST_DATA s) b (threads s) (console s)
    (network s).

Definition start_thread (name : string) (s : state) : state :=
  mkState (history s) (timestamps s) (offline_time s)
    (oscillation_detected s) (LATEST_DATA s) (_thread_started s)
    (threads s ++ [name]) (console s) (network s).

Definition print (line : string) (s : state) : state :=
  mkState (history s) (timestamps s) (offline_time s)
    (oscillation_detected s) (LATEST_DATA s) (_thread_started s)
    (threads s) (console s ++ [line]) (network s).

Definition set_network (w : net) (s : state) : state :=
  mkState (history s) (timestamps s) (offline_time s)
    (oscillation_detected s) (LATEST_DATA s) (_thread_started s)
    (threads s) (console s) w.

(** The state right after the module is imported, in a world [w]. *)
Definition initial_state (w : net) : state :=
  {| history := list_to_map (map (fun site => (site, [])) ORDERED_NAMES);
     timestamps := [];
     offline_time := list_to_map (map (fun site => (site, 0)) ORDERED_NAMES);
     oscillation_detected :=
       list_to_map (map (fun site => (site, false)) ORDERED_NAMES);
     LATEST_DATA := None;
     _thread_started := false;
     threads := [];
     console := [];
     network := w |}.

(** ** [check_site] (lines 77-83) *)

(** [_session.get(url, timeout=4)]: one request; a transport failure
    is raised to the caller. *)
Definition session_get (url : string) : M state Z := fun s =>
  let w := network s in
  let k := request_count w url in
  let s' := set_network (mkNet (respond w) (<[url := S k]> (requests w))) s in
  match respond w url k with
  | Response status_code => (Ok status_code, s')
  | ConnectionError => (Raise (OtherException "ConnectionError"), s')
  | Timeout => (Raise (OtherException "Timeout"), s')
  | RequestException what => (Raise (OtherException what), s')
  end.

Definition check_site (nome url : string) : M state (string * Z) :=
  try_except
    (status_code <- session_get url ;;
     ret (nome, if status_code =? 200 then 1 else 0))
    (fun _ => ret (nome, 0)).

(** ** Accessors that can raise *)

(** [history[nome]] *)
Definition history_getitem (nome : string) : M state (list Z) := fun s =>
  match history s !! nome with
  | Some l => (Ok l, s)
  | None => (Raise (KeyError nome), s)
  end.

(** [offline_time[nome]] *)
Definition offline_time_getitem (nome : string) : M state Z := fun s =>
  match offline_time s !! nome with
  | Some n => (Ok n, s)
  | None => (Raise (KeyError nome), s)
  end.

(** [l[-k]] for [k = 1, 2, ...] *)
Definition list_getitem_neg {S A} (l : list A) (k : nat) : M S A :=
  if (0 <? k)%nat && (k <=? length l)%nat
  then match l !! (length l - k)%nat with
       | Some x => ret x
       | None => raise IndexError
       end
  else raise IndexError.

(** [history[nome].pop(0)] *)
Definition history_pop0 (nome : string) : M state unit :=
  l <- history_getitem nome ;;
  match l with
  | [] => raise IndexError
  | _ :: l' => modify (set_history <[nome := l']>)
  end.

(** [timestamps.pop(0)] *)
Definition timestamps_pop0 : M state unit :=
  ts <- gets timestamps ;;
  match ts with
  | [] => raise IndexError
  | _ :: ts' => modify (set_timestamps (fun _ => ts'))
  end.

(** [{n: f(n) for n in keys}], continuing from [acc] *)
Fixpoint dict_comprehension {S V} (acc : list (string * V))
  (keys : list string) (f : string -> M S V) : M S (list (string * V)) :=
  match keys with
  | [] => ret acc
  | n :: keys' => v <- f n ;; dict_comprehension (dict_set acc n v) keys' f
  end.

(** ** [get_status_color] (lines 86-92) *)

Definition get_status_color (name : string) : M state string :=
  data <- history_getitem name ;;
  if len data <? 2 then
    match data with
    | [] => ret "red"
    | _ =>
        x <- list_getitem_neg data 1 ;;
        ret (if x =? 1 then "green" else "red")
    end
  else
    x <- list_getitem_neg data 1 ;;
    y <- list_getitem_neg data 2 ;;
    if negb (x =? y) then ret "yellow"
    else ret (if x =? 1 then "green" else "red").

(** ** [get_status_data] (lines 95-149) *)

(** The body of [for nome, status in status_dict.items()] (lines
    116-141) for one item; [rq] and [ro] are [relatorio_quedas] and
    [relatorio_oscilacoes]. *)
Definition loop_body (current_time nome : string) (status : Z)
  (rq ro : list row) : M state (list row * list row) :=
  h <- history_getitem nome ;;
  (if MAX_HISTORY_LEN <=? len h then history_pop0 nome else ret tt) ;;;
  h <- history_getitem nome ;;
  let prev := last h in
  modify (set_history <[nome := h ++ [status]]>) ;;;
  (if status =? 0 then
     n <- offline_time_getitem nome ;;
     modify (set_offline_time <[nome := n + CHECK_INTERVAL]>)
   else modify (set_offline_time <[nome := 0]>)) ;;;
  ro' <- match prev with
         | Some p =>
             if negb (p =? status) then
               modify (set_oscillation_detected <[nome := true]>) ;;;
               ret (ro ++ [mkRow current_time nome Dash "Oscilação"])
             else
               modify (set_oscillation_detected <[nome := false]>) ;;;
               ret ro
         | None =>
             modify (set_oscillation_detected <[nome := false]>) ;;;
             ret ro
         end ;;
  n <- offline_time_getitem nome ;;
  ret (if 5 <=? n
       then rq ++ [mkRow current_time nome (Seconds n) "Queda"]
       else rq,
       ro').

Fixpoint for_items (current_time : string) (items : list (string * Z))
  (rq ro : list row) : M state (list row * list row) :=
  match items with
  | [] => ret (rq, ro)
  | (nome, status) :: items' =>
      r <- loop_body current_time nome status rq ro ;;
      for_items current_time items' (fst r) (snd r)
  end.

(** The [with lock:] block (lines 107-149): the update of the rolling
    state from this round's [status_dict], and the result dictionary. *)
Definition locked_update (current_time : string)
  (status_dict : list (string * Z)) : M state snapshot :=
  ts <- gets timestamps ;;
  (if MAX_HISTORY_LEN <=? len ts then timestamps_pop0 else ret tt) ;;;
  modify (set_timestamps (fun ts => ts ++ [current_time])) ;;;
  r <- for_items current_time status_dict [] [] ;;
  ts <- gets timestamps ;;
  data <- dict_comprehension [] ORDERED_NAMES history_getitem ;;
  status_colors <- dict_comprehension [] ORDERED_NAMES get_status_color ;;
  ret (mkSnapshot ts data status_colors (fst r) (snd r)).

(** [for fut in as_completed(futures): status_dict[nome] = status]
    (lines 101-105). [completed] is the order in which the futures
    complete; each future is one call of [check_site]. The request
    counters of distinct URLs are independent, so running the probes in
    this order gives the results the pool gives. *)
Fixpoint collect_results (completed : list (string * string))
  (status_dict : list (string * Z)) : M state (list (string * Z)) :=
  match completed with
  | [] => ret status_dict
  | (n, u) :: completed' =>
      r <- check_site n u ;;
      collect_results completed' (dict_set status_dict (fst r) (snd r))
  end.

(** One round. The clock reading [current_time] and the completion
    order [completed] of the futures (a permutation of
    [SITES.items()]) come from the environment. *)
Definition get_status_data (current_time : string)
  (completed : list (string * string)) : M state snapshot :=
  status_dict <- collect_results completed [] ;;
  locked_update current_time status_dict.

(** ** The background loop and its start (lines 155-174) *)

(** One iteration of [while True] in [_background_loop], without the
    sleep. *)
Definition _background_loop_iteration (current_time : string)
  (completed : list (string * string)) : M state unit :=
  try_except
    (new_data <- get_status_data current_time completed ;;
     modify (set_LATEST_DATA (Some new_data)))
    (fun _ => modify (print "[MONITOR LOOP ERRO]")).

Definition ensure_started : M state unit :=
  started <- gets _thread_started ;;
  if negb started then
    modify (start_thread "monitor_loop") ;;;
    modify (set_thread_started true) ;;;
    modify (print "[Monitor] Thread de monitoramento iniciada.")
  else ret tt.

(** The same function one statement at a time, for callers that run
    at once: the test of the flag, [t.start()], the assignment to the
    flag and the [print] are separate steps, and nothing in the source
    keeps another caller from running between two of them. *)
Inductive es_pc := EsTest | EsStart | EsSetFlag | EsPrint | EsDone.

Definition ensure_started_step (pc : es_pc) (s : state) : es_pc * state :=
  match pc with
  | EsTest => (if negb (_thread_started s) then EsStart else EsDone, s)
  | EsStart => (EsSetFlag, start_thread "monitor_loop" s)
  | EsSetFlag => (EsPrint, set_thread_started true s)
  | EsPrint =>
      (EsDone, print "[Monitor] Thread de monitoramento iniciada." s)
  | EsDone => (EsDone, s)
  end.

(** [schedule] names, step after step, the caller that moves. *)
Fixpoint interleave (schedule : list nat) (pcs : list es_pc) (s : state)
  : list es_pc * state :=
  match schedule with
  | [] => (pcs, s)
  | i :: schedule' =>
      match pcs !! i with
      | Some pc =>
          let r := ensure_started_step pc s in
          interleave schedule' (<[i := fst r]> pcs) (snd r)
      | None => interleave schedule' pcs s
      end
  end.

(** Calls one after the other. *)
Fixpoint call_n_times (n : nat) (s : state) : state :=
  match n with
  | O => s
  | S n' => call_n_times n' (snd (ensure_started s))
  end.

Definition running_loops (s : state) : nat :=
  length (filter (fun t => t = "monitor_loop") (threads s)).

(** ** [_get_current_data] ([app.py], lines 82-104) *)

(** The values the globals of [app.py] can hold: [None], or a
    dictionary that is [{}] ([PyDict None]) or a round's result. *)
Inductive pyval :=
| PyNone
| PyDict (d : option snapshot).

(** [app.py]'s own globals. [app_LATEST_DATA] is the name bound by
    [from monitor import LATEST_DATA]; [monitor_get_status_data] tells
    whether that name is callable. *)
Record app_globals := mkApp {
  app_LATEST_DATA : pyval;
  _local_latest : pyval;
  monitor_get_status_data : bool }.

(** [isinstance(x, dict) and x.get("timestamps") is not None] *)
Definition has_timestamps (x : pyval) : option snapshot :=
  match x with
  | PyDict (Some d) => Some d
  | _ => None
  end.

Definition empty_snapshot : snapshot := mkSnapshot [] [] [] [] [].

Definition _get_current_data (g : app_globals) (current_time : string)
  (completed : list (string * string)) : M state snapshot :=
  r1 <- try_except (ret (has_timestamps (app_LATEST_DATA g)))
          (fun _ => ret None) ;;
  match r1 with
  | Some d => ret d
  | None =>
      r2 <- try_except (ret (has_timestamps (_local_latest g)))
              (fun _ => ret None) ;;
      match r2 with
      | Some d => ret d
      | None =>
          r3 <- try_except
                  (if monitor_get_status_data g then
                     d <- get_status_data current_time completed ;;
                     ret (Some d)
                   else ret None)
                  (fun _ => modify (print "Traceback") ;;; ret None) ;;
          match r3 with
          | Some d => ret d
          | None => ret empty_snapshot
          end
      end
  end.

(** * Vocabulary of the proofs *)

(** ** The prober *)

(** The sample a probe of [url] gives in the world [w]: 1 when the next
    response of [url] has status 200, else 0. *)
Definition probe_status (w : net) (url : string) : Z :=
  match respond w url (request_count w url) with
  | Response status_code => if status_code =? 200 then 1 else 0
  | _ => 0
  end.

(** The world after one more request to [url]. *)
Definition requested (url : string) (w : net) : net :=
  mkNet (respond w) (<[url := S (request_count w url)]> (requests w)).

(** ** The status colour *)

(** The colour as a function of the buffer. *)
Definition color_of (data : list Z) : string :=
  match reverse data with
  | [] => "red"
  | [x] => if x =? 1 then "green" else "red"
  | y :: x :: _ =>
      if negb (x =? y) then "yellow"
      else if y =? 1 then "green" else "red"
  end.

(** ** One endpoint in one round *)

(** A rolling list after one append: the oldest element leaves first
    when the list is full. *)
Definition trim {A} (l : list A) : list A :=
  if MAX_HISTORY_LEN <=? len l then tail l else l.

Definition push {A} (l : list A) (x : A) : list A := trim l ++ [x].

Definition next_offline (status n : Z) : Z :=
  if status =? 0 then n + CHECK_INTERVAL else 0.

Definition flapped (h : list Z) (status : Z) : bool :=
  match last (trim h) with
  | Some p => negb (p =? status)
  | None => false
  end.

Definition queda_rows (current_time nome : string) (n : Z) : list row :=
  if 5 <=? n then [mkRow current_time nome (Seconds n) "Queda"] else [].

Definition flap_rows (current_time nome : string) (b : bool) : list row :=
  if b then [mkRow current_time nome Dash "Oscilação"] else [].

Definition endpoint_update (nome : string) (h : list Z) (n : Z) (osc : bool)
  (s : state) : state :=
  set_oscillation_detected <[nome := osc]>
    (set_offline_time <[nome := n]> (set_history <[nome := h]> s)).

(** What the state holds for one endpoint, and everything else. *)
Definition ep_state (s : state) (e : string)
  : option (list Z) * option Z * option bool :=
  (history s !! e, offline_time s !! e, oscillation_detected s !! e).

Definition rest (s : state) :=
  (timestamps s, LATEST_DATA s, _thread_started s, threads s, console s,
   network s).

Definition known (s : state) (e : string) : Prop :=
  is_Some (history s !! e) /\ is_Some (offline_time s !! e).

Definition rows_of (e : string) (rows : list row) : list row :=
  filter (fun r => r_nome r = e) rows.

(** ** The update under the lock *)

(** The round's timestamp appended to the rolling list, once. *)
Definition stamped (t : string) (s : state) : state :=
  set_timestamps (fun ts => push ts t) s.

(** ** Collecting the probes of a round *)

(** The world after one request to each of [urls]. *)
Definition net_after (urls : list string) (w : net) : net :=
  fold_left (fun w u => requested u w) urls w.

(** ** One round *)

(** Every configured unit has its buffer and its counter. *)
Definition ready (s : state) : Prop :=
  forall e, e ∈ ORDERED_NAMES -> known s e.

(** ** Several rounds *)

(** Rounds run one after the other, as the loop runs them. A round is
    the clock reading and the completion order of its futures; the
    result and the state after each round are kept. *)
Fixpoint run_rounds (rounds : list (string * list (string * string)))
  (s : state) : list (outcome snapshot * state) :=
  match rounds with
  | [] => []
  | (t, completed) :: rounds' =>
      let r := get_status_data t completed s in
      r :: run_rounds rounds' (snd r)
  end.

Fixpoint state_after (rounds : list (string * list (string * string)))
  (s : state) : state :=
  match rounds with
  | [] => s
  | (t, completed) :: rounds' =>
      state_after rounds' (snd (get_status_data t completed s))
  end.

(** The completion order of every round is a permutation of
    [SITES.items()]: each future completes once. *)
Definition valid_rounds (rounds : list (string * list (string * string)))
  : Prop :=
  Forall (fun r => snd r ≡ₚ SITES) rounds.

(** The sample the [i]-th probe of [url] from now on gives. *)
Definition sample_at (w : net) (url : string) (i : nat) : Z :=
  match respond w url (request_count w url + i) with
  | Response status_code => if status_code =? 200 then 1 else 0
  | _ => 0
  end.

(** The timestamps and samples one endpoint sees over the rounds. *)
Fixpoint inputs_of (w : net) (url : string) (i : nat)
  (rounds : list (string * list (string * string))) : list (string * Z) :=
  match rounds with
  | [] => []
  | (t, _) :: rounds' => (t, sample_at w url i) :: inputs_of w url (S i) rounds'
  end.

(** What a round shows of one endpoint: its buffer, counter and flag
    after the round, its rows in the two reports, its colour. *)
Record observation := mkObs {
  o_buffer : option (list Z);
  o_downtime : option Z;
  o_flag : option bool;
  o_quedas : list row;
  o_oscilacoes : list row;
  o_color : option string }.

Definition observe (e : string) (r : outcome snapshot * state)
  : option observation :=
  match fst r with
  | Ok snap =>
      Some (mkObs (history (snd r) !! e) (offline_time (snd r) !! e)
              (oscillation_detected (snd r) !! e)
              (rows_of e (s_quedas snap)) (rows_of e (s_oscilacoes snap))
              (dict_get (s_status_colors snap) e))
  | Raise _ => None
  end.

(** One endpoint on its own, fed its timestamps and samples. *)
Fixpoint ep_run (e : string) (inputs : list (string * Z)) (h : list Z)
  (n : Z) : list (option observation) :=
  match inputs with
  | [] => []
  | (t, status) :: inputs' =>
      let h' := push h status in
      let n' := next_offline status n in
      Some (mkObs (Some h') (Some n') (Some (flapped h status))
              (queda_rows t e n') (flap_rows t e (flapped h status))
              (Some (color_of h')))
      :: ep_run e inputs' h' n'
  end.

(** ** States and worlds of the examples *)

(** A state whose buffer for [name] is [data]. *)
Definition with_buffer (name : string) (data : list Z) (s : state) : state :=
  set_history <[name := data]> s.

(** A world in which every request is answered with status 200. *)
Definition all_up : net := mkNet (fun _ _ => Response 200) ∅.


(** Nothing published yet, the monitor imported. *)
Definition unpublished : app_globals := mkApp (PyDict None) (PyDict None) true.

(** A world in which "Brasnorte" answers twice, then times out four
    times, then answers again, and every other unit always answers. *)
Definition brasnorte_outage : net :=
  mkNet (fun url k =>
           if String.eqb url "https://brasnorte.celk.com.br/"
              && (2 <=? k)%nat && (k <? 6)%nat
           then Timeout else Response 200) ∅.

(** [k] rounds stamped "0", "1", ..., each completing in the order of
    [SITES]. *)
Definition numbered_rounds (k : nat)
  : list (string * list (string * string)) :=
  map (fun i : nat => (pretty i, SITES)) (seq 0 k).

(** A world in which every request is answered with status [code]. *)
Definition always (code : Z) : net := mkNet (fun _ _ => Response code) ∅.

(** ** A run of down samples *)

(** The seconds carried by the "Queda" rows a round reports for [e]. *)
Definition outage_tempos (e : string) (r : outcome snapshot * state)
  : list tempo_val :=
  match fst r with
  | Ok snap => map r_tempo (rows_of e (s_quedas snap))
  | Raise _ => []
  end.

(** A world in which "Brasnorte" never answers. *)
Definition brasnorte_down : net :=
  mkNet (fun url _ =>
           if String.eqb url "https://brasnorte.celk.com.br/"
           then ConnectionError else Response 200) ∅.

(** * Vocabulary of the further properties *)

(** ** The engine between rounds *)

(** What holds between rounds: the time index has at most
    [MAX_HISTORY_LEN] entries, and for every configured unit the buffer
    is as long as the time index and holds samples 0 and 1 only, the
    counter is a multiple of the period, not negative, and zero
    exactly when the latest sample is not a down sample. *)
Definition steady (s : state) : Prop :=
  (length (timestamps s) <= Z.to_nat MAX_HISTORY_LEN)%nat
  /\ forall e, e ∈ ORDERED_NAMES ->
       exists h n,
         history s !! e = Some h
         /\ offline_time s !! e = Some n
         /\ length h = length (timestamps s)
         /\ Forall (fun x => x = 0 \/ x = 1) h
         /\ 0 <= n
         /\ (CHECK_INTERVAL | n)
         /\ (n = 0 <-> last h <> Some 0).

(** ** A round, written out *)

(** The "Queda" and "Oscilação" rows of one item, read off the state
    before the loop. *)
Definition item_quedas (t : string) (s : state) (p : string * Z) : list row :=
  queda_rows t (fst p)
    (next_offline (snd p) (default 0 (offline_time s !! fst p))).

Definition item_oscilacoes (t : string) (s : state) (p : string * Z)
  : list row :=
  flap_rows t (fst p) (flapped (default [] (history s !! fst p)) (snd p)).

(** The result dictionary of the update, written out. *)
Definition result_of (s' : state) (Q O : list row) : snapshot :=
  mkSnapshot (timestamps s')
    (map (fun n => (n, default [] (history s' !! n))) ORDERED_NAMES)
    (map (fun n => (n, color_of (default [] (history s' !! n))))
       ORDERED_NAMES)
    Q O.

(** The map a round collects, and the state it is applied to. *)
Definition status_dict_of (completed : list (string * string)) (s : state)
  : list (string * Z) :=
  map (fun p => (fst p, probe_status (network s) (snd p))) completed.

Definition probed (t : string) (completed : list (string * string))
  (s : state) : state :=
  stamped t (set_network (net_after (map snd completed) (network s)) s).

(** ** Inputs of the examples *)

Definition brasnorte : string * string :=
  ("Brasnorte", "https://brasnorte.celk.com.br/").

(** ** What a round leaves alone *)

(** The published snapshot, the start flag, the threads and the
    console. *)
Definition control (s : state) :=
  (LATEST_DATA s, _thread_started s, threads s, console s).

(** A computation that leaves them as they were, whether it returns
    or raises. *)
Definition quiet {A} (m : M state A) : Prop :=
  forall s, control (snd (m s)) = control s.

(** ** The fallback loop and the JSON route of [app.py] *)

(** One iteration of [while True] in [_fallback_monitor_loop] (lines
    51-59), without the sleep. It returns the globals of [app.py] with
    [_local_latest] rebound. *)
Definition _fallback_monitor_loop_iteration (g : app_globals)
  (current_time : string) (completed : list (string * string))
  : M state app_globals :=
  try_except
    (data <- get_status_data current_time completed ;;
     ret (mkApp (app_LATEST_DATA g) (PyDict (Some data))
            (monitor_get_status_data g)))
    (fun _ =>
       modify (print "[FALLBACK MONITOR] Erro ao atualizar dados.") ;;;
       modify (print "Traceback") ;;;
       ret g).

Fixpoint fallback_iterations (g : app_globals)
  (rounds : list (string * list (string * string))) : M state app_globals :=
  match rounds with
  | [] => ret g
  | (t, completed) :: rounds' =>
      g' <- _fallback_monitor_loop_iteration g t completed ;;
      fallback_iterations g' rounds'
  end.

(** [_fallback_monitor_loop] (lines 43-59), run for the iterations
    whose inputs [rounds] lists. *)
Definition _fallback_monitor_loop (g : app_globals)
  (rounds : list (string * list (string * string))) : M state app_globals :=
  if negb (monitor_get_status_data g) then
    modify (print "[FALLBACK MONITOR] monitor_get_status_data indisponível.") ;;;
    ret g
  else
    modify (print "[FALLBACK MONITOR] Iniciando loop de atualização.") ;;;
    fallback_iterations g rounds.

(** What the route [/data] answers: the JSON body, that is a snapshot
    and, in the error answer, the "alerts" list, and the HTTP status. *)
Record response := mkResponse {
  body : snapshot;
  alerts : option (list string);
  http_status : Z }.

(** The route [/data] (lines 128-142). *)
Definition data (g : app_globals) (current_time : string)
  (completed : list (string * string)) : M state response :=
  try_except
    (dados <- _get_current_data g current_time completed ;;
     ret (mkResponse dados None 200))
    (fun _ =>
       modify (print "Traceback") ;;;
       ret (mkResponse empty_snapshot
              (Some ["Erro ao obter dados do monitoramento"]) 500)).

(** A completion that names a unit no dictionary knows. *)
Definition stray_completion : list (string * string) :=
  [("Unknown", "https://unknown.example/")].

(** The globals of [app.py] when only [get_status_data] could be
    imported: no [LATEST_DATA], an empty local cache. *)
Definition fallback_globals : app_globals := mkApp PyNone (PyDict None) true.

(** ** Callers of [ensure_started] running at once *)

(** A caller that has made its call to [t.start()]. *)
Definition has_started (pc : es_pc) : bool :=
  match pc with
  | EsSetFlag | EsPrint | EsDone => true
  | EsTest | EsStart => false
  end.

(** What every interleaving keeps: the flag is only ever set after a
    thread was started, a caller is past the assignment only if the
    flag is set, and no more threads run than callers went past
    [t.start()]. *)
Definition start_invariant (pcs : list es_pc) (s : state) : Prop :=
  (_thread_started s = true -> (1 <= running_loops s)%nat)
  /\ (EsSetFlag ∈ pcs -> (1 <= running_loops s)%nat)
  /\ (forall pc, pc ∈ pcs -> pc = EsPrint \/ pc = EsDone ->
        _thread_started s = true)
  /\ (running_loops s <= length (filter (fun pc => has_started pc = true) pcs))%nat.

(** ** The rows of the fallback report ([app.py], lines 201-215) *)

(** [float(n)] for an integer: the integer itself when a float holds
    it exactly, that is when [|n| <= 2^53]. Beyond that the model
    stops ([None]). *)
Definition float_of_int (n : Z) : option Z :=
  if Z.abs n <=? 2 ^ 53 then Some n else None.

(** [tempo_num]: [float(tempo)], or [0.0] when [tempo] is ["-"]. *)
Definition tempo_num (tempo : tempo_val) : option Z :=
  match tempo with
  | Seconds n => float_of_int n
  | Dash => Some 0
  end.

(** [f"{x:.1f}"] for a float that holds the integer [x]. *)
Definition format_1f (x : Z) : string := pretty x +:+ ".0".

(** The loop over [quedas] (lines 205-212). *)
Fixpoint relatorio_quedas (quedas : list row)
  : option (list (string * string * string * string)) :=
  match quedas with
  | [] => Some []
  | q :: quedas' =>
      match tempo_num (r_tempo q), relatorio_quedas quedas' with
      | Some x, Some rows =>
          Some (if 5 <? x
                then (r_data q, r_nome q, format_1f x, "Queda") :: rows
                else rows)
      | _, _ => None
      end
  end.

(** The list [relatorio] of [download_relatorio] once both loops have
    run (lines 201-215). *)
Definition relatorio (dados : snapshot)
  : option (list (string * string * string * string)) :=
  match relatorio_quedas (s_quedas dados) with
  | Some rows =>
      Some (rows ++ map (fun o => (r_data o, r_nome o, "-", "Oscilação"))
                      (s_oscilacoes dados))
  | None => None
  end.

(** ** The report of [gerar_relatorio_pdf] ([monitor.py], lines 261-417)

    The function prepares counts and table rows from a snapshot and
    hands a list of flowables to ReportLab. The flowables are modelled
    with their texts; styles, colours and column widths, which decide
    the layout only, are left out, and so is the rendering. *)

(** A table cell: a string, or a [Paragraph] with its style's name. *)
Inductive cell :=
| Text (s : string)
| Par (text style : string).

Inductive flowable :=
| Table (rows : list (list cell))
| Paragraph (text style : string)
| Spacer (height : Z)
| KeepTogether (rows : list (list cell)).

(** [d[k] += v] on a [Counter] or a [defaultdict(int)]. *)
Definition counter_add (d : list (string * Z)) (k : string) (v : Z)
  : list (string * Z) :=
  dict_set d k (default 0 (dict_get d k) + v).

(** [Counter(e["nome"] for e in quedas)] *)
Definition cont_por_unidade (quedas : list row) : list (string * Z) :=
  fold_left (fun d e => counter_add d (r_nome e) 1) quedas [].

(** The loop of lines 275-278. *)
Definition tempo_por_unidade (quedas : list row) : list (string * Z) :=
  fold_left
    (fun d e =>
       match r_tempo e with
       | Seconds t => counter_add d (r_nome e) t
       | Dash => d
       end) quedas [].

(** A stable sort: [x] goes before the first element it is not above. *)
Fixpoint insert_by {A} (le : A -> A -> bool) (x : A) (l : list A) : list A :=
  match l with
  | [] => [x]
  | y :: l' => if le x y then x :: y :: l' else y :: insert_by le x l'
  end.

Definition sorted_by {A} (le : A -> A -> bool) (l : list A) : list A :=
  foldr (insert_by le) [] l.

(** [Counter.most_common(n)]: the [n] first of the entries sorted by
    count, largest first, entries of equal count in insertion order. *)
Definition most_common (n : nat) (c : list (string * Z))
  : list (string * Z) :=
  take n (sorted_by (fun x y => snd y <=? snd x) c).

(** [(x["data"], x["nome"]) <= (y["data"], y["nome"])] *)
Definition key_le (x y : row) : bool :=
  match String.compare (r_data x) (r_data y) with
  | Lt => true
  | Eq => String.leb (r_nome x) (r_nome y)
  | Gt => false
  end.

(** [tempo_fmt] (lines 355 and 394) *)
Definition tempo_fmt (e : row) : string :=
  match r_tempo e with
  | Seconds n => pretty n +:+ " s"
  | Dash => "-"
  end.

(** [len(set(e["nome"] for e in eventos)) if eventos else 0] *)
Definition unidades_afetadas (eventos : list row) : nat :=
  length (remove_dups (map r_nome eventos)).

Definition resumo_data (dados : snapshot) : list (list cell) :=
  let quedas := s_quedas dados in
  let oscs := s_oscilacoes dados in
  let eventos := quedas ++ oscs in
  [ [ Par "<b>Total de eventos</b>" "normal"; Par "<b>Quedas</b>" "normal";
      Par "<b>Oscilações</b>" "normal";
      Par "<b>Unidades afetadas</b>" "normal" ];
    [ Par (pretty (length eventos)) "h2"; Par (pretty (length quedas)) "h2";
      Par (pretty (length oscs)) "h2";
      Par (pretty (unidades_afetadas eventos)) "h2" ] ].

Definition top_rows (quedas : list row) : list (list cell) :=
  [Text "Unidade"; Text "Quedas"; Text "Tempo Offline (s)"]
  :: match most_common 5 (cont_por_unidade quedas) with
     | [] => [[Text "—"; Text "0"; Text "0"]]
     | top5 =>
         map (fun p =>
                [ Text (fst p); Text (pretty (snd p));
                  Text (pretty
                          (default 0
                             (dict_get (tempo_por_unidade quedas) (fst p)))) ])
           top5
     end.

(** [linhas_q] and [linhas_o] (lines 353-356 and 392-395) *)
Definition linhas (badge style : string) (rows : list row)
  : list (list cell) :=
  [Text "Data/Hora"; Text "Unidade"; Text "Tempo Offline"; Text "Tipo"]
  :: map (fun e =>
            [ Text (r_data e); Text (r_nome e); Text (tempo_fmt e);
              Par badge style ])
       (sorted_by key_le rows).

Definition info_table (text : string) : flowable :=
  Table [[Par text "normal"]].

(** The list [story] handed to [doc.build], and the returned path. *)
Definition gerar_relatorio_pdf (dados : snapshot) (arquivo_pdf : string)
  : list flowable * string :=
  let quedas := s_quedas dados in
  let oscs := s_oscilacoes dados in
  ([ Table (resumo_data dados);
     Spacer 8;
     Paragraph "Top 5 unidades com mais quedas" "muted";
     Table (top_rows quedas);
     Spacer 14;
     Paragraph "Tabela de Quedas" "h2";
     match quedas with
     | [] => info_table "Nenhuma queda registrada no período."
     | _ => KeepTogether (linhas "Queda" "badge_red" quedas)
     end;
     Spacer 16;
     Paragraph "Tabela de Oscilações" "h2";
     match oscs with
     | [] => info_table "Nenhuma oscilação registrada no período."
     | _ => KeepTogether (linhas "Oscilação" "badge_amber" oscs)
     end ],
   arquivo_pdf).

(** The seconds a row carries, 0 for a row that carries ["-"]. *)
Definition seconds_of (e : row) : Z :=
  match r_tempo e with
  | Seconds t => t
  | Dash => 0
  end.

Definition total_seconds (rows : list row) : Z :=
  foldr Z.add 0 (map seconds_of rows).

(** ** Reads one after the other *)

(** Calls of [_get_current_data], each with the inputs of the round it
    may run; the result and the state after each call are kept. *)
Fixpoint reads (g : app_globals)
  (rounds : list (string * list (string * string))) (s : state)
  : list (outcome snapshot * state) :=
  match rounds with
  | [] => []
  | (t, completed) :: rounds' =>
      let r := _get_current_data g t completed s in
      r :: reads g rounds' (snd r)
  end.

(** * Verification *)

(** A decidable fact about the configuration, settled by evaluation. *)
Ltac by_computation := apply (bool_decide_unpack _); vm_compute; exact I.

(** ** The prober *)

Lemma check_site_eq nome url s :
  check_site nome url s
  = (Ok (nome, probe_status (network s) url),
     set_network (requested url (network s)) s).
Proof.
  unfold check_site, try_except, bind, session_get, probe_status, requested.
  destruct (respond (network s) url (request_count (network s) url));
    reflexivity.
Qed.

Example check_site_200 :
  fst (check_site "Brasnorte" "https://brasnorte.celk.com.br/"
         (initial_state (always 200)))
  = Ok ("Brasnorte", 1).
Proof. reflexivity. Qed.

Example check_site_204 :
  fst (check_site "Brasnorte" "https://brasnorte.celk.com.br/"
         (initial_state (always 204)))
  = Ok ("Brasnorte", 0).
Proof. reflexivity. Qed.

Example check_site_503 :
  fst (check_site "Brasnorte" "https://brasnorte.celk.com.br/"
         (initial_state (always 503)))
  = Ok ("Brasnorte", 0).
Proof. reflexivity. Qed.

Lemma request_count_requested url url' w :
  request_count (requested url w) url'
  = if decide (url = url') then S (request_count w url)
    else request_count w url'.
Proof.
  unfold request_count at 1, requested. simpl.
  rewrite lookup_insert. destruct (decide (url = url')); reflexivity.
Qed.

(** ** Negative indices *)

Lemma list_getitem_neg_1 {St A} (l : list A) (x : A) (s : St) :
  list_getitem_neg (l ++ [x]) 1 s = (Ok x, s).
Proof.
  unfold list_getitem_neg. rewrite length_app. cbn [length].
  assert (E : (0 <? 1)%nat && (1 <=? length l + 1)%nat = true).
  { apply andb_true_intro. split; [reflexivity | apply Nat.leb_le; lia]. }
  rewrite E. replace (length l + 1 - 1)%nat with (length l) by lia.
  rewrite lookup_app_r by lia. rewrite Nat.sub_diag. reflexivity.
Qed.

Lemma list_getitem_neg_2 {St A} (l : list A) (x y : A) (s : St) :
  list_getitem_neg (l ++ [x; y]) 2 s = (Ok x, s).
Proof.
  unfold list_getitem_neg. rewrite length_app. cbn [length].
  assert (E : (0 <? 2)%nat && (2 <=? length l + 2)%nat = true).
  { apply andb_true_intro. split; [reflexivity | apply Nat.leb_le; lia]. }
  rewrite E. replace (length l + 2 - 2)%nat with (length l) by lia.
  rewrite lookup_app_r by lia. rewrite Nat.sub_diag. reflexivity.
Qed.

(** A list of two or more elements ends in two elements. *)
Lemma list_two_last {A} (l : list A) :
  (2 <= length l)%nat -> exists pre x y, l = pre ++ [x; y].
Proof.
  intros H.
  destruct (decide (l = [])) as [->|Hne]; [simpl in H; lia|].
  destruct (exists_last Hne) as (l1 & y & ->).
  rewrite length_app in H. simpl in H.
  destruct (decide (l1 = [])) as [->|Hne1]; [simpl in H; lia|].
  destruct (exists_last Hne1) as (pre & x & ->).
  exists pre, x, y. rewrite <- app_assoc. reflexivity.
Qed.

(** ** The status colour *)

Lemma get_status_color_eq name data s :
  history s !! name = Some data ->
  get_status_color name s = (Ok (color_of data), s).
Proof.
  intros H. unfold get_status_color, bind, history_getitem. rewrite H.
  destruct (len data <? 2) eqn:E.
  - apply Z.ltb_lt in E. unfold len in E.
    destruct data as [|x [|y data]]; simpl in E; try lia; [reflexivity|].
    change [x] with ([] ++ [x]). rewrite list_getitem_neg_1. reflexivity.
  - apply Z.ltb_ge in E. unfold len in E.
    destruct (list_two_last data) as (pre & x & y & ->); [lia|].
    change (pre ++ [x; y]) with (pre ++ [x] ++ [y]) at 1.
    rewrite app_assoc, list_getitem_neg_1, list_getitem_neg_2.
    unfold color_of. rewrite reverse_app. simpl.
    rewrite (Z.eqb_sym y x).
    destruct (x =? y); reflexivity.
Qed.

(** ** One endpoint in one round *)

Lemma set_history_twice nome (a b : list Z) s :
  set_history <[nome := a]> (set_history <[nome := b]> s)
  = set_history <[nome := a]> s.
Proof.
  unfold set_history. simpl. rewrite insert_insert_eq. reflexivity.
Qed.

Lemma loop_body_eq current_time nome status rq ro s h n :
  history s !! nome = Some h ->
  offline_time s !! nome = Some n ->
  loop_body current_time nome status rq ro s
  = (Ok (rq ++ queda_rows current_time nome (next_offline status n),
         ro ++ flap_rows current_time nome (flapped h status)),
     endpoint_update nome (push h status) (next_offline status n)
       (flapped h status) s).
Proof.
  intros Hh Hn.
  assert (Hpop :
    (if MAX_HISTORY_LEN <=? len h then history_pop0 nome else ret tt) s
    = (Ok tt, set_history <[nome := trim h]> s)).
  { unfold trim. destruct (MAX_HISTORY_LEN <=? len h) eqn:E.
    - unfold history_pop0, bind, history_getitem. rewrite Hh.
      destruct h as [|x h']; [discriminate E | reflexivity].
    - unfold ret, set_history. rewrite insert_id by exact Hh.
      destruct s; reflexivity. }
  unfold loop_body, bind at 1. unfold history_getitem at 1. rewrite Hh.
  unfold bind at 1. rewrite Hpop.
  unfold bind at 1. unfold history_getitem at 1.
  cbn [history set_history]. rewrite lookup_insert_eq.
  unfold bind at 1, modify at 1.
  unfold push, flapped, next_offline, queda_rows, flap_rows, endpoint_update.
  set (h1 := trim h).
  assert (Hoff : forall s0 : state,
    offline_time s0 !! nome = Some n ->
    (if status =? 0
     then n0 <- offline_time_getitem nome ;;
          modify (set_offline_time <[nome := n0 + CHECK_INTERVAL]>)
     else modify (set_offline_time <[nome := 0]>)) s0
    = (Ok tt,
       set_offline_time
         <[nome := if status =? 0 then n + CHECK_INTERVAL else 0]> s0)).
  { intros s0 H0. destruct (status =? 0); [|reflexivity].
    unfold bind, offline_time_getitem. rewrite H0. reflexivity. }
  unfold bind at 1. rewrite Hoff by exact Hn. clear Hoff Hpop.
  set (n' := if status =? 0 then n + CHECK_INTERVAL else 0).
  unfold bind at 1.
  destruct (last h1) as [p|] eqn:El; [destruct (negb (p =? status))|].
  all: unfold bind, modify, ret, offline_time_getitem;
    rewrite set_history_twice; simpl; rewrite lookup_insert_eq;
    destruct (5 <=? n'); rewrite ?app_nil_r; reflexivity.
Qed.

Lemma ep_state_endpoint_update nome h n osc s e :
  ep_state (endpoint_update nome h n osc s) e
  = if decide (nome = e) then (Some h, Some n, Some osc) else ep_state s e.
Proof.
  unfold ep_state, endpoint_update. simpl.
  rewrite !lookup_insert. destruct (decide (nome = e)); reflexivity.
Qed.

Lemma known_endpoint_update nome h n osc s e :
  known s e -> known (endpoint_update nome h n osc s) e.
Proof.
  unfold known, endpoint_update. simpl. rewrite !lookup_insert.
  destruct (decide (nome = e)); [eauto | tauto].
Qed.

Lemma rows_of_app e (a b : list row) :
  rows_of e (a ++ b) = rows_of e a ++ rows_of e b.
Proof. apply filter_app. Qed.

Lemma rows_of_queda_rows e t nome n :
  rows_of e (queda_rows t nome n)
  = if decide (nome = e) then queda_rows t nome n else [].
Proof.
  unfold rows_of, queda_rows.
  destruct (5 <=? n); [|destruct (decide (nome = e)); reflexivity].
  rewrite filter_cons. simpl.
  destruct (decide (nome = e)); reflexivity.
Qed.

Lemma rows_of_flap_rows e t nome b :
  rows_of e (flap_rows t nome b)
  = if decide (nome = e) then flap_rows t nome b else [].
Proof.
  unfold rows_of, flap_rows.
  destruct b; [|destruct (decide (nome = e)); reflexivity].
  rewrite filter_cons. simpl.
  destruct (decide (nome = e)); reflexivity.
Qed.

(** The loop over the items of a [status_dict] whose keys are all keys
    of [history] and [offline_time]: it does not raise; an endpoint
    with an item is updated from that item alone, an endpoint without
    one is left as it was. *)
Lemma for_items_spec t items :
  forall rq ro s,
    NoDup (map fst items) ->
    (forall e, e ∈ map fst items -> known s e) ->
    exists Q O s',
      for_items t items rq ro s = (Ok (rq ++ Q, ro ++ O), s')
      /\ rest s' = rest s
      /\ (forall e, known s e -> known s' e)
      /\ (forall e, e ∉ map fst items ->
            ep_state s' e = ep_state s e
            /\ rows_of e Q = [] /\ rows_of e O = [])
      /\ (forall e status h n,
            (e, status) ∈ items ->
            history s !! e = Some h ->
            offline_time s !! e = Some n ->
            ep_state s' e
            = (Some (push h status), Some (next_offline status n),
               Some (flapped h status))
            /\ rows_of e Q = queda_rows t e (next_offline status n)
            /\ rows_of e O = flap_rows t e (flapped h status)).
Proof.
  induction items as [|[nome status] items IH]; intros rq ro s Hnd Hk.
  - exists [], [], s. simpl. rewrite !app_nil_r.
    split; [reflexivity|]. split; [reflexivity|]. split; [auto|].
    split; [intros e _; auto|].
    intros e st h n Hin. inversion Hin.
  - simpl in Hnd. apply NoDup_cons in Hnd as [Hnotin Hnd].
    destruct (Hk nome) as [[h Hh] [n Hn]]; [simpl; left|].
    simpl. unfold bind at 1.
    rewrite (loop_body_eq t nome status rq ro s h n Hh Hn). cbn [fst snd].
    set (s1 := endpoint_update nome (push h status) (next_offline status n)
                 (flapped h status) s).
    destruct (IH (rq ++ queda_rows t nome (next_offline status n))
                 (ro ++ flap_rows t nome (flapped h status)) s1 Hnd)
      as (Q & O & s' & Hrun & Hrest & Hknown & Hout & Hin).
    { intros e He. apply known_endpoint_update, Hk. simpl. right. exact He. }
    exists (queda_rows t nome (next_offline status n) ++ Q),
           (flap_rows t nome (flapped h status) ++ O), s'.
    rewrite !app_assoc. split; [exact Hrun|].
    split; [rewrite Hrest; reflexivity|].
    split; [intros e He; apply Hknown, known_endpoint_update, He|].
    split.
    + intros e He. apply not_elem_of_cons in He as [Hne He].
      destruct (Hout e He) as (H1 & H2 & H3).
      rewrite H1, !rows_of_app, H2, H3.
      rewrite rows_of_queda_rows, rows_of_flap_rows.
      unfold s1. rewrite ep_state_endpoint_update.
      destruct (decide (nome = e)); [congruence | auto].
    + intros e st h0 n0 He Hh0 Hn0.
      rewrite !rows_of_app, rows_of_queda_rows, rows_of_flap_rows.
      apply elem_of_cons in He as [Heq | He].
      * injection Heq as -> ->.
        destruct (Hout nome Hnotin) as (H1 & H2 & H3).
        rewrite H1, H2, H3, !app_nil_r.
        unfold s1. rewrite ep_state_endpoint_update.
        destruct (decide (nome = nome)); [|congruence].
        replace h0 with h by congruence. replace n0 with n by congruence.
        auto.
      * assert (Hne : nome <> e).
        { intros ->. apply Hnotin.
          apply (list_elem_of_fmap_2 fst) in He. exact He. }
        assert (Hs1 : ep_state s1 e = ep_state s e).
        { unfold s1. rewrite ep_state_endpoint_update.
          destruct (decide (nome = e)); [congruence | reflexivity]. }
        assert (E1 : history s1 !! e = history s !! e)
          by exact (f_equal (fun x => fst (fst x)) Hs1).
        assert (E2 : offline_time s1 !! e = offline_time s !! e)
          by exact (f_equal (fun x => snd (fst x)) Hs1).
        destruct (Hin e st h0 n0 He) as (H1 & H2 & H3); [congruence..|].
        destruct (decide (nome = e)); [congruence|]. simpl. auto.
Qed.

(** ** Ordered dictionaries *)

Lemma dict_get_dict_set {V} (d : list (string * V)) k v k' :
  dict_get (dict_set d k v) k'
  = if decide (k = k') then Some v else dict_get d k'.
Proof.
  induction d as [|[k0 v0] d IH]; simpl.
  - destruct (String.eqb_spec k k'), (decide (k = k')); congruence.
  - destruct (String.eqb_spec k0 k) as [->|Hne]; simpl.
    + destruct (String.eqb_spec k k'), (decide (k = k')); congruence.
    + rewrite IH.
      destruct (String.eqb_spec k0 k'), (decide (k = k')); congruence.
Qed.

(** Setting a key that is not there appends it. *)
Lemma dict_set_fresh {V} (d : list (string * V)) k v :
  k ∉ map fst d -> dict_set d k v = d ++ [(k, v)].
Proof.
  induction d as [|[k0 v0] d IH]; simpl; intros H; [reflexivity|].
  apply not_elem_of_cons in H as [Hne H].
  destruct (String.eqb_spec k0 k); [congruence|].
  rewrite IH by exact H. reflexivity.
Qed.

Lemma dict_comprehension_ok {St V} (g : string -> V)
  (f : string -> M St V) keys :
  forall acc s,
    (forall n, n ∈ keys -> f n s = (Ok (g n), s)) ->
    dict_comprehension acc keys f s
    = (Ok (fold_left (fun d n => dict_set d n (g n)) keys acc), s).
Proof.
  induction keys as [|k keys IH]; intros acc s H; simpl; [reflexivity|].
  unfold bind. rewrite H by left.
  apply IH. intros n Hn. apply H. right. exact Hn.
Qed.

Lemma dict_get_comprehension {V} (g : string -> V) keys e :
  forall acc,
    dict_get (fold_left (fun d n => dict_set d n (g n)) keys acc) e
    = if decide (e ∈ keys) then Some (g e) else dict_get acc e.
Proof.
  induction keys as [|k keys IH]; intros acc; simpl.
  - destruct (decide (e ∈ [])) as [H|_]; [inversion H | reflexivity].
  - rewrite IH, dict_get_dict_set.
    destruct (decide (e ∈ keys)) as [H|H].
    + rewrite decide_True by (right; exact H). reflexivity.
    + destruct (decide (k = e)) as [->|Hne].
      * rewrite decide_True by left. reflexivity.
      * rewrite decide_False; [reflexivity|].
        intros H'. apply elem_of_cons in H' as [?|?]; congruence.
Qed.

(** ** The update under the lock *)

Lemma locked_update_spec t status_dict s :
  NoDup (map fst status_dict) ->
  (forall e, e ∈ map fst status_dict -> known s e) ->
  (forall e, e ∈ ORDERED_NAMES -> known s e) ->
  exists snap s',
    locked_update t status_dict s = (Ok snap, s')
    /\ rest s' = rest (stamped t s)
    /\ s_timestamps snap = push (timestamps s) t
    /\ (forall e, known s e -> known s' e)
    /\ (forall e, e ∉ map fst status_dict ->
          ep_state s' e = ep_state s e
          /\ rows_of e (s_quedas snap) = []
          /\ rows_of e (s_oscilacoes snap) = [])
    /\ (forall e status h n,
          (e, status) ∈ status_dict ->
          history s !! e = Some h ->
          offline_time s !! e = Some n ->
          ep_state s' e
          = (Some (push h status), Some (next_offline status n),
             Some (flapped h status))
          /\ rows_of e (s_quedas snap)
             = queda_rows t e (next_offline status n)
          /\ rows_of e (s_oscilacoes snap)
             = flap_rows t e (flapped h status))
    /\ (forall e data,
          e ∈ ORDERED_NAMES ->
          history s' !! e = Some data ->
          dict_get (s_data snap) e = Some data
          /\ dict_get (s_status_colors snap) e = Some (color_of data)).
Proof.
  intros Hnd Hk Hnames.
  assert (Hstamp :
    (ts <- gets timestamps ;;
     (if MAX_HISTORY_LEN <=? len ts then timestamps_pop0 else ret tt) ;;;
     modify (set_timestamps (fun ts => ts ++ [t]))) s
    = (Ok tt, stamped t s)).
  { unfold bind, gets, stamped, push, trim, timestamps_pop0, modify, ret,
      set_timestamps.
    destruct (MAX_HISTORY_LEN <=? len (timestamps s)) eqn:E;
      [|reflexivity].
    unfold bind, gets.
    destruct (timestamps s) as [|x ts'] eqn:Ets;
      [discriminate E | reflexivity]. }
  destruct (for_items_spec t status_dict [] [] (stamped t s) Hnd)
    as (Q & O & s' & Hrun & Hrest & Hknown & Hout & Hin).
  { intros e He. apply Hk in He. exact He. }
  simpl in Hrun.
  set (snap := mkSnapshot (timestamps s')
    (fold_left (fun d n => dict_set d n (default [] (history s' !! n)))
       ORDERED_NAMES [])
    (fold_left
       (fun d n => dict_set d n (color_of (default [] (history s' !! n))))
       ORDERED_NAMES [])
    Q O).
  assert (Hks' : forall e, e ∈ ORDERED_NAMES -> known s' e).
  { intros e He. apply Hknown. apply (Hnames e He). }
  exists snap, s'.
  split.
  { unfold locked_update.
    unfold bind in Hstamp. unfold bind. unfold gets at 1.
    unfold bind, gets in Hstamp.
    destruct ((if MAX_HISTORY_LEN <=? len (timestamps s)
               then timestamps_pop0 else ret tt) s) as [[[]|ex] s0] eqn:E0;
      [|discriminate Hstamp].
    unfold modify in Hstamp. pose proof (f_equal snd Hstamp) as Hs0.
    cbn [snd] in Hs0. unfold modify at 1. rewrite Hs0, Hrun.
    unfold gets at 1.
    rewrite (dict_comprehension_ok
               (fun n => default [] (history s' !! n))).
    2:{ intros n Hn. destruct (Hks' n Hn) as [[d Hd] _].
        unfold history_getitem. rewrite Hd. reflexivity. }
    rewrite (dict_comprehension_ok
               (fun n => color_of (default [] (history s' !! n)))).
    2:{ intros n Hn. destruct (Hks' n Hn) as [[d Hd] _].
        rewrite (get_status_color_eq n d s' Hd), Hd. reflexivity. }
    reflexivity. }
  split; [exact Hrest|].
  split.
  { unfold snap. cbn [s_timestamps].
    exact (f_equal (fun x => fst (fst (fst (fst (fst x))))) Hrest). }
  split; [intros e He; apply Hknown, He|].
  split; [intros e He; apply (Hout e He)|].
  split; [intros e st h n He Hh Hn; apply (Hin e st h n He Hh Hn)|].
  intros e data He Hd. unfold snap. cbn [s_data s_status_colors].
  rewrite !dict_get_comprehension, !decide_True by exact He.
  rewrite Hd. auto.
Qed.

(** ** Collecting the probes of a round *)

Lemma respond_net_after urls : forall w, respond (net_after urls w) = respond w.
Proof.
  induction urls as [|u urls IH]; intros w; simpl; [reflexivity|].
  rewrite IH. reflexivity.
Qed.

Lemma request_count_net_after urls u :
  forall w,
    NoDup urls ->
    request_count (net_after urls w) u
    = if decide (u ∈ urls) then S (request_count w u) else request_count w u.
Proof.
  induction urls as [|u0 urls IH]; intros w Hnd.
  - destruct (decide (u ∈ [])) as [H|_]; [inversion H | reflexivity].
  - apply NoDup_cons in Hnd as [Hnotin Hnd].
    change (net_after (u0 :: urls) w) with (net_after urls (requested u0 w)).
    rewrite IH by exact Hnd. rewrite !request_count_requested.
    destruct (decide (u0 = u)) as [->|Hne].
    + rewrite decide_False by exact Hnotin.
      rewrite decide_True by left. reflexivity.
    + destruct (decide (u ∈ urls)) as [H|H].
      * rewrite decide_True by (right; exact H). reflexivity.
      * rewrite decide_False; [reflexivity|].
        intros H'. apply elem_of_cons in H' as [?|?]; congruence.
Qed.

Lemma probe_status_requested u u' w :
  u <> u' -> probe_status (requested u w) u' = probe_status w u'.
Proof.
  intros Hne. unfold probe_status.
  rewrite request_count_requested, decide_False by exact Hne.
  reflexivity.
Qed.

Lemma set_network_twice w w' s :
  set_network w (set_network w' s) = set_network w s.
Proof. reflexivity. Qed.

Lemma collect_results_eq completed :
  forall acc s,
    NoDup (map snd completed) ->
    NoDup (map fst acc ++ map fst completed) ->
    collect_results completed acc s
    = (Ok (acc ++ map (fun p => (fst p, probe_status (network s) (snd p)))
                    completed),
       set_network (net_after (map snd completed) (network s)) s).
Proof.
  induction completed as [|[n u] completed IH]; intros acc s Hu Hn.
  - simpl. rewrite app_nil_r. destruct s; reflexivity.
  - simpl in Hu. apply NoDup_cons in Hu as [Hu0 Hu].
    simpl. unfold bind. rewrite check_site_eq. cbn [fst snd].
    assert (Hfresh : n ∉ map fst acc).
    { apply NoDup_app in Hn as (_ & Hdisj & _).
      intros Hin. apply (Hdisj n Hin). simpl. left. }
    rewrite dict_set_fresh by exact Hfresh.
    rewrite IH.
    + rewrite set_network_twice. cbn [network set_network].
      rewrite <- app_assoc. simpl. do 4 f_equal.
      apply map_ext_in. intros [n' u'] Hin. cbn [fst snd].
      rewrite probe_status_requested; [reflexivity|].
      intros ->. apply Hu0. apply list_elem_of_In in Hin.
      apply (list_elem_of_fmap_2 snd) in Hin. exact Hin.
    + exact Hu.
    + rewrite map_app. simpl. rewrite <- app_assoc. exact Hn.
Qed.

(** ** Facts about the configuration *)

Lemma NoDup_ORDERED_NAMES : NoDup ORDERED_NAMES.
Proof. by_computation. Qed.

Lemma NoDup_urls : NoDup (map snd SITES).
Proof. by_computation. Qed.

Lemma lookup_constant_map {V} (c : V) (names : list string) e :
  e ∈ names ->
  (list_to_map (map (fun site => (site, c)) names) : gmap string V) !! e
  = Some c.
Proof.
  induction names as [|x names IH]; intros H; [inversion H|].
  simpl. rewrite lookup_insert.
  destruct (decide (x = e)); [reflexivity|].
  apply IH. apply elem_of_cons in H as [?|?]; [congruence | assumption].
Qed.

(** ** One round *)

Lemma ready_initial_state w : ready (initial_state w).
Proof.
  intros e He. unfold known, initial_state. cbn [history offline_time].
  rewrite !lookup_constant_map by exact He. eauto.
Qed.

Lemma get_status_data_spec t completed s :
  ready s ->
  completed ≡ₚ SITES ->
  exists snap s',
    get_status_data t completed s = (Ok snap, s')
    /\ ready s'
    /\ timestamps s' = push (timestamps s) t
    /\ s_timestamps snap = timestamps s'
    /\ network s' = net_after (map snd completed) (network s)
    /\ (LATEST_DATA s', _thread_started s', threads s', console s')
       = (LATEST_DATA s, _thread_started s, threads s, console s)
    /\ (forall e u h n,
          (e, u) ∈ SITES ->
          history s !! e = Some h ->
          offline_time s !! e = Some n ->
          let status := probe_status (network s) u in
          ep_state s' e
          = (Some (push h status), Some (next_offline status n),
             Some (flapped h status))
          /\ rows_of e (s_quedas snap)
             = queda_rows t e (next_offline status n)
          /\ rows_of e (s_oscilacoes snap)
             = flap_rows t e (flapped h status)
          /\ dict_get (s_data snap) e = Some (push h status)
          /\ dict_get (s_status_colors snap) e
             = Some (color_of (push h status))).
Proof.
  intros Hready Hperm.
  assert (Hnames : map fst completed ≡ₚ ORDERED_NAMES).
  { unfold ORDERED_NAMES. rewrite Hperm. reflexivity. }
  assert (Hnd : NoDup (map fst completed)).
  { rewrite Hnames. apply NoDup_ORDERED_NAMES. }
  assert (Hndu : NoDup (map snd completed)).
  { rewrite Hperm. apply NoDup_urls. }
  unfold get_status_data, bind.
  rewrite collect_results_eq by (simpl; assumption). cbn [app].
  set (s0 := set_network (net_after (map snd completed) (network s)) s).
  set (sd := map (fun p => (fst p, probe_status (network s) (snd p)))
               completed).
  assert (Hsd : map fst sd = map fst completed).
  { unfold sd. rewrite map_map. reflexivity. }
  destruct (locked_update_spec t sd s0)
    as (snap & s' & Hrun & Hrest & Hts & Hknown & _ & Hin & Hsnap).
  { rewrite Hsd. exact Hnd. }
  { intros e He. rewrite Hsd, Hnames in He. apply (Hready e He). }
  { intros e He. apply (Hready e He). }
  exists snap, s'. rewrite Hrun.
  split; [reflexivity|].
  split; [intros e He; apply Hknown, (Hready e He)|].
  assert (Hr : rest s' = (push (timestamps s) t, LATEST_DATA s,
                          _thread_started s, threads s, console s,
                          net_after (map snd completed) (network s)))
    by exact Hrest.
  unfold rest in Hr. injection Hr as R1 R2 R3 R4 R5 R6.
  split; [exact R1|]. split; [rewrite R1; exact Hts|]. split; [exact R6|].
  split; [congruence|].
  intros e u h n He Hh Hn. set (status := probe_status (network s) u).
  assert (Hitem : (e, status) ∈ sd).
  { rewrite <- Hperm in He. unfold sd.
    apply (list_elem_of_fmap_2
             (fun p => (fst p, probe_status (network s) (snd p)))) in He.
    exact He. }
  destruct (Hin e status h n Hitem Hh Hn) as (H1 & H2 & H3).
  split; [exact H1|]. split; [exact H2|]. split; [exact H3|].
  apply Hsnap.
  - apply (list_elem_of_fmap_2 fst) in He. exact He.
  - exact (f_equal (fun x => fst (fst x)) H1).
Qed.

(** ** Several rounds *)

Lemma probe_status_sample_at w u : probe_status w u = sample_at w u 0.
Proof. unfold probe_status, sample_at. rewrite Nat.add_0_r. reflexivity. Qed.

Lemma sample_at_net_after completed w u i :
  completed ≡ₚ SITES ->
  u ∈ map snd SITES ->
  sample_at (net_after (map snd completed) w) u i = sample_at w u (S i).
Proof.
  intros Hperm Hu. unfold sample_at.
  rewrite respond_net_after, request_count_net_after.
  - rewrite decide_True by (rewrite Hperm; exact Hu).
    replace (S (request_count w u) + i)%nat
      with (request_count w u + S i)%nat by lia.
    reflexivity.
  - rewrite Hperm. apply NoDup_urls.
Qed.

Lemma inputs_of_shift w w' u rounds :
  (forall j, sample_at w' u j = sample_at w u (S j)) ->
  forall i, inputs_of w' u i rounds = inputs_of w u (S i) rounds.
Proof.
  intros H. induction rounds as [|[t c] rounds IH]; intros i; simpl.
  - reflexivity.
  - rewrite H, IH. reflexivity.
Qed.

Section Endpoint.

(** A configured unit and its URL. *)
Context (e u : string) (He : (e, u) ∈ SITES).

Lemma site_name : e ∈ ORDERED_NAMES.
Proof. apply (list_elem_of_fmap_2 fst) in He. exact He. Qed.

Lemma site_url : u ∈ map snd SITES.
Proof. apply (list_elem_of_fmap_2 snd) in He. exact He. Qed.

(** Over any number of rounds the engine shows, of each endpoint, what
    the endpoint on its own would show. *)
Lemma run_rounds_endpoint rounds :
  forall s h n,
    ready s ->
    valid_rounds rounds ->
    history s !! e = Some h ->
    offline_time s !! e = Some n ->
    map (observe e) (run_rounds rounds s)
    = ep_run e (inputs_of (network s) u 0 rounds) h n.
Proof.
  induction rounds as [|[t c] rounds IH];
    intros s h n Hready Hvalid Hh Hn; [reflexivity|].
  apply Forall_cons in Hvalid as [Hperm Hvalid]. cbn [snd] in Hperm.
  destruct (get_status_data_spec t c s Hready Hperm)
    as (snap & s' & Hrun & Hready' & _ & _ & Hnet & _ & Hep).
  destruct (Hep e u h n He Hh Hn) as (H1 & H2 & H3 & _ & H5).
  cbn [run_rounds inputs_of ep_run map]. rewrite Hrun. cbn [snd].
  unfold ep_state in H1. injection H1 as Hh' Hn' Hf'.
  rewrite probe_status_sample_at in *.
  f_equal.
  - unfold observe. cbn [fst snd]. rewrite Hh', Hn', Hf', H2, H3, H5.
    reflexivity.
  - rewrite (IH s' _ _ Hready' Hvalid Hh' Hn').
    rewrite (inputs_of_shift (network s) (network s')); [reflexivity|].
    intros j. rewrite Hnet.
    apply sample_at_net_after; [exact Hperm | exact site_url].
Qed.

Lemma state_after_spec rounds :
  forall s h n,
    ready s ->
    valid_rounds rounds ->
    history s !! e = Some h ->
    offline_time s !! e = Some n ->
    let samples := map snd (inputs_of (network s) u 0 rounds) in
    ready (state_after rounds s)
    /\ Forall (fun r => is_ok (fst r) = true) (run_rounds rounds s)
    /\ timestamps (state_after rounds s)
       = fold_left push (map fst rounds) (timestamps s)
    /\ history (state_after rounds s) !! e = Some (fold_left push samples h)
    /\ offline_time (state_after rounds s) !! e
       = Some (fold_left (fun n status => next_offline status n) samples n).
Proof.
  induction rounds as [|[t c] rounds IH];
    intros s h n Hready Hvalid Hh Hn.
  - simpl. split; [exact Hready|]. split; [constructor|]. auto.
  - apply Forall_cons in Hvalid as [Hperm Hvalid]. cbn [snd] in Hperm.
    destruct (get_status_data_spec t c s Hready Hperm)
      as (snap & s' & Hrun & Hready' & Hts & _ & Hnet & _ & Hep).
    destruct (Hep e u h n He Hh Hn) as (H1 & _).
    unfold ep_state in H1. injection H1 as Hh' Hn' _.
    destruct (IH s' _ _ Hready' Hvalid Hh' Hn') as (I1 & I2 & I3 & I4 & I5).
    assert (Hshift : inputs_of (network s') u 0 rounds
                     = inputs_of (network s) u 1 rounds).
    { apply inputs_of_shift. intros j. rewrite Hnet.
      apply sample_at_net_after; [exact Hperm | exact site_url]. }
    rewrite Hshift in I4, I5. rewrite probe_status_sample_at in *.
    cbn [state_after run_rounds inputs_of map fold_left fst snd].
    rewrite Hrun. cbn [snd fst].
    split; [exact I1|].
    split; [constructor; [reflexivity | exact I2]|].
    split; [rewrite I3, Hts; reflexivity|].
    split; [exact I4 | exact I5].
Qed.

(** ** A run of down samples *)

Lemma down_run rounds :
  forall s n,
    ready s ->
    valid_rounds rounds ->
    offline_time s !! e = Some n ->
    (forall i, (i < length rounds)%nat -> sample_at (network s) u i = 0) ->
    map (fun r => (offline_time (snd r) !! e, outage_tempos e r))
      (run_rounds rounds s)
    = map (fun j =>
             let n' := n + CHECK_INTERVAL * Z.of_nat (S j) in
             (Some n', if 5 <=? n' then [Seconds n'] else []))
        (seq 0 (length rounds)).
Proof.
  induction rounds as [|[t c] rounds IH];
    intros s n Hready Hvalid Hn Hdown; [reflexivity|].
  apply Forall_cons in Hvalid as [Hperm Hvalid]. cbn [snd] in Hperm.
  destruct (Hready e site_name) as [[h Hh] _].
  destruct (get_status_data_spec t c s Hready Hperm)
    as (snap & s' & Hrun & Hready' & _ & _ & Hnet & _ & Hep).
  destruct (Hep e u h n He Hh Hn) as (H1 & H2 & _).
  rewrite probe_status_sample_at in H1, H2.
  rewrite (Hdown 0%nat) in H1, H2 by (simpl; lia).
  assert (Hn' : offline_time s' !! e = Some (n + CHECK_INTERVAL))
    by exact (f_equal (fun x => snd (fst x)) H1).
  change (next_offline 0 n) with (n + CHECK_INTERVAL) in H2.
  cbn [run_rounds length seq map]. rewrite Hrun. cbn [snd].
  f_equal.
  - unfold outage_tempos. cbn [fst]. rewrite Hn', H2.
    replace (n + CHECK_INTERVAL * Z.of_nat 1) with (n + CHECK_INTERVAL)
      by (unfold CHECK_INTERVAL; lia).
    unfold queda_rows. cbv zeta.
    destruct (5 <=? n + CHECK_INTERVAL); reflexivity.
  - rewrite (IH s' (n + CHECK_INTERVAL) Hready' Hvalid Hn').
    + rewrite <- seq_shift, map_map. apply map_ext. intros j. cbv zeta.
      replace (n + CHECK_INTERVAL + CHECK_INTERVAL * Z.of_nat (S j))
        with (n + CHECK_INTERVAL * Z.of_nat (S (S j)))
        by (unfold CHECK_INTERVAL; lia).
      reflexivity.
    + intros i Hi. rewrite Hnet, sample_at_net_after.
      * apply Hdown. simpl. lia.
      * exact Hperm.
      * exact site_url.
Qed.

End Endpoint.

(** ** States built for a buffer *)

Lemma history_with_buffer name data s :
  history (with_buffer name data s) !! name = Some data.
Proof. unfold with_buffer. simpl. apply lookup_insert_eq. Qed.

(** ** The loop and its start *)

(** An iteration of the loop binds [LATEST_DATA] to its round's
    result. *)
Lemma _background_loop_iteration_publishes t completed s :
  ready s ->
  completed ≡ₚ SITES ->
  exists snap s',
    get_status_data t completed s = (Ok snap, s')
    /\ _background_loop_iteration t completed s
       = (Ok tt, set_LATEST_DATA (Some snap) s').
Proof.
  intros Hready Hperm.
  destruct (get_status_data_spec t completed s Hready Hperm)
    as (snap & s' & Hrun & _).
  exists snap, s'. split; [exact Hrun|].
  unfold _background_loop_iteration, try_except, bind, modify.
  rewrite Hrun. reflexivity.
Qed.

(** A caller running alone through its four steps is a call of
    [ensure_started]. *)
Lemma ensure_started_steps s :
  interleave [0; 0; 0; 0]%nat [EsTest] s = ([EsDone], snd (ensure_started s)).
Proof.
  unfold ensure_started, bind, gets, modify, ret. simpl.
  destruct (_thread_started s); reflexivity.
Qed.

Lemma ensure_started_flag s :
  _thread_started (snd (ensure_started s)) = true.
Proof.
  unfold ensure_started, bind, gets, modify, ret.
  destruct (_thread_started s) eqn:E; simpl; [exact E | reflexivity].
Qed.

Lemma ensure_started_again s :
  _thread_started s = true -> ensure_started s = (Ok tt, s).
Proof.
  intros H. unfold ensure_started, bind, gets, ret. rewrite H. reflexivity.
Qed.

(** ** Rolling lists keep the last [MAX_HISTORY_LEN] elements *)

Lemma push_drop {A} (l : list A) (x : A) :
  (length l <= Z.to_nat MAX_HISTORY_LEN)%nat ->
  push l x
  = drop (length (l ++ [x]) - Z.to_nat MAX_HISTORY_LEN) (l ++ [x]).
Proof.
  intros Hle. unfold push, trim, len.
  rewrite length_app. cbn [length].
  destruct (MAX_HISTORY_LEN <=? Z.of_nat (length l)) eqn:E.
  - apply Z.leb_le in E.
    replace (length l + 1 - Z.to_nat MAX_HISTORY_LEN)%nat with 1%nat by lia.
    destruct l as [|x0 l]; [unfold MAX_HISTORY_LEN in E; simpl in E; lia|].
    reflexivity.
  - apply Z.leb_gt in E.
    replace (length l + 1 - Z.to_nat MAX_HISTORY_LEN)%nat with 0%nat by lia.
    reflexivity.
Qed.

Lemma fold_push_drop {A} (xs : list A) :
  forall l,
    (length l <= Z.to_nat MAX_HISTORY_LEN)%nat ->
    fold_left push xs l
    = drop (length (l ++ xs) - Z.to_nat MAX_HISTORY_LEN) (l ++ xs).
Proof.
  induction xs as [|x xs IH]; intros l Hle.
  - simpl. rewrite app_nil_r.
    replace (length l - Z.to_nat MAX_HISTORY_LEN)%nat with 0%nat by lia.
    reflexivity.
  - cbn [fold_left]. rewrite IH.
    + rewrite push_drop by exact Hle.
      rewrite <- drop_app_le by (rewrite length_app; simpl; lia).
      rewrite drop_drop, <- app_assoc. cbn [app]. f_equal.
      rewrite length_drop, !length_app. cbn [length]. lia.
    + rewrite push_drop by exact Hle.
      rewrite length_drop, length_app. cbn [length]. lia.
Qed.

(** The 101st round evicts the first timestamp and the first sample. *)
Example eviction_after_101_rounds :
  let s := state_after (numbered_rounds 101) (initial_state brasnorte_outage) in
  length (timestamps s) = 100%nat
  /\ head (timestamps s) = Some "1"
  /\ last (timestamps s) = Some "100"
  /\ history s !! "Brasnorte" = Some ([1; 0; 0; 0; 0] ++ replicate 95 1).
Proof. vm_compute. repeat split. Qed.

Lemma length_inputs_of w u rounds :
  forall i, length (inputs_of w u i rounds) = length rounds.
Proof.
  induction rounds as [|[t c] rounds IH]; intros i; simpl; [reflexivity|].
  rewrite IH. reflexivity.
Qed.

(** * The claims *)

(** C1: one endpoint whose seven probes from the initial state give
    up, up, down, down, down, down, up. The counter after the rounds
    is 0, 0, 5, 10, 15, 20, 0; a "Queda" row is reported in rounds 3
    to 6, carrying 5, 10, 15, 20; an "Oscilação" row is reported in
    rounds 3 and 7 only; the colours are green, green, yellow, red,
    red, red, yellow. No round raises. *)
Theorem seven_round_scenario (w : net) (e u : string)
  (t1 t2 t3 t4 t5 t6 t7 : string)
  (c1 c2 c3 c4 c5 c6 c7 : list (string * string)) :
  (e, u) ∈ SITES ->
  valid_rounds [(t1, c1); (t2, c2); (t3, c3); (t4, c4); (t5, c5); (t6, c6);
                (t7, c7)] ->
  map (sample_at w u) (seq 0 7) = [1; 1; 0; 0; 0; 0; 1] ->
  map (observe e)
    (run_rounds [(t1, c1); (t2, c2); (t3, c3); (t4, c4); (t5, c5); (t6, c6);
                 (t7, c7)] (initial_state w))
  = [ Some (mkObs (Some [1]) (Some 0) (Some false) [] [] (Some "green"));
      Some (mkObs (Some [1; 1]) (Some 0) (Some false) [] [] (Some "green"));
      Some (mkObs (Some [1; 1; 0]) (Some 5) (Some true)
              [mkRow t3 e (Seconds 5) "Queda"]
              [mkRow t3 e Dash "Oscilação"] (Some "yellow"));
      Some (mkObs (Some [1; 1; 0; 0]) (Some 10) (Some false)
              [mkRow t4 e (Seconds 10) "Queda"] [] (Some "red"));
      Some (mkObs (Some [1; 1; 0; 0; 0]) (Some 15) (Some false)
              [mkRow t5 e (Seconds 15) "Queda"] [] (Some "red"));
      Some (mkObs (Some [1; 1; 0; 0; 0; 0]) (Some 20) (Some false)
              [mkRow t6 e (Seconds 20) "Queda"] [] (Some "red"));
      Some (mkObs (Some [1; 1; 0; 0; 0; 0; 1]) (Some 0) (Some true) []
              [mkRow t7 e Dash "Oscilação"] (Some "yellow")) ].
Proof.
  intros He Hvalid Hsamples.
  assert (Hin : e ∈ ORDERED_NAMES).
  { apply (list_elem_of_fmap_2 fst) in He. exact He. }
  rewrite (run_rounds_endpoint e u He _ (initial_state w) [] 0
             (ready_initial_state w) Hvalid).
  - cbn [inputs_of network initial_state].
    cbn [map seq] in Hsamples.
    injection Hsamples as -> -> -> -> -> -> ->.
    reflexivity.
  - unfold initial_state. cbn [history].
    apply lookup_constant_map, Hin.
  - unfold initial_state. cbn [offline_time].
    apply lookup_constant_map, Hin.
Qed.

(** The scenario on "Brasnorte", every round completing in the order
    of [SITES]. *)
Lemma seven_round_scenario_witness :
  map (observe "Brasnorte")
    (run_rounds
       [("12:00:00", SITES); ("12:00:05", SITES); ("12:00:10", SITES);
        ("12:00:15", SITES); ("12:00:20", SITES); ("12:00:25", SITES);
        ("12:00:30", SITES)] (initial_state brasnorte_outage))
  = [ Some (mkObs (Some [1]) (Some 0) (Some false) [] [] (Some "green"));
      Some (mkObs (Some [1; 1]) (Some 0) (Some false) [] [] (Some "green"));
      Some (mkObs (Some [1; 1; 0]) (Some 5) (Some true)
              [mkRow "12:00:10" "Brasnorte" (Seconds 5) "Queda"]
              [mkRow "12:00:10" "Brasnorte" Dash "Oscilação"]
              (Some "yellow"));
      Some (mkObs (Some [1; 1; 0; 0]) (Some 10) (Some false)
              [mkRow "12:00:15" "Brasnorte" (Seconds 10) "Queda"] []
              (Some "red"));
      Some (mkObs (Some [1; 1; 0; 0; 0]) (Some 15) (Some false)
              [mkRow "12:00:20" "Brasnorte" (Seconds 15) "Queda"] []
              (Some "red"));
      Some (mkObs (Some [1; 1; 0; 0; 0; 0]) (Some 20) (Some false)
              [mkRow "12:00:25" "Brasnorte" (Seconds 20) "Queda"] []
              (Some "red"));
      Some (mkObs (Some [1; 1; 0; 0; 0; 0; 1]) (Some 0) (Some true) []
              [mkRow "12:00:30" "Brasnorte" Dash "Oscilação"]
              (Some "yellow")) ].
Proof.
  apply (seven_round_scenario brasnorte_outage "Brasnorte"
           "https://brasnorte.celk.com.br/").
  - by_computation.
  - repeat constructor.
  - vm_compute. reflexivity.
Defined.

(** C2: after any number of completed rounds from the initial state,
    every round having returned, the time index holds the last 100
    timestamps, one per round, the buffer of every endpoint holds that
    endpoint's last 100 samples, and the two have the same length, the
    number of rounds capped at 100. The next round appends its
    timestamp once. *)
Theorem buffers_follow_time_index (w : net)
  (rounds : list (string * list (string * string))) (e u t : string)
  (completed : list (string * string)) :
  (e, u) ∈ SITES ->
  valid_rounds rounds ->
  completed ≡ₚ SITES ->
  let s := state_after rounds (initial_state w) in
  let N := Z.to_nat MAX_HISTORY_LEN in
  Forall (fun r => is_ok (fst r) = true) (run_rounds rounds (initial_state w))
  /\ timestamps s = drop (length rounds - N) (map fst rounds)
  /\ history s !! e
     = Some (drop (length rounds - N) (map snd (inputs_of w u 0 rounds)))
  /\ (exists buf,
        history s !! e = Some buf
        /\ length buf = length (timestamps s)
        /\ length buf = min (length rounds) N)
  /\ timestamps (snd (get_status_data t completed s)) = push (timestamps s) t.
Proof.
  intros He Hvalid Hperm s N. subst s N.
  assert (Hin : e ∈ ORDERED_NAMES).
  { apply (list_elem_of_fmap_2 fst) in He. exact He. }
  destruct (state_after_spec e u He rounds (initial_state w) [] 0
              (ready_initial_state w) Hvalid)
    as (Hready & Hok & Hts & Hh & _).
  { unfold initial_state. cbn [history]. apply lookup_constant_map, Hin. }
  { unfold initial_state. cbn [offline_time].
    apply lookup_constant_map, Hin. }
  cbn [network initial_state] in Hh. cbn [timestamps initial_state] in Hts.
  rewrite fold_push_drop in Hts by (simpl; lia).
  rewrite fold_push_drop in Hh by (simpl; lia).
  cbn [app] in Hts, Hh. rewrite length_map in Hts.
  assert (Hlen : length (map snd (inputs_of w u 0 rounds)) = length rounds).
  { rewrite length_map. apply length_inputs_of. }
  rewrite Hlen in Hh.
  split; [exact Hok|]. split; [exact Hts|]. split; [exact Hh|].
  split.
  - eexists. split; [exact Hh|]. rewrite Hts.
    rewrite !length_drop, Hlen, length_map. lia.
  - destruct (get_status_data_spec t completed _ Hready Hperm)
      as (snap & s' & Hrun & _ & Hts' & _).
    rewrite Hrun. exact Hts'.
Qed.

(** Two rounds from the initial state. *)
Lemma buffers_follow_time_index_witness :
  let rounds := [("12:00:00", SITES); ("12:00:05", SITES)] in
  let s := state_after rounds (initial_state brasnorte_outage) in
  timestamps s = ["12:00:00"; "12:00:05"]
  /\ history s !! "Brasnorte" = Some [1; 1].
Proof.
  assert (H1 : ("Brasnorte", "https://brasnorte.celk.com.br/") ∈ SITES).
  { by_computation. }
  assert (H2 : valid_rounds [("12:00:00", SITES); ("12:00:05", SITES)]).
  { repeat constructor. }
  assert (H3 : SITES ≡ₚ SITES) by reflexivity.
  pose proof (buffers_follow_time_index brasnorte_outage
                [("12:00:00", SITES); ("12:00:05", SITES)]
                "Brasnorte" "https://brasnorte.celk.com.br/" "12:00:10" SITES
                H1 H2 H3) as H.
  cbv zeta in H. destruct H as (_ & Hts & Hh & _).
  split; [exact Hts | exact Hh].
Defined.

(** C3: in every round the counter of an endpoint becomes 0 when its
    sample is up and grows by [CHECK_INTERVAL] (5 seconds) when its
    sample is down, and a sample is one or the other. Over [k] rounds
    in a row with the endpoint down the counter takes the values
    [n + 5], [n + 10], ..., [n + 5k], where [n] is the counter before
    the run: 5, 10, ..., 5k after an up sample or at the start. *)
Theorem downtime_counter (t : string) (completed : list (string * string))
  (rounds : list (string * list (string * string))) (s : state)
  (e u : string) (n : Z) :
  ready s ->
  (e, u) ∈ SITES ->
  offline_time s !! e = Some n ->
  completed ≡ₚ SITES ->
  valid_rounds rounds ->
  is_ok (fst (get_status_data t completed s)) = true
  /\ (probe_status (network s) u = 1 \/ probe_status (network s) u = 0)
  /\ (probe_status (network s) u = 1 ->
      offline_time (snd (get_status_data t completed s)) !! e = Some 0)
  /\ (probe_status (network s) u = 0 ->
      offline_time (snd (get_status_data t completed s)) !! e
      = Some (n + CHECK_INTERVAL))
  /\ ((forall i, (i < length rounds)%nat -> sample_at (network s) u i = 0) ->
      map (fun r => offline_time (snd r) !! e) (run_rounds rounds s)
      = map (fun j => Some (n + CHECK_INTERVAL * Z.of_nat (S j)))
          (seq 0 (length rounds))).
Proof.
  intros Hready He Hn Hperm Hvalid.
  destruct (Hready e) as [[h Hh] _].
  { apply (list_elem_of_fmap_2 fst) in He. exact He. }
  destruct (get_status_data_spec t completed s Hready Hperm)
    as (snap & s' & Hrun & _ & _ & _ & _ & _ & Hep).
  destruct (Hep e u h n He Hh Hn) as (H1 & _).
  assert (Hn' : offline_time s' !! e
                = Some (next_offline (probe_status (network s) u) n))
    by exact (f_equal (fun x => snd (fst x)) H1).
  rewrite Hrun. cbn [fst snd].
  split; [reflexivity|]. split; [|split; [|split]].
  - unfold probe_status.
    destruct (respond (network s) u (request_count (network s) u))
      as [code| | |what]; auto.
    destruct (code =? 200); auto.
  - intros Hup. rewrite Hn', Hup. reflexivity.
  - intros Hdown. rewrite Hn', Hdown. reflexivity.
  - intros Hdown.
    pose proof (down_run e u He rounds s n Hready Hvalid Hn Hdown) as H.
    apply (f_equal (map fst)) in H. rewrite !map_map in H. exact H.
Qed.

(** Three rounds with "Brasnorte" down. *)
Lemma downtime_counter_witness :
  map (fun r => offline_time (snd r) !! "Brasnorte")
    (run_rounds [("12:00:00", SITES); ("12:00:05", SITES);
                 ("12:00:10", SITES)] (initial_state brasnorte_down))
  = [Some 5; Some 10; Some 15].
Proof.
  assert (H1 : ready (initial_state brasnorte_down))
    by apply ready_initial_state.
  assert (H2 : ("Brasnorte", "https://brasnorte.celk.com.br/") ∈ SITES).
  { by_computation. }
  assert (H3 : offline_time (initial_state brasnorte_down) !! "Brasnorte"
               = Some 0) by (vm_compute; reflexivity).
  assert (H4 : SITES ≡ₚ SITES) by reflexivity.
  assert (H5 : valid_rounds [("12:00:00", SITES); ("12:00:05", SITES);
                             ("12:00:10", SITES)]) by repeat constructor.
  destruct (downtime_counter "12:00:15" SITES _ _ _ _ _ H1 H2 H3 H4 H5)
    as (_ & _ & _ & _ & Hrun).
  apply Hrun. intros i Hi. vm_compute. reflexivity.
Defined.

(** C4: the colour is a function of the last two buffered samples.
    With two samples or more it is yellow when the last two differ,
    else green when the latest is 1 and red otherwise; with one sample
    it is green when the sample is 1 and red otherwise. So [1] gives
    green, [0] red, [1,0] yellow, [1,0,0] red and [0,1,1] green. *)
Theorem get_status_color_last_two name s :
  (forall pre x y,
     get_status_color name (with_buffer name (pre ++ [x; y]) s)
     = (Ok (if bool_decide (x <> y) then "yellow"
            else if bool_decide (y = 1) then "green" else "red"),
        with_buffer name (pre ++ [x; y]) s))
  /\ (forall x,
        get_status_color name (with_buffer name [x] s)
        = (Ok (if bool_decide (x = 1) then "green" else "red"),
           with_buffer name [x] s))
  /\ fst (get_status_color name (with_buffer name [1] s)) = Ok "green"
  /\ fst (get_status_color name (with_buffer name [0] s)) = Ok "red"
  /\ fst (get_status_color name (with_buffer name [1; 0] s)) = Ok "yellow"
  /\ fst (get_status_color name (with_buffer name [1; 0; 0] s)) = Ok "red"
  /\ fst (get_status_color name (with_buffer name [0; 1; 1] s)) = Ok "green".
Proof.
  split; [|split].
  - intros pre x y.
    rewrite (get_status_color_eq name _ _ (history_with_buffer _ _ _)).
    unfold color_of. rewrite reverse_app. simpl.
    destruct (Z.eqb_spec x y) as [->|Hne]; simpl.
    + rewrite bool_decide_eq_false_2 by auto.
      destruct (Z.eqb_spec y 1) as [->|Hy].
      * rewrite bool_decide_eq_true_2 by reflexivity. reflexivity.
      * rewrite bool_decide_eq_false_2 by exact Hy. reflexivity.
    + rewrite bool_decide_eq_true_2 by exact Hne. reflexivity.
  - intros x.
    rewrite (get_status_color_eq name _ _ (history_with_buffer _ _ _)).
    unfold color_of. simpl.
    destruct (Z.eqb_spec x 1) as [->|Hx].
    + rewrite bool_decide_eq_true_2 by reflexivity. reflexivity.
    + rewrite bool_decide_eq_false_2 by exact Hx. reflexivity.
  - repeat split;
      rewrite (get_status_color_eq name _ _ (history_with_buffer _ _ _));
      reflexivity.
Qed.

(** C5: a round reports a "Queda" row for an endpoint exactly when the
    endpoint's counter after the round is 5 or more, and that row, the
    only one for the endpoint, carries the counter. While the endpoint
    stays down a row is reported in every round, carrying [n + 5],
    [n + 10], ..., one more period each round. *)
Theorem outage_rows (t : string) (completed : list (string * string))
  (rounds : list (string * list (string * string))) (s : state)
  (e u : string) (n : Z) :
  ready s ->
  (e, u) ∈ SITES ->
  offline_time s !! e = Some n ->
  completed ≡ₚ SITES ->
  valid_rounds rounds ->
  (exists snap s' n',
     get_status_data t completed s = (Ok snap, s')
     /\ offline_time s' !! e = Some n'
     /\ ((exists r, r ∈ s_quedas snap /\ r_nome r = e) <-> 5 <= n')
     /\ (5 <= n' ->
         rows_of e (s_quedas snap) = [mkRow t e (Seconds n') "Queda"])
     /\ (n' < 5 -> rows_of e (s_quedas snap) = []))
  /\ (0 <= n ->
      (forall i, (i < length rounds)%nat -> sample_at (network s) u i = 0) ->
      map (outage_tempos e) (run_rounds rounds s)
      = map (fun j => [Seconds (n + CHECK_INTERVAL * Z.of_nat (S j))])
          (seq 0 (length rounds))).
Proof.
  intros Hready He Hn Hperm Hvalid.
  destruct (Hready e) as [[h Hh] _].
  { apply (list_elem_of_fmap_2 fst) in He. exact He. }
  split.
  - destruct (get_status_data_spec t completed s Hready Hperm)
      as (snap & s' & Hrun & _ & _ & _ & _ & _ & Hep).
    destruct (Hep e u h n He Hh Hn) as (H1 & H2 & _).
    set (n' := next_offline (probe_status (network s) u) n) in *.
    assert (Hn' : offline_time s' !! e = Some n')
      by exact (f_equal (fun x => snd (fst x)) H1).
    exists snap, s', n'. split; [exact Hrun|]. split; [exact Hn'|].
    unfold queda_rows in H2.
    destruct (Z.leb_spec 5 n') as [Hge|Hlt].
    + split; [|split; [intros _; exact H2 | lia]].
      split; [intros _; exact Hge|]. intros _.
      exists (mkRow t e (Seconds n') "Queda").
      assert (Hin : mkRow t e (Seconds n') "Queda" ∈ rows_of e (s_quedas snap))
        by (rewrite H2; left).
      apply list_elem_of_filter in Hin as [Hnome Hin]. auto.
    + split; [|split; [lia | intros _; exact H2]].
      split; [|lia]. intros (r & Hr & Hnome).
      assert (Hin : r ∈ rows_of e (s_quedas snap))
        by (apply list_elem_of_filter; auto).
      rewrite H2 in Hin. inversion Hin.
  - intros Hpos Hdown.
    pose proof (down_run e u He rounds s n Hready Hvalid Hn Hdown) as H.
    apply (f_equal (map snd)) in H. rewrite !map_map in H. cbn [snd] in H.
    etransitivity; [exact H|].
    apply map_ext. intros j. cbv zeta. cbn [snd].
    destruct (Z.leb_spec 5 (n + CHECK_INTERVAL * Z.of_nat (S j)));
      [reflexivity|].
    unfold CHECK_INTERVAL in *. lia.
Qed.

(** Three rounds with "Brasnorte" down: a row in each. *)
Lemma outage_rows_witness :
  map (outage_tempos "Brasnorte")
    (run_rounds [("12:00:00", SITES); ("12:00:05", SITES);
                 ("12:00:10", SITES)] (initial_state brasnorte_down))
  = [[Seconds 5]; [Seconds 10]; [Seconds 15]].
Proof.
  assert (H1 : ready (initial_state brasnorte_down))
    by apply ready_initial_state.
  assert (H2 : ("Brasnorte", "https://brasnorte.celk.com.br/") ∈ SITES).
  { by_computation. }
  assert (H3 : offline_time (initial_state brasnorte_down) !! "Brasnorte"
               = Some 0) by (vm_compute; reflexivity).
  assert (H4 : SITES ≡ₚ SITES) by reflexivity.
  assert (H5 : valid_rounds [("12:00:00", SITES); ("12:00:05", SITES);
                             ("12:00:10", SITES)]) by repeat constructor.
  destruct (outage_rows "12:00:15" SITES _ _ _ _ _ H1 H2 H3 H4 H5)
    as (_ & Hrun).
  apply Hrun; [lia|]. intros i Hi. vm_compute. reflexivity.
Defined.





(** C8, refuted as stated: two callers running at once, the second
    testing the flag before the first has set it, both finish and two
    loop threads are started. *)
Lemma ensure_started_race :
  let r := interleave [0; 1; 0; 0; 0; 1; 1; 1]%nat [EsTest; EsTest]
             (initial_state all_up) in
  fst r = [EsDone; EsDone]
  /\ threads (snd r) = ["monitor_loop"; "monitor_loop"]
  /\ running_loops (snd r) = 2%nat.
Proof. vm_compute. repeat split. Qed.

(** C8, as the code has it: the flag is tested and set without the
    lock, and calls made one after the other are idempotent. From the
    initial state any number of calls, at least one, leaves what the
    first call leaves, with exactly one loop thread started; a call
    made when the flag is set returns without changing anything. *)
Theorem ensure_started_idempotent_sequential (w : net) (n : nat) (s : state) :
  call_n_times (S n) (initial_state w) = snd (ensure_started (initial_state w))
  /\ threads (call_n_times (S n) (initial_state w)) = ["monitor_loop"]
  /\ running_loops (call_n_times (S n) (initial_state w)) = 1%nat
  /\ ensure_started (set_thread_started true s)
     = (Ok tt, set_thread_started true s).
Proof.
  assert (Hn : forall k s0, _thread_started s0 = true ->
                            call_n_times k s0 = s0).
  { induction k as [|k IH]; intros s0 H0; [reflexivity|].
    simpl. rewrite ensure_started_again by exact H0. simpl.
    apply IH, H0. }
  assert (H1 : call_n_times (S n) (initial_state w)
               = snd (ensure_started (initial_state w))).
  { cbn [call_n_times]. apply Hn, ensure_started_flag. }
  rewrite H1. repeat split.
Qed.

(** C9, refuted as stated: before anything is published, with the
    monitor imported, the reader runs a round itself and returns that
    round's result, which has a timestamp: not the empty snapshot. *)
Lemma _get_current_data_not_empty :
  let r := _get_current_data unpublished "12:00:00" SITES
             (initial_state all_up) in
  LATEST_DATA (initial_state all_up) = None
  /\ fst r <> Ok empty_snapshot
  /\ match fst r with
     | Ok snap => s_timestamps snap = ["12:00:00"]
     | Raise _ => False
     end.
Proof.
  vm_compute. split; [reflexivity|]. split; [|reflexivity].
  intros H. discriminate H.
Qed.

(** C9, as the code has it: before anything is published the reader
    never raises. Without a callable [get_status_data] it returns the
    empty snapshot and changes nothing; with one it runs a round
    itself and returns that round's result, or the empty snapshot if
    the round raises. The result of a round has a timestamp, so it is
    not the empty snapshot. *)
Theorem _get_current_data_before_publication g t completed s :
  has_timestamps (app_LATEST_DATA g) = None ->
  has_timestamps (_local_latest g) = None ->
  (exists snap, fst (_get_current_data g t completed s) = Ok snap)
  /\ (monitor_get_status_data g = false ->
      _get_current_data g t completed s = (Ok empty_snapshot, s))
  /\ (monitor_get_status_data g = true ->
      forall snap s',
        get_status_data t completed s = (Ok snap, s') ->
        _get_current_data g t completed s = (Ok snap, s'))
  /\ (monitor_get_status_data g = true ->
      forall e s',
        get_status_data t completed s = (Raise e, s') ->
        _get_current_data g t completed s
        = (Ok empty_snapshot, print "Traceback" s'))
  /\ (monitor_get_status_data g = true ->
      ready s ->
      completed ≡ₚ SITES ->
      exists snap s',
        _get_current_data g t completed s = (Ok snap, s')
        /\ s_timestamps snap = push (timestamps s) t
        /\ snap <> empty_snapshot).
Proof.
  intros H1 H2.
  assert (Hoff : monitor_get_status_data g = false ->
                 _get_current_data g t completed s = (Ok empty_snapshot, s)).
  { intros Hm. unfold _get_current_data, bind, try_except, ret.
    rewrite H1, H2, Hm. reflexivity. }
  assert (Hok : monitor_get_status_data g = true ->
                forall snap s',
                  get_status_data t completed s = (Ok snap, s') ->
                  _get_current_data g t completed s = (Ok snap, s')).
  { intros Hm snap s' Hrun.
    unfold _get_current_data, bind, try_except, ret.
    rewrite H1, H2, Hm, Hrun. reflexivity. }
  assert (Hraise : monitor_get_status_data g = true ->
                   forall e s',
                     get_status_data t completed s = (Raise e, s') ->
                     _get_current_data g t completed s
                     = (Ok empty_snapshot, print "Traceback" s')).
  { intros Hm e s' Hrun.
    unfold _get_current_data, bind, try_except, ret, modify.
    rewrite H1, H2, Hm, Hrun. reflexivity. }
  split; [|split; [exact Hoff|split; [exact Hok|split; [exact Hraise|]]]].
  - destruct (monitor_get_status_data g) eqn:Hm.
    + destruct (get_status_data t completed s) as [[snap|e] s'] eqn:Hrun.
      * exists snap. rewrite (Hok eq_refl snap s' eq_refl). reflexivity.
      * exists empty_snapshot. rewrite (Hraise eq_refl e s' eq_refl).
        reflexivity.
    + exists empty_snapshot. rewrite (Hoff eq_refl). reflexivity.
  - intros Hm Hready Hperm.
    destruct (get_status_data_spec t completed s Hready Hperm)
      as (snap & s' & Hrun & _ & Hts & Hsnap & _).
    exists snap, s'. split; [exact (Hok Hm snap s' Hrun)|].
    split; [rewrite Hsnap; exact Hts|].
    intros ->. rewrite Hts in Hsnap. unfold push in Hsnap. simpl in Hsnap.
    destruct (trim (timestamps s)); discriminate Hsnap.
Qed.

(** The first read after start-up, the monitor imported. *)
Lemma _get_current_data_before_publication_witness :
  exists snap s',
    _get_current_data unpublished "12:00:00" SITES (initial_state all_up)
    = (Ok snap, s')
    /\ s_timestamps snap = push (timestamps (initial_state all_up)) "12:00:00"
    /\ snap <> empty_snapshot.
Proof.
  apply (_get_current_data_before_publication unpublished "12:00:00" SITES
           (initial_state all_up)).
  - reflexivity.
  - reflexivity.
  - reflexivity.
  - apply ready_initial_state.
  - reflexivity.
Defined.

(** C10: whatever the buffer of a unit holds, [get_status_color] does
    not raise and returns "green", "yellow" or "red"; for the empty
    buffer it returns "red". *)
Theorem get_status_color_total name data s :
  (exists c,
     get_status_color name (with_buffer name data s)
     = (Ok c, with_buffer name data s)
     /\ (c = "green" \/ c = "yellow" \/ c = "red"))
  /\ get_status_color name (with_buffer name [] s)
     = (Ok "red", with_buffer name [] s).
Proof.
  split.
  - exists (color_of data).
    split; [apply get_status_color_eq, history_with_buffer|].
    unfold color_of. destruct (reverse data) as [|y [|x l]].
    + auto.
    + destruct (y =? 1); auto.
    + destruct (negb (x =? y)); [auto|]. destruct (y =? 1); auto.
  - apply (get_status_color_eq name [] _ (history_with_buffer _ _ _)).
Qed.

(** * Further properties *)

(** ** The rows of a round, in full *)

Lemma last_trim {A} (l : list A) : last (trim l) = last l.
Proof.
  unfold trim, len. destruct (MAX_HISTORY_LEN <=? Z.of_nat (length l)) eqn:E;
    [|reflexivity].
  apply Z.leb_le in E. unfold MAX_HISTORY_LEN in E.
  destruct l as [|x [|y l]]; simpl in E; try lia.
  simpl. reflexivity.
Qed.

Lemma flapped_last h status :
  flapped h status
  = match last h with
    | Some p => bool_decide (p <> status)
    | None => false
    end.
Proof.
  unfold flapped. rewrite last_trim.
  destruct (last h) as [p|]; [|reflexivity].
  destruct (Z.eqb_spec p status) as [->|Hne]; simpl.
  - rewrite bool_decide_eq_false_2 by auto. reflexivity.
  - rewrite bool_decide_eq_true_2 by exact Hne. reflexivity.
Qed.

Lemma flat_map_ext_in {A B} (f g : A -> list B) (l : list A) :
  (forall a, a ∈ l -> f a = g a) -> flat_map f l = flat_map g l.
Proof.
  induction l as [|x l IH]; intros H; simpl; [reflexivity|].
  rewrite (H x) by left. rewrite IH; [reflexivity|].
  intros a Ha. apply H. right. exact Ha.
Qed.

Lemma for_items_rows t items :
  forall rq ro s,
    NoDup (map fst items) ->
    (forall e, e ∈ map fst items -> known s e) ->
    fst (for_items t items rq ro s)
    = Ok (rq ++ flat_map (item_quedas t s) items,
          ro ++ flat_map (item_oscilacoes t s) items).
Proof.
  induction items as [|[nome status] items IH]; intros rq ro s Hnd Hk.
  - simpl. rewrite !app_nil_r. reflexivity.
  - simpl in Hnd. apply NoDup_cons in Hnd as [Hnotin Hnd].
    destruct (Hk nome) as [[h Hh] [n Hn]]; [simpl; left|].
    cbn [for_items]. unfold bind at 1.
    rewrite (loop_body_eq t nome status rq ro s h n Hh Hn). cbn [fst snd].
    set (s1 := endpoint_update nome (push h status) (next_offline status n)
                 (flapped h status) s).
    rewrite IH.
    + cbn [flat_map]. unfold item_quedas at 2, item_oscilacoes at 2.
      cbn [fst snd]. rewrite Hh, Hn. cbn [default].
      rewrite <- !app_assoc.
      assert (Hsame : forall p, p ∈ items ->
                history s1 !! fst p = history s !! fst p
                /\ offline_time s1 !! fst p = offline_time s !! fst p).
      { intros [e st] Hp. cbn [fst].
        assert (Hne : nome <> e).
        { intros ->. apply Hnotin.
          apply (list_elem_of_fmap_2 fst) in Hp. exact Hp. }
        pose proof (ep_state_endpoint_update nome (push h status)
                      (next_offline status n) (flapped h status) s e) as E.
        rewrite decide_False in E by exact Hne. fold s1 in E.
        split.
        - exact (f_equal (fun x => fst (fst x)) E).
        - exact (f_equal (fun x => snd (fst x)) E). }
      rewrite (flat_map_ext_in (item_quedas t s1) (item_quedas t s)).
      2:{ intros p Hp. unfold item_quedas.
          destruct (Hsame p Hp) as [_ ->]. reflexivity. }
      rewrite (flat_map_ext_in (item_oscilacoes t s1) (item_oscilacoes t s)).
      2:{ intros p Hp. unfold item_oscilacoes.
          destruct (Hsame p Hp) as [-> _]. reflexivity. }
      reflexivity.
    + exact Hnd.
    + intros e He. apply known_endpoint_update, Hk. simpl. right. exact He.
Qed.

Lemma dict_comprehension_map {V} (g : string -> V) keys :
  forall acc,
    NoDup (map fst acc ++ keys) ->
    fold_left (fun d n => dict_set d n (g n)) keys acc
    = acc ++ map (fun n => (n, g n)) keys.
Proof.
  induction keys as [|k keys IH]; intros acc Hnd; simpl.
  - rewrite app_nil_r. reflexivity.
  - assert (Hfresh : k ∉ map fst acc).
    { apply NoDup_app in Hnd as (_ & Hdisj & _).
      intros Hin. apply (Hdisj k Hin). left. }
    rewrite dict_set_fresh by exact Hfresh.
    rewrite IH.
    + rewrite <- app_assoc. reflexivity.
    + rewrite map_app. simpl. rewrite <- app_assoc. exact Hnd.
Qed.

Lemma locked_update_eq t status_dict s Q O s' :
  for_items t status_dict [] [] (stamped t s) = (Ok (Q, O), s') ->
  (forall e, e ∈ ORDERED_NAMES -> known s' e) ->
  locked_update t status_dict s = (Ok (result_of s' Q O), s').
Proof.
  intros Hrun Hk.
  assert (Hstamp :
    (ts <- gets timestamps ;;
     (if MAX_HISTORY_LEN <=? len ts then timestamps_pop0 else ret tt) ;;;
     modify (set_timestamps (fun ts => ts ++ [t]))) s
    = (Ok tt, stamped t s)).
  { unfold bind, gets, stamped, push, trim, timestamps_pop0, modify, ret,
      set_timestamps.
    destruct (MAX_HISTORY_LEN <=? len (timestamps s)) eqn:E;
      [|reflexivity].
    unfold bind, gets.
    destruct (timestamps s) as [|x ts'] eqn:Ets;
      [discriminate E | reflexivity]. }
  unfold locked_update.
  unfold bind in Hstamp. unfold bind. unfold gets at 1.
  unfold bind, gets in Hstamp.
  destruct ((if MAX_HISTORY_LEN <=? len (timestamps s)
             then timestamps_pop0 else ret tt) s) as [[[]|ex] s0] eqn:E0;
    [|discriminate Hstamp].
  unfold modify in Hstamp. pose proof (f_equal snd Hstamp) as Hs0.
  cbn [snd] in Hs0. unfold modify at 1. rewrite Hs0, Hrun.
  unfold gets at 1.
  rewrite (dict_comprehension_ok (fun n => default [] (history s' !! n))).
  2:{ intros n Hn. destruct (Hk n Hn) as [[d Hd] _].
      unfold history_getitem. rewrite Hd. reflexivity. }
  rewrite (dict_comprehension_ok
             (fun n => color_of (default [] (history s' !! n)))).
  2:{ intros n Hn. destruct (Hk n Hn) as [[d Hd] _].
      rewrite (get_status_color_eq n d s' Hd), Hd. reflexivity. }
  rewrite !dict_comprehension_map by (simpl; apply NoDup_ORDERED_NAMES).
  reflexivity.
Qed.

(** A round, written out: its result holds the rows of the collected
    items in the order of completion, and the buffers and colours of
    the configured units in the order of [ORDERED_NAMES]. *)
Lemma get_status_data_eq t completed s :
  ready s ->
  completed ≡ₚ SITES ->
  exists s',
    get_status_data t completed s
    = (Ok (result_of s'
             (flat_map (item_quedas t s) (status_dict_of completed s))
             (flat_map (item_oscilacoes t s) (status_dict_of completed s))),
       s')
    /\ ready s'.
Proof.
  intros Hready Hperm.
  assert (Hnames : map fst completed ≡ₚ ORDERED_NAMES).
  { unfold ORDERED_NAMES. rewrite Hperm. reflexivity. }
  assert (Hnd : NoDup (map fst completed)).
  { rewrite Hnames. apply NoDup_ORDERED_NAMES. }
  assert (Hndu : NoDup (map snd completed)).
  { rewrite Hperm. apply NoDup_urls. }
  assert (Hsd : map fst (status_dict_of completed s) = map fst completed).
  { unfold status_dict_of. rewrite map_map. reflexivity. }
  set (s0 := probed t completed s).
  assert (Hk0 : forall e, e ∈ map fst (status_dict_of completed s) ->
                          known s0 e).
  { intros e He. rewrite Hsd, Hnames in He. apply (Hready e He). }
  destruct (for_items_spec t (status_dict_of completed s) [] [] s0)
    as (Q & O & s' & Hrun & _ & Hknown & _); [rewrite Hsd; exact Hnd
                                             | exact Hk0 |].
  pose proof (for_items_rows t (status_dict_of completed s) [] [] s0) as Hrows.
  rewrite Hrun in Hrows. cbn [fst app] in Hrows.
  specialize (Hrows ltac:(rewrite Hsd; exact Hnd) Hk0).
  injection Hrows as HQ HO.
  assert (Hready' : ready s').
  { intros e He. apply Hknown, (Hready e He). }
  exists s'. split; [|exact Hready'].
  unfold get_status_data, bind.
  rewrite collect_results_eq by (simpl; assumption). cbn [app].
  fold (status_dict_of completed s).
  rewrite (locked_update_eq t _ _ Q O s'); [|exact Hrun|exact Hready'].
  rewrite HQ, HO. reflexivity.
Qed.

(** ** What holds between rounds *)

Lemma probe_status_bit w u : probe_status w u = 0 \/ probe_status w u = 1.
Proof.
  unfold probe_status.
  destruct (respond w u (request_count w u)) as [code| | |what]; auto.
  destruct (code =? 200); auto.
Qed.

Lemma length_trim {A} (l : list A) :
  length (trim l)
  = if MAX_HISTORY_LEN <=? len l then pred (length l) else length l.
Proof.
  unfold trim. destruct (MAX_HISTORY_LEN <=? len l); [|reflexivity].
  destruct l; reflexivity.
Qed.

Lemma length_push_same {A B} (l : list A) (k : list B) x y :
  length l = length k -> length (push l x) = length (push k y).
Proof.
  intros H. unfold push. rewrite !length_app, !length_trim.
  unfold len. rewrite H. reflexivity.
Qed.

Lemma length_push_le {A} (l : list A) x :
  (length l <= Z.to_nat MAX_HISTORY_LEN)%nat ->
  (length (push l x) <= Z.to_nat MAX_HISTORY_LEN)%nat.
Proof.
  intros H. unfold push. rewrite length_app, length_trim. unfold len.
  cbn [length].
  destruct (Z.leb_spec MAX_HISTORY_LEN (Z.of_nat (length l)));
    unfold MAX_HISTORY_LEN in *; lia.
Qed.

Lemma Forall_push {A} (P : A -> Prop) (l : list A) x :
  Forall P l -> P x -> Forall P (push l x).
Proof.
  intros Hl Hx. unfold push. apply Forall_app. split.
  - unfold trim. destruct (MAX_HISTORY_LEN <=? len l); [|exact Hl].
    destruct l as [|y l]; [constructor|].
    apply Forall_cons in Hl as [_ Hl]. exact Hl.
  - constructor; [exact Hx | constructor].
Qed.

Lemma last_push {A} (l : list A) x : last (push l x) = Some x.
Proof. unfold push. apply last_snoc. Qed.

Lemma site_of_name e : e ∈ ORDERED_NAMES -> exists u, (e, u) ∈ SITES.
Proof.
  intros H. apply list_elem_of_fmap in H as ([e' u] & -> & H).
  exists u. exact H.
Qed.

Lemma steady_ready s : steady s -> ready s.
Proof.
  intros [_ H] e He. destruct (H e He) as (h & n & Hh & Hn & _).
  split; eauto.
Qed.

Lemma steady_initial_state w : steady (initial_state w).
Proof.
  split; [simpl; lia|]. intros e He. exists [], 0.
  unfold initial_state. cbn [history offline_time timestamps].
  rewrite !lookup_constant_map by exact He.
  split; [reflexivity|]. split; [reflexivity|]. split; [reflexivity|].
  split; [constructor|]. split; [lia|].
  split; [apply Z.divide_0_r|].
  split; [intros _ H; discriminate H | reflexivity].
Qed.

Lemma steady_round t completed s :
  steady s ->
  completed ≡ₚ SITES ->
  steady (snd (get_status_data t completed s)).
Proof.
  intros Hs Hperm. pose proof (steady_ready s Hs) as Hready.
  destruct Hs as [Hcap Hs].
  destruct (get_status_data_spec t completed s Hready Hperm)
    as (snap & s' & Hrun & _ & Hts & _ & _ & _ & Hep).
  rewrite Hrun. cbn [snd]. split.
  - rewrite Hts. apply length_push_le, Hcap.
  - intros e He. destruct (Hs e He) as (h & n & Hh & Hn & Hlen & Hbits & Hn0
                                        & Hdiv & Hzero).
    destruct (site_of_name e He) as [u Hu].
    destruct (Hep e u h n Hu Hh Hn) as (H1 & _).
    set (st := probe_status (network s) u) in *.
    exists (push h st), (next_offline st n).
    split; [exact (f_equal (fun x => fst (fst x)) H1)|].
    split; [exact (f_equal (fun x => snd (fst x)) H1)|].
    split; [rewrite Hts; apply length_push_same, Hlen|].
    split.
    { apply Forall_push; [exact Hbits|]. apply probe_status_bit. }
    rewrite last_push. unfold next_offline, CHECK_INTERVAL in *.
    destruct (probe_status_bit (network s) u) as [E|E]; fold st in E;
      rewrite E; simpl.
    + split; [lia|]. split; [apply Z.divide_add_r; [exact Hdiv|]|].
      * exists 1. reflexivity.
      * split; [lia | intros H; exfalso; apply H; reflexivity].
    + split; [lia|]. split; [apply Z.divide_0_r|].
      split; [intros _ H; discriminate H | reflexivity].
Qed.

(** An invariant of the state holds after any number of rounds, and
    what it gives of a round holds of every round. *)
Lemma run_rounds_invariant (I : state -> Prop)
  (P : outcome snapshot * state -> Prop) rounds :
  (forall s t c, I s -> c ≡ₚ SITES ->
     P (get_status_data t c s) /\ I (snd (get_status_data t c s))) ->
  forall s,
    I s -> valid_rounds rounds ->
    Forall P (run_rounds rounds s) /\ I (state_after rounds s).
Proof.
  intros Hstep. induction rounds as [|[t c] rounds IH]; intros s Hs Hvalid.
  - split; [constructor | exact Hs].
  - apply Forall_cons in Hvalid as [Hperm Hvalid]. cbn [snd] in Hperm.
    destruct (Hstep s t c Hs Hperm) as [HP HI].
    destruct (IH _ HI Hvalid) as [HF HI'].
    cbn [run_rounds state_after]. split; [|exact HI'].
    constructor; [exact HP | exact HF].
Qed.

Lemma steady_state_after w rounds :
  valid_rounds rounds -> steady (state_after rounds (initial_state w)).
Proof.
  intros Hvalid.
  apply (run_rounds_invariant steady (fun _ => True) rounds).
  - intros s t c Hs Hperm. split; [exact I | apply steady_round; assumption].
  - apply steady_initial_state.
  - exact Hvalid.
Qed.

Lemma color_of_push h status :
  color_of (push h status)
  = if flapped h status then "yellow"
    else if status =? 1 then "green" else "red".
Proof.
  unfold color_of, flapped, push. rewrite reverse_app. cbn [reverse app].
  rewrite <- head_reverse.
  destruct (reverse (trim h)) as [|y l]; [reflexivity|].
  cbn [rev_append app head]. simpl.
  destruct (negb (y =? status)); reflexivity.
Qed.

Lemma sublist_item_rows (f : string * Z -> list row) (items : list (string * Z)) :
  (forall p, f p = [] \/ exists r, f p = [r] /\ r_nome r = fst p) ->
  map r_nome (flat_map f items) `sublist_of` map fst items.
Proof.
  intros Hf. induction items as [|p items IH]; simpl; [constructor|].
  destruct (Hf p) as [->|(r & -> & <-)]; simpl.
  - apply sublist_cons. exact IH.
  - apply sublist_skip. exact IH.
Qed.

Lemma Forall_flat_map {A B} (P : B -> Prop) (f : A -> list B) (l : list A) :
  (forall a, Forall P (f a)) -> Forall P (flat_map f l).
Proof.
  intros H. induction l as [|a l IH]; simpl; [constructor|].
  apply Forall_app. split; [apply H | exact IH].
Qed.

Lemma brasnorte_in_SITES : brasnorte ∈ SITES.
Proof. by_computation. Qed.

(** ** The engine *)

(** X1: in a round the oscillation flag of a unit is recomputed from
    the last buffered sample and the new one alone: it is set exactly
    when there was a sample and the new one differs from it, an
    "Oscilação" row for the unit is reported exactly then, and the
    flag of the round before plays no part. *)
Theorem oscillation_flag_of_round (t : string)
  (completed : list (string * string)) (s : state) (e u : string)
  (h : list Z) :
  ready s ->
  completed ≡ₚ SITES ->
  (e, u) ∈ SITES ->
  history s !! e = Some h ->
  exists snap s' flag,
    get_status_data t completed s = (Ok snap, s')
    /\ flag = match last h with
              | Some p => bool_decide (p <> probe_status (network s) u)
              | None => false
              end
    /\ oscillation_detected s' !! e = Some flag
    /\ rows_of e (s_oscilacoes snap)
       = (if flag then [mkRow t e Dash "Oscilação"] else []).
Proof.
  intros Hready Hperm He Hh.
  destruct (Hready e) as [_ [n Hn]].
  { apply (list_elem_of_fmap_2 fst) in He. exact He. }
  destruct (get_status_data_spec t completed s Hready Hperm)
    as (snap & s' & Hrun & _ & _ & _ & _ & _ & Hep).
  destruct (Hep e u h n He Hh Hn) as (H1 & _ & H3 & _).
  exists snap, s', (flapped h (probe_status (network s) u)).
  split; [exact Hrun|]. split; [apply flapped_last|].
  split; [exact (f_equal snd H1) | exact H3].
Qed.

(** After two rounds up, a round down sets the flag of "Brasnorte". *)
Lemma oscillation_flag_of_round_witness :
  exists snap s' flag,
    get_status_data "12:00:10" SITES
      (state_after (numbered_rounds 2) (initial_state brasnorte_outage))
    = (Ok snap, s')
    /\ flag = match last [1; 1] with
              | Some p =>
                  bool_decide
                    (p <> probe_status
                            (network (state_after (numbered_rounds 2)
                                        (initial_state brasnorte_outage)))
                            "https://brasnorte.celk.com.br/")
              | None => false
              end
    /\ oscillation_detected s' !! "Brasnorte" = Some flag
    /\ rows_of "Brasnorte" (s_oscilacoes snap)
       = (if flag then [mkRow "12:00:10" "Brasnorte" Dash "Oscilação"]
          else []).
Proof.
  apply (oscillation_flag_of_round "12:00:10" SITES
           (state_after (numbered_rounds 2) (initial_state brasnorte_outage))
           "Brasnorte" "https://brasnorte.celk.com.br/" [1; 1]).
  - apply steady_ready, steady_state_after. repeat constructor.
  - reflexivity.
  - exact brasnorte_in_SITES.
  - vm_compute. reflexivity.
Defined.

(** X2: the result of a round shows the state the round leaves. Its
    timestamps are the time index; its "data" and "status_colors" have
    the configured units as keys, in the order of [ORDERED_NAMES]; the
    entry of a unit in "data" is the unit's buffer and its entry in
    "status_colors" is what [get_status_color] returns for it. *)
Theorem snapshot_shows_state (t : string)
  (completed : list (string * string)) (s : state) :
  ready s ->
  completed ≡ₚ SITES ->
  exists snap s',
    get_status_data t completed s = (Ok snap, s')
    /\ s_timestamps snap = timestamps s'
    /\ map fst (s_data snap) = ORDERED_NAMES
    /\ map fst (s_status_colors snap) = ORDERED_NAMES
    /\ (forall e, e ∈ ORDERED_NAMES ->
          dict_get (s_data snap) e = history s' !! e
          /\ exists c,
               get_status_color e s' = (Ok c, s')
               /\ dict_get (s_status_colors snap) e = Some c).
Proof.
  intros Hready Hperm.
  destruct (get_status_data_eq t completed s Hready Hperm)
    as (s' & Hrun & Hready').
  eexists _, s'. split; [exact Hrun|].
  unfold result_of. cbn [s_timestamps s_data s_status_colors].
  split; [reflexivity|].
  split; [rewrite map_map; apply map_id|].
  split; [rewrite map_map; apply map_id|].
  intros e He. destruct (Hready' e He) as [[h Hh] _].
  assert (Hget : forall {V} (g : string -> V),
            dict_get (map (fun n => (n, g n)) ORDERED_NAMES) e = Some (g e)).
  { intros V g.
    pose proof (dict_comprehension_map g ORDERED_NAMES []) as E.
    cbn [app map] in E. rewrite <- E by apply NoDup_ORDERED_NAMES.
    rewrite dict_get_comprehension, decide_True by exact He. reflexivity. }
  rewrite !Hget, Hh. cbn [default]. split; [reflexivity|].
  exists (color_of h). split; [apply get_status_color_eq, Hh | reflexivity].
Qed.

Lemma snapshot_shows_state_witness :
  exists snap s',
    get_status_data "12:00:00" SITES (initial_state all_up) = (Ok snap, s')
    /\ s_timestamps snap = timestamps s'
    /\ map fst (s_data snap) = ORDERED_NAMES
    /\ map fst (s_status_colors snap) = ORDERED_NAMES
    /\ (forall e, e ∈ ORDERED_NAMES ->
          dict_get (s_data snap) e = history s' !! e
          /\ exists c,
               get_status_color e s' = (Ok c, s')
               /\ dict_get (s_status_colors snap) e = Some c).
Proof.
  apply (snapshot_shows_state "12:00:00" SITES (initial_state all_up)).
  - apply ready_initial_state.
  - reflexivity.
Defined.

(** X3: after any number of rounds from the initial state every round
    has returned a result in which every series of "data" is as long
    as "timestamps", at most 100 long, and made of samples 0 and 1. *)
Theorem snapshot_series_aligned (w : net)
  (rounds : list (string * list (string * string))) :
  valid_rounds rounds ->
  Forall (fun r =>
            exists snap,
              fst r = Ok snap
              /\ forall n buf,
                   (n, buf) ∈ s_data snap ->
                   length buf = length (s_timestamps snap)
                   /\ (length buf <= 100)%nat
                   /\ Forall (fun x => x = 0 \/ x = 1) buf)
    (run_rounds rounds (initial_state w)).
Proof.
  intros Hvalid.
  apply (run_rounds_invariant steady _ rounds);
    [|apply steady_initial_state|exact Hvalid].
  intros s t c Hs Hperm.
  pose proof (steady_round t c s Hs Hperm) as Hs'.
  split; [|exact Hs'].
  destruct (get_status_data_eq t c s (steady_ready s Hs) Hperm)
    as (s' & Hrun & _).
  rewrite Hrun in Hs' |- *. cbn [fst snd] in *.
  eexists. split; [reflexivity|].
  intros n buf Hin. unfold result_of in Hin. cbn [s_data] in Hin.
  unfold result_of. cbn [s_timestamps].
  apply list_elem_of_fmap in Hin as (e & Heq & He).
  injection Heq as -> ->.
  destruct Hs' as [Hcap Hs'].
  destruct (Hs' e He) as (h & k & Hh & _ & Hlen & Hbits & _).
  rewrite Hh. cbn [default].
  split; [exact Hlen|]. split; [|exact Hbits].
  change (length h <= 100)%nat. unfold MAX_HISTORY_LEN in Hcap. lia.
Qed.

Lemma snapshot_series_aligned_witness :
  Forall (fun r =>
            exists snap,
              fst r = Ok snap
              /\ forall n buf,
                   (n, buf) ∈ s_data snap ->
                   length buf = length (s_timestamps snap)
                   /\ (length buf <= 100)%nat
                   /\ Forall (fun x => x = 0 \/ x = 1) buf)
    (run_rounds (numbered_rounds 3) (initial_state brasnorte_outage)).
Proof.
  apply (snapshot_series_aligned brasnorte_outage (numbered_rounds 3)).
  repeat constructor.
Defined.

(** X4: after any number of rounds from the initial state the counter
    of every configured unit is a multiple of 5, not negative, and it
    is 0 exactly when the unit's latest buffered sample is not a down
    sample; so a counter that is not 0 is at least 5. *)
Theorem counter_follows_latest_sample (w : net)
  (rounds : list (string * list (string * string))) (e : string) :
  valid_rounds rounds ->
  e ∈ ORDERED_NAMES ->
  exists h n,
    history (state_after rounds (initial_state w)) !! e = Some h
    /\ offline_time (state_after rounds (initial_state w)) !! e = Some n
    /\ 0 <= n
    /\ (5 | n)
    /\ (n = 0 <-> last h <> Some 0)
    /\ (n <> 0 -> 5 <= n).
Proof.
  intros Hvalid He.
  destruct (steady_state_after w rounds Hvalid) as [_ Hs].
  destruct (Hs e He) as (h & n & Hh & Hn & _ & _ & Hn0 & Hdiv & Hzero).
  exists h, n. repeat (split; [assumption|]).
  intros Hne. destruct Hdiv as [k Hk]. unfold CHECK_INTERVAL in Hk. lia.
Qed.

Lemma counter_follows_latest_sample_witness :
  exists h n,
    history (state_after (numbered_rounds 4) (initial_state brasnorte_outage))
      !! "Brasnorte" = Some h
    /\ offline_time
         (state_after (numbered_rounds 4) (initial_state brasnorte_outage))
         !! "Brasnorte" = Some n
    /\ 0 <= n
    /\ (5 | n)
    /\ (n = 0 <-> last h <> Some 0)
    /\ (n <> 0 -> 5 <= n).
Proof.
  apply (counter_follows_latest_sample brasnorte_outage (numbered_rounds 4)
           "Brasnorte").
  - repeat constructor.
  - by_computation.
Defined.

(** X5: from the initial state on, a round reports a "Queda" row for a
    unit exactly when the unit's sample of that round is down: the
    counter is then at least 5, so the threshold never holds a row
    back. A unit shown green has no row and a unit shown red has one. *)
Theorem queda_row_iff_down (w : net)
  (rounds : list (string * list (string * string))) (t : string)
  (completed : list (string * string)) (e u : string) :
  valid_rounds rounds ->
  completed ≡ₚ SITES ->
  (e, u) ∈ SITES ->
  exists snap s' n',
    get_status_data t completed (state_after rounds (initial_state w))
    = (Ok snap, s')
    /\ offline_time s' !! e = Some n'
    /\ (probe_status (network (state_after rounds (initial_state w))) u = 0 ->
        5 <= n'
        /\ rows_of e (s_quedas snap) = [mkRow t e (Seconds n') "Queda"])
    /\ (probe_status (network (state_after rounds (initial_state w))) u = 1 ->
        n' = 0 /\ rows_of e (s_quedas snap) = [])
    /\ (dict_get (s_status_colors snap) e = Some "green" ->
        rows_of e (s_quedas snap) = [])
    /\ (dict_get (s_status_colors snap) e = Some "red" ->
        rows_of e (s_quedas snap) = [mkRow t e (Seconds n') "Queda"]).
Proof.
  intros Hvalid Hperm He.
  set (s := state_after rounds (initial_state w)).
  pose proof (steady_state_after w rounds Hvalid) as Hs. fold s in Hs.
  pose proof (steady_ready s Hs) as Hready.
  destruct Hs as [_ Hs]. destruct (Hs e) as (h & n & Hh & Hn & _ & _ & Hn0
                                             & [k Hk] & _).
  { apply (list_elem_of_fmap_2 fst) in He. exact He. }
  destruct (get_status_data_spec t completed s Hready Hperm)
    as (snap & s' & Hrun & _ & _ & _ & _ & _ & Hep).
  destruct (Hep e u h n He Hh Hn) as (H1 & H2 & _ & _ & H5).
  set (st := probe_status (network s) u) in *.
  exists snap, s', (next_offline st n).
  split; [exact Hrun|].
  split; [exact (f_equal (fun x => snd (fst x)) H1)|].
  assert (Hdown : st = 0 ->
            5 <= next_offline st n
            /\ rows_of e (s_quedas snap)
               = [mkRow t e (Seconds (next_offline st n)) "Queda"]).
  { intros E. rewrite H2, E. unfold next_offline, queda_rows, CHECK_INTERVAL.
    simpl. destruct (Z.leb_spec 5 (n + 5)); [split; [lia | reflexivity]|].
    lia. }
  assert (Hup : st = 1 ->
            next_offline st n = 0 /\ rows_of e (s_quedas snap) = []).
  { intros E. rewrite H2, E. split; reflexivity. }
  split; [exact Hdown|]. split; [exact Hup|].
  rewrite H5, color_of_push.
  destruct (flapped h st); [split; intros H; discriminate H|].
  destruct (Z.eqb_spec st 1) as [E|E].
  - split; [|intros H; discriminate H]. intros _. apply (Hup E).
  - assert (E0 : st = 0).
    { destruct (probe_status_bit (network s) u) as [E'|E'];
        fold st in E'; [exact E' | contradiction]. }
    split; [intros H; discriminate H|]. intros _. apply (Hdown E0).
Qed.

Lemma queda_row_iff_down_witness :
  exists snap s' n',
    get_status_data "12:00:10" SITES
      (state_after (numbered_rounds 2) (initial_state brasnorte_outage))
    = (Ok snap, s')
    /\ offline_time s' !! "Brasnorte" = Some n'
    /\ 5 <= n'
    /\ rows_of "Brasnorte" (s_quedas snap)
       = [mkRow "12:00:10" "Brasnorte" (Seconds n') "Queda"].
Proof.
  destruct (queda_row_iff_down brasnorte_outage (numbered_rounds 2)
              "12:00:10" SITES "Brasnorte" "https://brasnorte.celk.com.br/")
    as (snap & s' & n' & Hrun & Hn' & Hdown & _).
  - repeat constructor.
  - reflexivity.
  - exact brasnorte_in_SITES.
  - exists snap, s', n'. split; [exact Hrun|]. split; [exact Hn'|].
    apply Hdown. vm_compute. reflexivity.
Defined.

(** X6: in the result of a round a unit is shown yellow exactly when
    an "Oscilação" row is reported for it. *)
Theorem yellow_iff_oscilacao (t : string)
  (completed : list (string * string)) (s : state) (e u : string) :
  ready s ->
  completed ≡ₚ SITES ->
  (e, u) ∈ SITES ->
  exists snap s',
    get_status_data t completed s = (Ok snap, s')
    /\ (dict_get (s_status_colors snap) e = Some "yellow" <->
        rows_of e (s_oscilacoes snap) = [mkRow t e Dash "Oscilação"])
    /\ (dict_get (s_status_colors snap) e <> Some "yellow" <->
        rows_of e (s_oscilacoes snap) = []).
Proof.
  intros Hready Hperm He.
  destruct (Hready e) as [[h Hh] [n Hn]].
  { apply (list_elem_of_fmap_2 fst) in He. exact He. }
  destruct (get_status_data_spec t completed s Hready Hperm)
    as (snap & s' & Hrun & _ & _ & _ & _ & _ & Hep).
  destruct (Hep e u h n He Hh Hn) as (_ & _ & H3 & _ & H5).
  exists snap, s'. split; [exact Hrun|].
  rewrite H3, H5, color_of_push. unfold flap_rows.
  destruct (flapped h (probe_status (network s) u)).
  - split; split; try reflexivity; intros H; try discriminate H.
    exfalso. apply H. reflexivity.
  - destruct (probe_status (network s) u =? 1);
      (split; split; try reflexivity; intros H; try discriminate H;
       intros H'; discriminate H').
Qed.

Lemma yellow_iff_oscilacao_witness :
  exists snap s',
    get_status_data "12:00:10" SITES
      (state_after (numbered_rounds 2) (initial_state brasnorte_outage))
    = (Ok snap, s')
    /\ (dict_get (s_status_colors snap) "Brasnorte" = Some "yellow" <->
        rows_of "Brasnorte" (s_oscilacoes snap)
        = [mkRow "12:00:10" "Brasnorte" Dash "Oscilação"])
    /\ (dict_get (s_status_colors snap) "Brasnorte" <> Some "yellow" <->
        rows_of "Brasnorte" (s_oscilacoes snap) = []).
Proof.
  apply (yellow_iff_oscilacao "12:00:10" SITES
           (state_after (numbered_rounds 2) (initial_state brasnorte_outage))
           "Brasnorte" "https://brasnorte.celk.com.br/").
  - apply steady_ready, steady_state_after. repeat constructor.
  - reflexivity.
  - exact brasnorte_in_SITES.
Defined.

(** X7: a round reports at most one "Queda" row and at most one
    "Oscilação" row per unit, in the order in which the probes
    completed; every row carries the round's timestamp, and a "Queda"
    row carries seconds where an "Oscilação" row carries "-". *)
Theorem one_row_per_unit (t : string) (completed : list (string * string))
  (s : state) :
  ready s ->
  completed ≡ₚ SITES ->
  exists snap s',
    get_status_data t completed s = (Ok snap, s')
    /\ map r_nome (s_quedas snap) `sublist_of` map fst completed
    /\ map r_nome (s_oscilacoes snap) `sublist_of` map fst completed
    /\ NoDup (map r_nome (s_quedas snap))
    /\ NoDup (map r_nome (s_oscilacoes snap))
    /\ (length (s_quedas snap) <= length SITES)%nat
    /\ (length (s_oscilacoes snap) <= length SITES)%nat
    /\ Forall (fun r => r_data r = t /\ r_tipo r = "Queda"
                        /\ exists n, r_tempo r = Seconds n /\ 5 <= n)
         (s_quedas snap)
    /\ Forall (fun r => r_data r = t /\ r_tipo r = "Oscilação"
                        /\ r_tempo r = Dash)
         (s_oscilacoes snap).
Proof.
  intros Hready Hperm.
  destruct (get_status_data_eq t completed s Hready Hperm)
    as (s' & Hrun & _).
  eexists _, s'. split; [exact Hrun|].
  unfold result_of. cbn [s_quedas s_oscilacoes].
  assert (Hsd : map fst (status_dict_of completed s) = map fst completed).
  { unfold status_dict_of. rewrite map_map. reflexivity. }
  assert (Hnd : NoDup (map fst completed)).
  { assert (Hn : map fst completed ≡ₚ ORDERED_NAMES)
      by (unfold ORDERED_NAMES; rewrite Hperm; reflexivity).
    rewrite Hn. apply NoDup_ORDERED_NAMES. }
  assert (HQ : map r_nome (flat_map (item_quedas t s)
                             (status_dict_of completed s))
               `sublist_of` map fst completed).
  { rewrite <- Hsd. apply sublist_item_rows. intros p.
    unfold item_quedas, queda_rows.
    destruct (5 <=? _); [right; eexists; split; reflexivity | left;
                                                              reflexivity]. }
  assert (HO : map r_nome (flat_map (item_oscilacoes t s)
                             (status_dict_of completed s))
               `sublist_of` map fst completed).
  { rewrite <- Hsd. apply sublist_item_rows. intros p.
    unfold item_oscilacoes, flap_rows.
    destruct (flapped _ _); [right; eexists; split; reflexivity | left;
                                                                  reflexivity]. }
  assert (Hlen : length (map fst completed) = length SITES).
  { rewrite length_map, Hperm. reflexivity. }
  split; [exact HQ|]. split; [exact HO|].
  split; [exact (sublist_NoDup _ _ Hnd HQ)|].
  split; [exact (sublist_NoDup _ _ Hnd HO)|].
  split.
  { apply sublist_length in HQ. rewrite length_map in HQ. lia. }
  split.
  { apply sublist_length in HO. rewrite length_map in HO. lia. }
  split.
  - apply Forall_flat_map. intros p. unfold item_quedas, queda_rows.
    destruct (Z.leb_spec 5 (next_offline p.2
                              (default 0 (offline_time s !! p.1))));
      [|constructor].
    constructor; [|constructor]. cbn. eauto.
  - apply Forall_flat_map. intros p. unfold item_oscilacoes, flap_rows.
    destruct (flapped _ _); [|constructor].
    constructor; [|constructor]. cbn. auto.
Qed.

Lemma one_row_per_unit_witness :
  exists snap s',
    get_status_data "12:00:00" SITES (initial_state brasnorte_down)
    = (Ok snap, s')
    /\ NoDup (map r_nome (s_quedas snap))
    /\ (length (s_quedas snap) <= length SITES)%nat.
Proof.
  destruct (one_row_per_unit "12:00:00" SITES (initial_state brasnorte_down))
    as (snap & s' & Hrun & _ & _ & Hnd & _ & Hlen & _).
  - apply ready_initial_state.
  - reflexivity.
  - exists snap, s'. auto.
Defined.



(** ** What a round leaves alone, even when it raises *)

Lemma quiet_ret {A} (a : A) : quiet (ret a).
Proof. intros s. reflexivity. Qed.

Lemma quiet_raise {A} (e : exn) : quiet (raise e : M state A).
Proof. intros s. reflexivity. Qed.

Lemma quiet_gets {A} (f : state -> A) : quiet (gets f).
Proof. intros s. reflexivity. Qed.

Lemma quiet_modify (f : state -> state) :
  (forall s, control (f s) = control s) -> quiet (modify f).
Proof. intros H s. apply H. Qed.

Lemma quiet_bind {A B} (m : M state A) (k : A -> M state B) :
  quiet m -> (forall a, quiet (k a)) -> quiet (bind m k).
Proof.
  intros Hm Hk s. unfold bind. specialize (Hm s).
  destruct (m s) as [[a|e] s1]; cbn [snd] in *.
  - rewrite (Hk a s1). exact Hm.
  - exact Hm.
Qed.

Lemma quiet_try_except {A} (m : M state A) (h : exn -> M state A) :
  quiet m -> (forall e, quiet (h e)) -> quiet (try_except m h).
Proof.
  intros Hm Hh s. unfold try_except. specialize (Hm s).
  destruct (m s) as [[a|e] s1]; cbn [snd] in *.
  - exact Hm.
  - rewrite (Hh e s1). exact Hm.
Qed.

Create HintDb quiet.
#[local] Hint Resolve quiet_ret quiet_raise quiet_gets : quiet.

(** One step of a proof that a computation is quiet: through a bind,
    a handler, a conditional or a match, down to the primitives. *)
Ltac quiet_step :=
  match goal with
  | |- quiet (bind _ _) => apply quiet_bind; [|intros]
  | |- quiet (try_except _ _) => apply quiet_try_except; [|intros]
  | |- quiet (modify _) => apply quiet_modify; intros; reflexivity
  | |- quiet (if ?b then _ else _) => destruct b
  | |- quiet (match ?x with _ => _ end) => destruct x
  | |- quiet _ => solve [auto with quiet]
  end.

Lemma quiet_session_get url : quiet (session_get url).
Proof.
  intros s. unfold session_get.
  destruct (respond (network s) url (request_count (network s) url));
    reflexivity.
Qed.
#[local] Hint Resolve quiet_session_get : quiet.

Lemma quiet_check_site nome url : quiet (check_site nome url).
Proof. unfold check_site. repeat quiet_step. Qed.
#[local] Hint Resolve quiet_check_site : quiet.

Lemma quiet_collect_results completed :
  forall status_dict, quiet (collect_results completed status_dict).
Proof.
  induction completed as [|[n u] completed IH]; intros status_dict; simpl;
    repeat quiet_step.
Qed.
#[local] Hint Resolve quiet_collect_results : quiet.

Lemma quiet_history_getitem nome : quiet (history_getitem nome).
Proof.
  intros s. unfold history_getitem. destruct (history s !! nome); reflexivity.
Qed.

Lemma quiet_offline_time_getitem nome : quiet (offline_time_getitem nome).
Proof.
  intros s. unfold offline_time_getitem.
  destruct (offline_time s !! nome); reflexivity.
Qed.
#[local] Hint Resolve quiet_history_getitem quiet_offline_time_getitem : quiet.

Lemma quiet_list_getitem_neg {A} (l : list A) k :
  quiet (list_getitem_neg l k).
Proof. unfold list_getitem_neg. repeat quiet_step. Qed.
#[local] Hint Resolve quiet_list_getitem_neg : quiet.

Lemma quiet_history_pop0 nome : quiet (history_pop0 nome).
Proof. unfold history_pop0. repeat quiet_step. Qed.

Lemma quiet_timestamps_pop0 : quiet timestamps_pop0.
Proof. unfold timestamps_pop0. repeat quiet_step. Qed.
#[local] Hint Resolve quiet_history_pop0 quiet_timestamps_pop0 : quiet.

Lemma quiet_get_status_color name : quiet (get_status_color name).
Proof. unfold get_status_color. repeat quiet_step. Qed.
#[local] Hint Resolve quiet_get_status_color : quiet.

Lemma quiet_dict_comprehension {V} keys (f : string -> M state V) :
  (forall n, quiet (f n)) ->
  forall acc, quiet (dict_comprehension acc keys f).
Proof.
  intros Hf. induction keys as [|k keys IH]; intros acc; simpl.
  - apply quiet_ret.
  - apply quiet_bind; [apply Hf | intros; apply IH].
Qed.

Lemma quiet_loop_body t nome status rq ro :
  quiet (loop_body t nome status rq ro).
Proof. unfold loop_body. repeat quiet_step. Qed.
#[local] Hint Resolve quiet_loop_body : quiet.

Lemma quiet_for_items t items :
  forall rq ro, quiet (for_items t items rq ro).
Proof.
  induction items as [|[nome status] items IH]; intros rq ro; simpl;
    repeat quiet_step.
Qed.
#[local] Hint Resolve quiet_for_items : quiet.

Lemma quiet_locked_update t status_dict : quiet (locked_update t status_dict).
Proof.
  unfold locked_update. repeat quiet_step.
  - apply quiet_dict_comprehension. auto with quiet.
  - apply quiet_dict_comprehension. auto with quiet.
Qed.
#[local] Hint Resolve quiet_locked_update : quiet.



(** A round that raises: the stale snapshot stays. *)
Example _background_loop_iteration_failed :
  let s := set_LATEST_DATA (Some empty_snapshot) (initial_state all_up) in
  let r := _background_loop_iteration "12:00:00" stray_completion s in
  is_ok (fst (get_status_data "12:00:00" stray_completion s)) = false
  /\ fst r = Ok tt
  /\ LATEST_DATA (snd r) = Some empty_snapshot.
Proof. vm_compute. repeat split. Qed.

Lemma for_items_app t items1 items2 :
  forall rq ro s,
    for_items t (items1 ++ items2) rq ro s
    = match for_items t items1 rq ro s with
      | (Ok r, s1) => for_items t items2 (fst r) (snd r) s1
      | (Raise e, s1) => (Raise e, s1)
      end.
Proof.
  induction items1 as [|[nome status] items1 IH]; intros rq ro s.
  - reflexivity.
  - cbn [app for_items]. unfold bind.
    destruct (loop_body t nome status rq ro s) as [[r|e] s1];
      [apply IH | reflexivity].
Qed.

Lemma loop_body_unknown t nome status rq ro s :
  history s !! nome = None ->
  loop_body t nome status rq ro s = (Raise (KeyError nome), s).
Proof.
  intros H. unfold loop_body, bind, history_getitem. rewrite H. reflexivity.
Qed.

(** X10: the update is not all-or-nothing. If the round's map names,
    after some known units, a unit that [history] does not have, the
    update raises [KeyError] for it; by then the timestamp has been
    appended and the units before it updated, while the units not yet
    reached are as they were. *)
Theorem locked_update_unknown_unit (t : string)
  (status_dict : list (string * Z)) (nome : string) (status : Z)
  (later : list (string * Z)) (s : state) :
  NoDup (map fst status_dict) ->
  (forall e, e ∈ map fst status_dict -> known s e) ->
  history s !! nome = None ->
  exists s',
    locked_update t (status_dict ++ (nome, status) :: later) s
    = (Raise (KeyError nome), s')
    /\ timestamps s' = push (timestamps s) t
    /\ (forall e st h,
          (e, st) ∈ status_dict ->
          history s !! e = Some h ->
          history s' !! e = Some (push h st))
    /\ (forall e, e ∉ map fst status_dict -> ep_state s' e = ep_state s e).
Proof.
  intros Hnd Hk Hnone.
  destruct (for_items_spec t status_dict [] [] (stamped t s) Hnd Hk)
    as (Q & O & s' & Hrun & Hrest & _ & Hout & Hin).
  exists s'. split.
  - assert (Hstamp :
      (ts <- gets timestamps ;;
       (if MAX_HISTORY_LEN <=? len ts then timestamps_pop0 else ret tt) ;;;
       modify (set_timestamps (fun ts => ts ++ [t]))) s
      = (Ok tt, stamped t s)).
    { unfold bind, gets, stamped, push, trim, timestamps_pop0, modify, ret,
        set_timestamps.
      destruct (MAX_HISTORY_LEN <=? len (timestamps s)) eqn:E;
        [|reflexivity].
      unfold bind, gets.
      destruct (timestamps s) as [|x ts'] eqn:Ets;
        [discriminate E | reflexivity]. }
    unfold locked_update.
    unfold bind in Hstamp. unfold bind. unfold gets at 1.
    unfold bind, gets in Hstamp.
    destruct ((if MAX_HISTORY_LEN <=? len (timestamps s)
               then timestamps_pop0 else ret tt) s) as [[[]|ex] s0] eqn:E0;
      [|discriminate Hstamp].
    unfold modify in Hstamp. pose proof (f_equal snd Hstamp) as Hs0.
    cbn [snd] in Hs0. unfold modify at 1. rewrite Hs0.
    rewrite for_items_app, Hrun. cbn [for_items fst snd]. unfold bind.
    rewrite loop_body_unknown; [reflexivity|].
    destruct (Hout nome) as (E & _).
    + intros Hin'. destruct (Hk nome Hin') as [[h Hh] _]. congruence.
    + pose proof (f_equal (fun x => fst (fst x)) E) as E1. cbn in E1.
      rewrite E1. exact Hnone.
  - split; [exact (f_equal (fun x => fst (fst (fst (fst (fst x))))) Hrest)|].
    split.
    + intros e st h He Hh.
      destruct (Hk e) as [_ [n Hn]].
      { apply (list_elem_of_fmap_2 fst) in He. exact He. }
      destruct (Hin e st h n He Hh Hn) as (E & _).
      exact (f_equal (fun x => fst (fst x)) E).
    + intros e He. apply (Hout e He).
Qed.

Lemma locked_update_unknown_unit_witness :
  exists s',
    locked_update "12:00:00" ([("Brasnorte", 0)] ++ [("Unknown", 1)])
      (initial_state all_up)
    = (Raise (KeyError "Unknown"), s')
    /\ timestamps s' = push (timestamps (initial_state all_up)) "12:00:00"
    /\ (forall e st h,
          (e, st) ∈ [("Brasnorte", 0)] ->
          history (initial_state all_up) !! e = Some h ->
          history s' !! e = Some (push h st))
    /\ (forall e, e ∉ map fst [("Brasnorte", 0)] ->
          ep_state s' e = ep_state (initial_state all_up) e).
Proof.
  apply (locked_update_unknown_unit "12:00:00" [("Brasnorte", 0)] "Unknown" 1
           [] (initial_state all_up)).
  - by_computation.
  - intros e He. apply ready_initial_state.
    apply list_elem_of_singleton in He. subst e. by_computation.
  - vm_compute. reflexivity.
Defined.

(** ** Callers of [ensure_started] running at once *)

Lemma running_loops_start_thread s :
  running_loops (start_thread "monitor_loop" s) = S (running_loops s).
Proof.
  unfold running_loops, start_thread. cbn [threads].
  rewrite filter_app, length_app. simpl. lia.
Qed.

Lemma filter_insert_started (pcs : list es_pc) i pc pc' :
  pcs !! i = Some pc ->
  length (filter (fun pc => has_started pc = true) (<[i := pc']> pcs))
  = ((if has_started pc' then 1 else 0)
     + length (filter (fun pc => has_started pc = true) pcs)
     - (if has_started pc then 1 else 0))%nat.
Proof.
  revert i. induction pcs as [|x pcs IH]; intros [|i] H; simpl in H;
    try discriminate H.
  - injection H as ->.
    change (<[0%nat := pc']> (pc :: pcs)) with (pc' :: pcs).
    rewrite !filter_cons.
    destruct (has_started pc'), (has_started pc); simpl; lia.
  - change (<[S i := pc']> (x :: pcs)) with (x :: <[i := pc']> pcs).
    rewrite !filter_cons. specialize (IH i H).
    assert (Hpos : has_started pc = true ->
              (1 <= length (filter (fun pc => has_started pc = true) pcs))%nat).
    { intros Hpc.
      assert (Hin : pc ∈ filter (fun pc => has_started pc = true) pcs).
      { apply list_elem_of_filter. split; [exact Hpc|].
        apply list_elem_of_lookup. eauto. }
      destruct (filter _ pcs); [inversion Hin | simpl; lia]. }
    destruct (decide (has_started x = true)); cbn [length]; rewrite IH;
      destruct (has_started pc'), (has_started pc) eqn:Epc; simpl;
      try lia; specialize (Hpos eq_refl); lia.
Qed.

Lemma start_invariant_step pcs s i pc :
  pcs !! i = Some pc ->
  start_invariant pcs s ->
  start_invariant (<[i := fst (ensure_started_step pc s)]> pcs)
    (snd (ensure_started_step pc s)).
Proof.
  intros Hi (Ha & Hb & Hc & Hd).
  assert (Hpc : pc ∈ pcs) by (apply list_elem_of_lookup; eauto).
  assert (Hmem : forall x pc', x ∈ <[i := pc']> pcs -> x = pc' \/ x ∈ pcs).
  { intros x pc' Hx. apply list_elem_of_lookup in Hx as [j Hj].
    destruct (decide (i = j)) as [->|Hne].
    - rewrite list_lookup_insert_eq in Hj
        by (apply lookup_lt_Some in Hi; exact Hi).
      injection Hj as <-. auto.
    - rewrite list_lookup_insert_ne in Hj by exact Hne.
      right. apply list_elem_of_lookup. eauto. }
  pose proof (filter_insert_started pcs i pc) as Hcount.
  unfold start_invariant.
  destruct pc; cbn [ensure_started_step fst snd].
  - (* the test of the flag *)
    destruct (_thread_started s) eqn:Hflag; cbn [negb];
      rewrite (Hcount _ Hi); cbn [has_started].
    + split; [exact Ha|]. split; [intros H; apply (Ha eq_refl)|].
      split; [intros; reflexivity | lia].
    + split; [exact Ha|]. split.
      { intros H. destruct (Hmem _ _ H) as [E|E]; [discriminate E | auto]. }
      split; [|lia].
      intros x Hx Hx'. destruct (Hmem _ _ Hx) as [->|Hx''];
        [destruct Hx' as [E|E]; discriminate E | eauto].
  - (* t.start() *)
    rewrite running_loops_start_thread, (Hcount _ Hi). cbn [has_started].
    split; [intros _; lia|]. split; [intros _; lia|].
    split; [|lia].
    intros x Hx Hx'. destruct (Hmem _ _ Hx) as [->|Hx''];
      [destruct Hx' as [E|E]; discriminate E | exact (Hc x Hx'' Hx')].
  - (* the assignment to the flag *)
    rewrite (Hcount _ Hi). cbn [has_started].
    change (running_loops (set_thread_started true s)) with (running_loops s).
    cbn [_thread_started set_thread_started].
    pose proof (Hb Hpc) as Hone.
    split; [intros _; exact Hone|]. split; [intros _; exact Hone|].
    split; [intros; reflexivity|].
    assert (1 <= length (filter (fun pc => has_started pc = true) pcs))%nat;
      [|lia].
    assert (Hin : EsSetFlag ∈ filter (fun pc => has_started pc = true) pcs)
      by (apply list_elem_of_filter; split; [reflexivity | exact Hpc]).
    destruct (filter _ pcs); [inversion Hin | simpl; lia].
  - (* the print *)
    rewrite (Hcount _ Hi). cbn [has_started].
    change (running_loops (print "[Monitor] Thread de monitoramento iniciada." s))
      with (running_loops s).
    change (_thread_started
              (print "[Monitor] Thread de monitoramento iniciada." s))
      with (_thread_started s).
    pose proof (Hc EsPrint Hpc (or_introl eq_refl)) as Hflag.
    split; [exact Ha|]. split; [intros _; apply (Ha Hflag)|].
    split; [intros; exact Hflag|].
    assert (1 <= length (filter (fun pc => has_started pc = true) pcs))%nat;
      [|lia].
    assert (Hin : EsPrint ∈ filter (fun pc => has_started pc = true) pcs)
      by (apply list_elem_of_filter; split; [reflexivity | exact Hpc]).
    destruct (filter _ pcs); [inversion Hin | simpl; lia].
  - (* done *)
    rewrite list_insert_id by exact Hi. auto.
Qed.

Lemma start_invariant_interleave schedule :
  forall pcs s,
    start_invariant pcs s ->
    start_invariant (fst (interleave schedule pcs s))
      (snd (interleave schedule pcs s)).
Proof.
  induction schedule as [|i schedule IH]; intros pcs s H; [exact H|].
  cbn [interleave]. destruct (pcs !! i) as [pc|] eqn:Hi.
  - apply IH, start_invariant_step; assumption.
  - apply IH, H.
Qed.

Lemma length_interleave schedule :
  forall pcs s, length (fst (interleave schedule pcs s)) = length pcs.
Proof.
  induction schedule as [|i schedule IH]; intros pcs s; [reflexivity|].
  cbn [interleave]. destruct (pcs !! i) as [pc|].
  - rewrite IH. apply length_insert.
  - apply IH.
Qed.

(** X11: however the statements of [n] callers of [ensure_started]
    interleave from the initial state, no more loop threads are
    started than there are callers; and once some caller has returned,
    the flag is set and at least one loop thread is running. *)
Theorem ensure_started_any_interleaving (w : net) (n : nat)
  (schedule : list nat) :
  let r := interleave schedule (replicate n EsTest) (initial_state w) in
  (running_loops (snd r) <= n)%nat
  /\ (EsDone ∈ fst r ->
      _thread_started (snd r) = true /\ (1 <= running_loops (snd r))%nat).
Proof.
  intros r.
  assert (H0 : start_invariant (replicate n EsTest) (initial_state w)).
  { split; [intros H; discriminate H|].
    split; [intros H; apply elem_of_replicate in H as [H _];
            discriminate H|].
    split.
    - intros pc Hpc. apply elem_of_replicate in Hpc as [-> _].
      intros [E|E]; discriminate E.
    - unfold running_loops. simpl. lia. }
  pose proof (start_invariant_interleave schedule _ _ H0)
    as (Ha & _ & Hc & Hd).
  fold r in Ha, Hc, Hd. split.
  - etransitivity; [exact Hd|].
    etransitivity; [apply length_filter|].
    unfold r. rewrite length_interleave, length_replicate. reflexivity.
  - intros Hdone.
    pose proof (Hc EsDone Hdone (or_intror eq_refl)) as Hflag.
    split; [exact Hflag | apply (Ha Hflag)].
Qed.

(** ** The reader, the fallback loop and the route *)

Lemma _get_current_data_returns g t completed s :
  exists snap s', _get_current_data g t completed s = (Ok snap, s').
Proof.
  unfold _get_current_data, bind, try_except, ret, modify.
  destruct (has_timestamps (app_LATEST_DATA g)); [eauto|].
  destruct (has_timestamps (_local_latest g)); [eauto|].
  destruct (monitor_get_status_data g); [|eauto].
  destruct (get_status_data t completed s) as [[snap|e] s1]; eauto.
Qed.

(** X12: the reader never raises, whatever the globals of [app.py]
    and the state hold. A cached dictionary that has "timestamps" is
    returned as it is, [LATEST_DATA] before [_local_latest], and then
    no round is run: the state, the request counters included, is
    unchanged. *)
Theorem _get_current_data_total_and_cached (g : app_globals) (t : string)
  (completed : list (string * string)) (s : state) :
  (exists snap s', _get_current_data g t completed s = (Ok snap, s'))
  /\ (forall d,
        has_timestamps (app_LATEST_DATA g) = Some d ->
        _get_current_data g t completed s = (Ok d, s))
  /\ (forall d,
        has_timestamps (app_LATEST_DATA g) = None ->
        has_timestamps (_local_latest g) = Some d ->
        _get_current_data g t completed s = (Ok d, s)).
Proof.
  split; [apply _get_current_data_returns|]. split.
  - intros d H. unfold _get_current_data, bind, try_except, ret.
    rewrite H. reflexivity.
  - intros d H1 H2. unfold _get_current_data, bind, try_except, ret.
    rewrite H1, H2. reflexivity.
Qed.

Lemma _fallback_monitor_loop_iteration_ok g t completed s snap s1 :
  get_status_data t completed s = (Ok snap, s1) ->
  _fallback_monitor_loop_iteration g t completed s
  = (Ok (mkApp (app_LATEST_DATA g) (PyDict (Some snap))
           (monitor_get_status_data g)), s1).
Proof.
  intros H. unfold _fallback_monitor_loop_iteration, try_except, bind, ret.
  rewrite H. reflexivity.
Qed.



(** X14: the route [/data] always answers 200 with what the reader
    returned and no "alerts"; its error answer, status 500, is never
    sent for a failure of the monitor. *)
Theorem data_always_200 (g : app_globals) (t : string)
  (completed : list (string * string)) (s : state) :
  exists snap s',
    _get_current_data g t completed s = (Ok snap, s')
    /\ data g t completed s = (Ok (mkResponse snap None 200), s').
Proof.
  destruct (_get_current_data_returns g t completed s) as (snap & s' & H).
  exists snap, s'. split; [exact H|].
  unfold data, try_except, bind, ret. rewrite H. reflexivity.
Qed.

(** The route answers 200 even when the round it triggers raises. *)
Example data_round_raises :
  fst (data unpublished "12:00:00" stray_completion (initial_state all_up))
  = Ok (mkResponse empty_snapshot None 200).
Proof. vm_compute. reflexivity. Qed.

Lemma run_rounds_all_ok rounds s :
  ready s ->
  valid_rounds rounds ->
  Forall (fun r => is_ok (fst r) = true) (run_rounds rounds s).
Proof.
  intros Hready Hvalid.
  apply (run_rounds_invariant ready _ rounds); [|exact Hready|exact Hvalid].
  intros s0 t c Hs Hperm.
  destruct (get_status_data_spec t c s0 Hs Hperm)
    as (snap & s' & Hrun & Hready' & _).
  rewrite Hrun. split; [reflexivity | exact Hready'].
Qed.

Lemma fallback_iterations_eq rounds :
  forall g s,
    ready s ->
    valid_rounds rounds ->
    fallback_iterations g rounds s
    = (Ok (mkApp (app_LATEST_DATA g)
             (match last (run_rounds rounds s) with
              | Some (Ok snap, _) => PyDict (Some snap)
              | _ => _local_latest g
              end)
             (monitor_get_status_data g)),
       state_after rounds s).
Proof.
  induction rounds as [|[t c] rounds IH]; intros g s Hready Hvalid.
  - destruct g; reflexivity.
  - apply Forall_cons in Hvalid as [Hperm Hvalid]. cbn [snd] in Hperm.
    destruct (get_status_data_spec t c s Hready Hperm)
      as (snap & s' & Hrun & Hready' & _).
    cbn [fallback_iterations run_rounds state_after]. unfold bind.
    rewrite (_fallback_monitor_loop_iteration_ok g t c s snap s' Hrun).
    rewrite Hrun. cbn [snd]. rewrite (IH _ s' Hready' Hvalid).
    cbn [app_LATEST_DATA _local_latest monitor_get_status_data].
    pose proof (run_rounds_all_ok rounds s' Hready' Hvalid) as Hok.
    destruct (run_rounds rounds s') as [|r rs] eqn:E; [reflexivity|].
    rewrite last_cons_cons.
    destruct (last (r :: rs)) as [[[sn|e] s2]|] eqn:El; [reflexivity| |].
    + apply last_Some_elem_of in El.
      rewrite Forall_forall in Hok. specialize (Hok _ El).
      discriminate Hok.
    + destruct rs; discriminate El || (rewrite last_cons_cons in El;
                                        apply last_None in El;
                                        discriminate El).
Qed.

(** X15: the fallback loop. Without a callable [get_status_data] it
    prints one line and returns without running a round. With one it
    prints its start line and runs the rounds of the engine, one per
    iteration: after the iterations [_local_latest] is the result of
    the last round and the state is the state those rounds leave. *)
Theorem _fallback_monitor_loop_rounds (g : app_globals)
  (rounds : list (string * list (string * string))) (s : state) :
  ready s ->
  valid_rounds rounds ->
  (monitor_get_status_data g = false ->
   _fallback_monitor_loop g rounds s
   = (Ok g,
      print "[FALLBACK MONITOR] monitor_get_status_data indisponível." s))
  /\ (monitor_get_status_data g = true ->
      let s0 := print "[FALLBACK MONITOR] Iniciando loop de atualização." s in
      exists g',
        _fallback_monitor_loop g rounds s = (Ok g', state_after rounds s0)
        /\ app_LATEST_DATA g' = app_LATEST_DATA g
        /\ _local_latest g'
           = match last (run_rounds rounds s0) with
             | Some (Ok snap, _) => PyDict (Some snap)
             | _ => _local_latest g
             end).
Proof.
  intros Hready Hvalid. split; intros Hm.
  - unfold _fallback_monitor_loop, bind, modify, ret. rewrite Hm.
    reflexivity.
  - intros s0.
    assert (Hready0 : ready s0) by (intros e He; apply (Hready e He)).
    pose proof (fallback_iterations_eq rounds g s0 Hready0 Hvalid) as H.
    eexists. split; [|split].
    + unfold _fallback_monitor_loop, bind, modify. rewrite Hm. cbn [negb].
      exact H.
    + reflexivity.
    + reflexivity.
Qed.

Lemma _fallback_monitor_loop_rounds_witness :
  exists g',
    _fallback_monitor_loop fallback_globals (numbered_rounds 2)
      (initial_state all_up)
    = (Ok g',
       state_after (numbered_rounds 2)
         (print "[FALLBACK MONITOR] Iniciando loop de atualização."
            (initial_state all_up)))
    /\ app_LATEST_DATA g' = PyNone.
Proof.
  destruct (_fallback_monitor_loop_rounds fallback_globals (numbered_rounds 2)
              (initial_state all_up)) as [_ H].
  - apply ready_initial_state.
  - repeat constructor.
  - destruct (H eq_refl) as (g' & H1 & H2 & _).
    exists g'. split; [exact H1 | exact H2].
Defined.

(** ** The fallback report *)

(** The report row of a "Queda" row, if it has one. *)
Lemma relatorio_quedas_eq quedas :
  Forall (fun q => exists n, r_tempo q = Seconds n /\ Z.abs n <= 2 ^ 53)
    quedas ->
  relatorio_quedas quedas
  = Some (flat_map
            (fun q =>
               match r_tempo q with
               | Seconds n =>
                   if 5 <? n
                   then [(r_data q, r_nome q, format_1f n, "Queda")]
                   else []
               | Dash => []
               end) quedas).
Proof.
  induction quedas as [|q quedas IH]; intros H; [reflexivity|].
  apply Forall_cons in H as [(n & Hn & Hr) H].
  cbn [relatorio_quedas flat_map]. rewrite (IH H), Hn.
  unfold tempo_num, float_of_int.
  rewrite (proj2 (Z.leb_le _ _) Hr).
  destruct (5 <? n); reflexivity.
Qed.

Lemma fold_next_offline_bound samples :
  forall n,
    0 <= n ->
    0 <= fold_left (fun n status => next_offline status n) samples n
    <= n + 5 * Z.of_nat (length samples).
Proof.
  induction samples as [|st samples IH]; intros n Hn; simpl; [lia|].
  assert (H : 0 <= next_offline st n <= n + 5).
  { unfold next_offline, CHECK_INTERVAL. destruct (st =? 0); lia. }
  specialize (IH (next_offline st n) (proj1 H)). lia.
Qed.

Lemma counter_bound w rounds e n :
  valid_rounds rounds ->
  e ∈ ORDERED_NAMES ->
  offline_time (state_after rounds (initial_state w)) !! e = Some n ->
  0 <= n <= 5 * Z.of_nat (length rounds).
Proof.
  intros Hvalid He Hn.
  destruct (site_of_name e He) as [u Hu].
  destruct (state_after_spec e u Hu rounds (initial_state w) [] 0
              (ready_initial_state w) Hvalid)
    as (_ & _ & _ & _ & Hoff).
  { unfold initial_state. cbn [history]. apply lookup_constant_map, He. }
  { unfold initial_state. cbn [offline_time]. apply lookup_constant_map, He. }
  rewrite Hn in Hoff. injection Hoff as Hoff. rewrite Hoff.
  pose proof (fold_next_offline_bound
                (map snd (inputs_of (network (initial_state w)) u 0 rounds))
                0 ltac:(lia)) as H.
  rewrite length_map, length_inputs_of in H. exact H.
Qed.

Lemma Forall_flat_map_in {A B} (P : B -> Prop) (f : A -> list B)
  (l : list A) :
  (forall a, a ∈ l -> Forall P (f a)) -> Forall P (flat_map f l).
Proof.
  intros H. induction l as [|a l IH]; simpl; [constructor|].
  apply Forall_app. split; [apply H; left|].
  apply IH. intros b Hb. apply H. right. exact Hb.
Qed.

(** The rows of the fallback report named [e] and typed "Queda". *)
Lemma relatorio_quedas_of_unit quedas e t n' d x :
  rows_of e quedas = queda_rows t e n' ->
  (d, e, x, "Queda")
    ∈ flat_map
        (fun q =>
           match r_tempo q with
           | Seconds n =>
               if 5 <? n
               then [(r_data q, r_nome q, format_1f n, "Queda")]
               else []
           | Dash => []
           end) quedas ->
  5 < n'.
Proof.
  intros Hrows Hin. apply list_elem_of_In, in_flat_map in Hin
    as (q & Hq & Hin).
  apply list_elem_of_In in Hq.
  destruct (r_tempo q) as [n|] eqn:Hn; [|inversion Hin].
  destruct (Z.ltb_spec 5 n) as [Hlt|Hge]; [|inversion Hin].
  destruct Hin as [Heq|[]]. injection Heq as _ Hnome _.
  assert (Hq' : q ∈ rows_of e quedas)
    by (apply list_elem_of_filter; split; assumption).
  rewrite Hrows in Hq'. unfold queda_rows in Hq'.
  destruct (5 <=? n'); [|inversion Hq'].
  apply list_elem_of_singleton in Hq'. rewrite Hq' in Hn. cbn in Hn.
  injection Hn as ->. exact Hlt.
Qed.

(** X16: the fallback report and the engine disagree on the start of
    an outage. From the initial state on, in a round where a unit is
    down the engine reports a "Queda" row for it, but the row list of
    the fallback report has a "Queda" row for the unit only if the
    unit was already down in the round before: the row of the first
    down sample carries 5 seconds and the report keeps only rows above
    5. The "Oscilação" rows are all kept. *)
Theorem fallback_report_skips_first_down_round (w : net)
  (rounds : list (string * list (string * string))) (t : string)
  (completed : list (string * string)) (e u : string) :
  valid_rounds rounds ->
  5 * (Z.of_nat (length rounds) + 1) <= 2 ^ 53 ->
  completed ≡ₚ SITES ->
  (e, u) ∈ SITES ->
  exists snap s' h rows,
    get_status_data t completed (state_after rounds (initial_state w))
    = (Ok snap, s')
    /\ history (state_after rounds (initial_state w)) !! e = Some h
    /\ relatorio snap = Some rows
    /\ ((exists d x, (d, e, x, "Queda") ∈ rows) <->
        probe_status (network (state_after rounds (initial_state w))) u = 0
        /\ last h = Some 0)
    /\ (probe_status (network (state_after rounds (initial_state w))) u = 0 ->
        last h <> Some 0 ->
        rows_of e (s_quedas snap) = [mkRow t e (Seconds 5) "Queda"])
    /\ (forall o, o ∈ s_oscilacoes snap ->
          (r_data o, r_nome o, "-", "Oscilação") ∈ rows).
Proof.
  intros Hvalid Hbound Hperm He.
  set (s := state_after rounds (initial_state w)).
  pose proof (steady_state_after w rounds Hvalid) as Hs. fold s in Hs.
  pose proof (steady_ready s Hs) as Hready.
  assert (Hname : e ∈ ORDERED_NAMES).
  { apply (list_elem_of_fmap_2 fst) in He. exact He. }
  destruct Hs as [_ Hs].
  destruct (Hs e Hname) as (h & n & Hh & Hn & _ & _ & Hn0 & [k Hk] & Hzero).
  destruct (get_status_data_spec t completed s Hready Hperm)
    as (snap & s' & Hrun & _ & _ & _ & _ & _ & Hep).
  destruct (Hep e u h n He Hh Hn) as (_ & H2 & _).
  set (st := probe_status (network s) u) in *.
  destruct (get_status_data_eq t completed s Hready Hperm)
    as (s'' & Hrun' & _).
  rewrite Hrun in Hrun'. injection Hrun' as Hsnap _.
  assert (Hquedas : s_quedas snap
                    = flat_map (item_quedas t s) (status_dict_of completed s))
    by (rewrite Hsnap; reflexivity).
  assert (Hrange : Forall (fun q => exists n, r_tempo q = Seconds n
                                              /\ Z.abs n <= 2 ^ 53)
                     (s_quedas snap)).
  { rewrite Hquedas. apply Forall_flat_map_in. intros [e0 st0] Hin.
    assert (He0 : e0 ∈ ORDERED_NAMES).
    { apply (list_elem_of_fmap_2 fst) in Hin. unfold status_dict_of in Hin.
      rewrite map_map in Hin. cbn [fst] in Hin.
      change (e0 ∈ map fst completed) in Hin.
      unfold ORDERED_NAMES. rewrite <- Hperm. exact Hin. }
    destruct (Hready e0 He0) as [_ [n0 Hn0']].
    pose proof (counter_bound w rounds e0 n0 Hvalid He0 Hn0') as Hb.
    unfold item_quedas, queda_rows. cbn [fst snd]. rewrite Hn0'.
    change (default 0 (Some n0)) with n0.
    destruct (5 <=? _) eqn:E5; [|constructor].
    constructor; [|constructor]. eexists. split; [reflexivity|].
    apply Z.leb_le in E5. revert E5 Hbound. generalize (2 ^ 53).
    unfold next_offline, CHECK_INTERVAL. destruct (st0 =? 0); lia. }
  eexists snap, s', h, _. split; [exact Hrun|]. split; [exact Hh|].
  split.
  { unfold relatorio. rewrite (relatorio_quedas_eq _ Hrange). reflexivity. }
  assert (Hn' : st = 0 -> last h = Some 0 -> 10 <= next_offline st n).
  { intros E El. rewrite E. unfold next_offline, CHECK_INTERVAL in *.
    simpl. assert (n <> 0) by (intros E0; apply Hzero in E0; congruence).
    lia. }
  split; [split|split].
  - intros (d & x & Hin). apply elem_of_app in Hin as [Hin|Hin].
    + pose proof (relatorio_quedas_of_unit _ e t _ d x H2 Hin) as Hlt.
      destruct (probe_status_bit (network s) u) as [E|E]; fold st in E.
      * split; [exact E|]. rewrite E in Hlt.
        unfold next_offline, CHECK_INTERVAL in Hlt. simpl in Hlt.
        destruct (decide (last h = Some 0)) as [|Hne]; [assumption|].
        apply Hzero in Hne. lia.
      * rewrite E in Hlt. unfold next_offline in Hlt. simpl in Hlt. lia.
    + apply list_elem_of_fmap in Hin as (o & Heq & _). discriminate Heq.
  - intros [E El]. specialize (Hn' E El).
    exists t, (format_1f (next_offline st n)).
    apply elem_of_app. left. apply list_elem_of_In, in_flat_map.
    exists (mkRow t e (Seconds (next_offline st n)) "Queda"). split.
    + apply list_elem_of_In.
      assert (Hin : mkRow t e (Seconds (next_offline st n)) "Queda"
                    ∈ rows_of e (s_quedas snap)).
      { rewrite H2. unfold queda_rows.
        destruct (Z.leb_spec 5 (next_offline st n)); [left | lia]. }
      apply list_elem_of_filter in Hin as [_ Hin]. exact Hin.
    + cbn [r_tempo r_data r_nome].
      destruct (Z.ltb_spec 5 (next_offline st n)); [left; reflexivity | lia].
  - intros E Hne. rewrite H2, E. apply Hzero in Hne. rewrite Hne.
    reflexivity.
  - intros o Ho. apply elem_of_app. right.
    apply (list_elem_of_fmap_2
             (fun o => (r_data o, r_nome o, "-", "Oscilação"))) in Ho.
    exact Ho.
Qed.

(** "Brasnorte" up twice, then down: the round's row is not in the
    report. *)
Lemma fallback_report_skips_first_down_round_witness :
  exists snap s' rows,
    get_status_data "12:00:10" SITES
      (state_after (numbered_rounds 2) (initial_state brasnorte_outage))
    = (Ok snap, s')
    /\ relatorio snap = Some rows
    /\ rows_of "Brasnorte" (s_quedas snap)
       = [mkRow "12:00:10" "Brasnorte" (Seconds 5) "Queda"]
    /\ ~ (exists d x, (d, "Brasnorte", x, "Queda") ∈ rows).
Proof.
  destruct (fallback_report_skips_first_down_round brasnorte_outage
              (numbered_rounds 2) "12:00:10" SITES "Brasnorte"
              "https://brasnorte.celk.com.br/")
    as (snap & s' & h & rows & Hrun & Hh & Hrel & Hiff & Hfirst & _).
  - repeat constructor.
  - vm_compute. intros H. discriminate H.
  - reflexivity.
  - exact brasnorte_in_SITES.
  - assert (Eh : h = [1; 1]).
    { vm_compute in Hh. injection Hh as <-. reflexivity. }
    subst h. exists snap, s', rows.
    split; [exact Hrun|]. split; [exact Hrel|]. split.
    + apply Hfirst; [vm_compute; reflexivity | intros H; discriminate H].
    + intros H. apply Hiff in H as [_ H]. discriminate H.
Defined.

(** The row of the next round, 10 seconds, is in the report. *)
Example fallback_report_second_down_round :
  match get_status_data "12:00:15" SITES
          (state_after (numbered_rounds 3) (initial_state brasnorte_outage))
  with
  | (Ok snap, _) =>
      relatorio snap = Some [("12:00:15", "Brasnorte", "10.0", "Queda")]
  | _ => False
  end.
Proof. vm_compute. reflexivity. Qed.

(** ** The report of [gerar_relatorio_pdf] *)

Lemma keys_dict_set {V} (d : list (string * V)) k v :
  map fst (dict_set d k v)
  = if decide (k ∈ map fst d) then map fst d else map fst d ++ [k].
Proof.
  induction d as [|[k0 v0] d IH].
  - destruct (decide (k ∈ map fst [])) as [H|_]; [inversion H | reflexivity].
  - cbn [dict_set]. destruct (String.eqb_spec k0 k) as [->|Hne].
    + cbn [map fst]. destruct (decide (k ∈ k :: map fst d)) as [_|H];
        [reflexivity | exfalso; apply H; left].
    + cbn [map fst]. rewrite IH.
      destruct (decide (k ∈ map fst d)) as [H|H];
        destruct (decide (k ∈ k0 :: map fst d)) as [H'|H'];
        try reflexivity.
      * exfalso. apply H'. right. exact H.
      * exfalso. apply elem_of_cons in H' as [?|?]; congruence.
Qed.

Lemma NoDup_keys_dict_set {V} (d : list (string * V)) k v :
  NoDup (map fst d) -> NoDup (map fst (dict_set d k v)).
Proof.
  intros H. rewrite keys_dict_set.
  destruct (decide (k ∈ map fst d)) as [Hin|Hout]; [exact H|].
  apply NoDup_app. split; [exact H|]. split.
  - intros x Hx Hx'. apply list_elem_of_singleton in Hx'. congruence.
  - apply NoDup_singleton.
Qed.

Lemma dict_get_None {V} (d : list (string * V)) k :
  dict_get d k = None <-> k ∉ map fst d.
Proof.
  induction d as [|[k0 v0] d IH]; simpl.
  - split; [intros _ H; inversion H | reflexivity].
  - destruct (String.eqb_spec k0 k) as [->|Hne].
    + split; [intros H; discriminate H | intros H; exfalso; apply H; left].
    + rewrite IH. rewrite not_elem_of_cons. split; [auto | tauto].
Qed.

Lemma dict_get_elem_of {V} (d : list (string * V)) k v :
  NoDup (map fst d) -> (k, v) ∈ d -> dict_get d k = Some v.
Proof.
  induction d as [|[k0 v0] d IH]; simpl; intros Hnd Hin.
  - inversion Hin.
  - apply NoDup_cons in Hnd as [Hnotin Hnd].
    apply elem_of_cons in Hin as [Heq|Hin].
    + injection Heq as -> ->. rewrite String.eqb_refl. reflexivity.
    + destruct (String.eqb_spec k0 k) as [->|Hne]; [|auto].
      exfalso. apply Hnotin. apply (list_elem_of_fmap_2 fst) in Hin.
      exact Hin.
Qed.

(** The count of a unit in the [Counter]: the number of its rows. *)
Lemma cont_get quedas k :
  forall acc,
    default 0 (dict_get
                 (fold_left (fun d e => counter_add d (r_nome e) 1) quedas acc)
                 k)
    = default 0 (dict_get acc k) + Z.of_nat (length (rows_of k quedas)).
Proof.
  induction quedas as [|e quedas IH]; intros acc; simpl; [lia|].
  rewrite IH. unfold counter_add. rewrite dict_get_dict_set.
  unfold rows_of. rewrite filter_cons.
  destruct (decide (r_nome e = k)) as [->|Hne]; simpl; lia.
Qed.

Lemma tempo_get quedas k :
  forall acc,
    default 0 (dict_get
                 (fold_left
                    (fun d e =>
                       match r_tempo e with
                       | Seconds t => counter_add d (r_nome e) t
                       | Dash => d
                       end) quedas acc) k)
    = default 0 (dict_get acc k) + total_seconds (rows_of k quedas).
Proof.
  induction quedas as [|e quedas IH]; intros acc; simpl;
    [unfold total_seconds; simpl; lia|].
  rewrite IH. unfold rows_of. rewrite filter_cons.
  unfold total_seconds, seconds_of, counter_add.
  destruct (r_tempo e) as [t|] eqn:Et.
  - rewrite dict_get_dict_set.
    destruct (decide (r_nome e = k)) as [E|Hne]; simpl; rewrite ?Et, ?E; lia.
  - destruct (decide (r_nome e = k)) as [E|Hne]; simpl; rewrite ?Et; lia.
Qed.

Lemma cont_keys quedas :
  forall acc,
    NoDup (map fst acc) ->
    NoDup (map fst (fold_left (fun d e => counter_add d (r_nome e) 1)
                      quedas acc))
    /\ forall k,
         k ∈ map fst (fold_left (fun d e => counter_add d (r_nome e) 1)
                        quedas acc)
         <-> k ∈ map fst acc \/ k ∈ map r_nome quedas.
Proof.
  induction quedas as [|e quedas IH]; intros acc Hnd; simpl.
  - split; [exact Hnd|]. intros k. split; [auto|].
    intros [H|H]; [exact H | inversion H].
  - destruct (IH (counter_add acc (r_nome e) 1)) as [H1 H2].
    { apply NoDup_keys_dict_set, Hnd. }
    split; [exact H1|]. intros k. rewrite H2.
    unfold counter_add. rewrite keys_dict_set.
    destruct (decide (r_nome e ∈ map fst acc)) as [Hin|Hout].
    + split.
      * intros [H|H]; [auto | right; right; exact H].
      * intros [H|H]; [auto|].
        apply elem_of_cons in H as [->|H]; auto.
    + rewrite elem_of_app, list_elem_of_singleton, elem_of_cons. tauto.
Qed.

(** X17: the counts of the report. The [Counter] has one entry per
    unit that has a "Queda" row, and the entry counts the unit's
    rows; [tempo_por_unidade] holds for every unit the sum of the
    seconds of its rows (0 for a unit without rows). *)
Theorem counts_per_unit (quedas : list row) :
  NoDup (map fst (cont_por_unidade quedas))
  /\ (forall nome,
        nome ∈ map fst (cont_por_unidade quedas) <-> nome ∈ map r_nome quedas)
  /\ (forall nome c,
        (nome, c) ∈ cont_por_unidade quedas ->
        c = Z.of_nat (length (rows_of nome quedas)) /\ 1 <= c)
  /\ (forall nome,
        default 0 (dict_get (tempo_por_unidade quedas) nome)
        = total_seconds (rows_of nome quedas)).
Proof.
  destruct (cont_keys quedas [] (NoDup_nil_2 : NoDup (map fst []))) as [Hnd Hkeys].
  fold (cont_por_unidade quedas) in Hnd, Hkeys.
  split; [exact Hnd|]. split.
  { intros nome. rewrite Hkeys. split; [|auto].
    intros [H|H]; [inversion H | exact H]. }
  split.
  - intros nome c Hin.
    pose proof (dict_get_elem_of _ _ _ Hnd Hin) as Hget.
    pose proof (cont_get quedas nome []) as Hc.
    fold (cont_por_unidade quedas) in Hc. rewrite Hget in Hc. simpl in Hc.
    split; [exact Hc|].
    assert (Hname : nome ∈ map r_nome quedas).
    { apply (list_elem_of_fmap_2 fst) in Hin. apply Hkeys in Hin.
      destruct Hin as [H|H]; [inversion H | exact H]. }
    apply list_elem_of_fmap in Hname as (e & -> & He).
    assert (Hrow : e ∈ rows_of (r_nome e) quedas)
      by (apply list_elem_of_filter; auto).
    rewrite Hc. destruct (rows_of (r_nome e) quedas); [inversion Hrow|].
    simpl. lia.
  - intros nome. pose proof (tempo_get quedas nome []) as H.
    exact H.
Qed.

Lemma insert_by_perm {A} (le : A -> A -> bool) x (l : list A) :
  insert_by le x l ≡ₚ x :: l.
Proof.
  induction l as [|y l IH]; simpl; [reflexivity|].
  destruct (le x y); [reflexivity|].
  rewrite IH. apply Permutation_swap.
Qed.

Lemma sorted_by_perm {A} (le : A -> A -> bool) (l : list A) :
  sorted_by le l ≡ₚ l.
Proof.
  induction l as [|x l IH]; simpl; [reflexivity|].
  rewrite insert_by_perm, IH. reflexivity.
Qed.

Section Sorting.

(** An order that compares any two elements, one way or the other. *)
Context {A : Type} (le : A -> A -> bool).
Context (le_total : forall x y, le x y = false -> le y x = true).

Lemma insert_by_sorted x (l : list A) :
  Sorted (fun a b => le a b = true) l ->
  Sorted (fun a b => le a b = true) (insert_by le x l).
Proof.
  induction l as [|y l IH]; intros Hl; simpl.
  - repeat constructor.
  - destruct (le x y) eqn:E.
    + constructor; [exact Hl|]. constructor. exact E.
    + apply Sorted_inv in Hl as [Hl Hhd]. constructor; [apply IH, Hl|].
      destruct l as [|z l]; simpl.
      * constructor. apply le_total, E.
      * destruct (le x z); constructor.
        -- apply le_total, E.
        -- inversion Hhd. assumption.
Qed.

Lemma sorted_by_sorted (l : list A) :
  Sorted (fun a b => le a b = true) (sorted_by le l).
Proof.
  induction l as [|x l IH]; simpl; [constructor|].
  apply insert_by_sorted, IH.
Qed.

(** Sorting a list in which every element is below every other one
    changes nothing: equal keys keep their order. *)
Lemma sorted_by_flat (l : list A) :
  (forall x y, x ∈ l -> y ∈ l -> le x y = true) -> sorted_by le l = l.
Proof.
  induction l as [|x l IH]; intros H; simpl; [reflexivity|].
  rewrite IH by (intros a b Ha Hb; apply H; right; assumption).
  destruct l as [|y l]; simpl; [reflexivity|].
  rewrite (H x y) by (try left; right; left). reflexivity.
Qed.

End Sorting.

Lemma key_le_total x y : key_le x y = false -> key_le y x = true.
Proof.
  unfold key_le. rewrite (String.compare_antisym (r_data x) (r_data y)).
  destruct (String.compare (r_data y) (r_data x)); simpl; intros H.
  - destruct (String.leb_total (r_nome x) (r_nome y)); congruence.
  - reflexivity.
  - discriminate H.
Qed.

Lemma count_le_total (x y : string * Z) :
  (snd y <=? snd x) = false -> (snd x <=? snd y) = true.
Proof. intros H. apply Z.leb_gt in H. apply Z.leb_le. lia. Qed.

(** X18: the ranking of the report. [most_common(5)] of the counts
    lists at most five units, each once, with its true number of
    "Queda" rows, largest count first; a unit with rows that is left
    out has no more rows than any unit listed. *)
Theorem top5_ranking (quedas : list row) :
  let top5 := most_common 5 (cont_por_unidade quedas) in
  (length top5 <= 5)%nat
  /\ length top5
     = Nat.min 5 (length (remove_dups (map r_nome quedas)))
  /\ NoDup (map fst top5)
  /\ StronglySorted (fun x y => snd y <= snd x) top5
  /\ (forall nome c,
        (nome, c) ∈ top5 ->
        c = Z.of_nat (length (rows_of nome quedas)) /\ 1 <= c)
  /\ (forall nome c nome',
        (nome, c) ∈ top5 ->
        nome' ∈ map r_nome quedas ->
        nome' ∉ map fst top5 ->
        Z.of_nat (length (rows_of nome' quedas)) <= c).
Proof.
  intros top5.
  set (cont := cont_por_unidade quedas).
  set (sorted := sorted_by (fun x y : string * Z => snd y <=? snd x) cont).
  assert (Hperm : sorted ≡ₚ cont) by apply sorted_by_perm.
  destruct (cont_keys quedas [] (NoDup_nil_2 : NoDup (map fst [])))
    as [Hnd Hkeys].
  fold (cont_por_unidade quedas) in Hnd, Hkeys. fold cont in Hnd, Hkeys.
  assert (Hcount : forall nome c, (nome, c) ∈ cont ->
            c = Z.of_nat (length (rows_of nome quedas))).
  { intros nome c Hin.
    pose proof (dict_get_elem_of _ _ _ Hnd Hin) as Hget.
    pose proof (cont_get quedas nome []) as Hc.
    fold (cont_por_unidade quedas) in Hc. fold cont in Hc.
    rewrite Hget in Hc. exact Hc. }
  assert (Hss : StronglySorted (fun x y : string * Z => snd y <= snd x) sorted).
  { apply Sorted.Sorted_StronglySorted.
    - intros x y z Hxy Hyz. lia.
    - pose proof (sorted_by_sorted (fun x y : string * Z => snd y <=? snd x)
                    count_le_total cont) as Hs.
      fold sorted in Hs. clearbody sorted. clear -Hs.
      induction Hs as [|x l Hl IH Hhd]; constructor; [exact IH|].
      destruct Hhd as [|y l Hxy]; constructor. apply Z.leb_le. exact Hxy. }
  assert (Hsplit : sorted = top5 ++ drop 5 sorted).
  { unfold top5, most_common. fold cont. fold sorted.
    symmetry. apply take_drop. }
  assert (Htop : forall p, p ∈ top5 -> p ∈ cont).
  { intros p Hp. rewrite <- Hperm, Hsplit. apply elem_of_app. left.
    exact Hp. }
  assert (Hlen : length cont = length (remove_dups (map r_nome quedas))).
  { rewrite <- (length_map fst cont). apply Permutation_length.
    apply NoDup_Permutation; [exact Hnd | apply NoDup_remove_dups|].
    intros k. rewrite Hkeys, elem_of_remove_dups. split; [|auto].
    intros [H|H]; [inversion H | exact H]. }
  split.
  { unfold top5, most_common. rewrite length_take. lia. }
  split.
  { unfold top5, most_common. fold cont. fold sorted.
    rewrite length_take, (Permutation_length Hperm), Hlen. reflexivity. }
  split.
  { apply (sublist_NoDup _ (map fst sorted)).
    - rewrite Hperm. exact Hnd.
    - replace (map fst sorted)
        with (map fst top5 ++ map fst (drop 5 sorted))
        by (rewrite <- map_app, <- Hsplit; reflexivity).
      apply sublist_inserts_r. reflexivity. }
  split.
  { rewrite Hsplit in Hss. apply StronglySorted_app_1_l in Hss.
    exact Hss. }
  split.
  - intros nome c Hin. pose proof (Hcount nome c (Htop _ Hin)) as Hc.
    split; [exact Hc|].
    assert (Hname : nome ∈ map r_nome quedas).
    { apply Htop in Hin. apply (list_elem_of_fmap_2 fst) in Hin.
      apply Hkeys in Hin. destruct Hin as [H|H]; [inversion H | exact H]. }
    apply list_elem_of_fmap in Hname as (e & -> & He).
    assert (Hrow : e ∈ rows_of (r_nome e) quedas)
      by (apply list_elem_of_filter; auto).
    rewrite Hc. destruct (rows_of (r_nome e) quedas); [inversion Hrow|].
    simpl. lia.
  - intros nome c nome' Hin Hname Hout.
    assert (Hk : nome' ∈ map fst cont) by (apply Hkeys; right; exact Hname).
    apply list_elem_of_fmap in Hk as ([k c'] & Hk & Hin').
    cbn [fst] in Hk. subst k.
    rewrite <- (Hcount nome' c' Hin').
    rewrite <- Hperm, Hsplit in Hin'. apply elem_of_app in Hin' as [Hin'|Hin'].
    + exfalso. apply Hout. apply (list_elem_of_fmap_2 fst) in Hin'.
      exact Hin'.
    + rewrite Hsplit in Hss.
      apply (StronglySorted_app_1_elem_of _ _ _ _ _ Hss Hin Hin').
Qed.

(** X19: the tables of the report. The body of a table holds one line
    per row, the rows being those of the snapshot in another order:
    ascending by timestamp and, within a timestamp, by unit name. A
    line shows the seconds of its row followed by " s", or "-". *)
Theorem report_table_sorted (badge style : string) (rows : list row) :
  exists body,
    linhas badge style rows
    = [Text "Data/Hora"; Text "Unidade"; Text "Tempo Offline"; Text "Tipo"]
      :: map (fun e =>
                [ Text (r_data e); Text (r_nome e); Text (tempo_fmt e);
                  Par badge style ]) body
    /\ body ≡ₚ rows
    /\ Sorted (fun x y =>
                 String.ltb (r_data x) (r_data y) = true
                 \/ (r_data x = r_data y
                     /\ String.leb (r_nome x) (r_nome y) = true)) body
    /\ (forall e n, r_tempo e = Seconds n -> tempo_fmt e = pretty n +:+ " s")
    /\ (forall e, r_tempo e = Dash -> tempo_fmt e = "-").
Proof.
  exists (sorted_by key_le rows).
  split; [reflexivity|]. split; [apply sorted_by_perm|].
  split.
  - pose proof (sorted_by_sorted key_le key_le_total rows) as Hs.
    induction Hs as [|x l Hl IH Hhd]; constructor; [exact IH|].
    destruct Hhd as [|y l Hxy]; constructor.
    unfold key_le in Hxy. unfold String.ltb.
    destruct (String.compare (r_data x) (r_data y)) eqn:E.
    + right. split; [apply String.compare_eq_iff, E | exact Hxy].
    + left. reflexivity.
    + discriminate Hxy.
  - split; intros e; unfold tempo_fmt.
    + intros n ->. reflexivity.
    + intros ->. reflexivity.
Qed.

Lemma cont_of_distinct quedas :
  forall acc,
    NoDup (map fst acc ++ map r_nome quedas) ->
    fold_left (fun d e => counter_add d (r_nome e) 1) quedas acc
    = acc ++ map (fun e => (r_nome e, 1)) quedas.
Proof.
  induction quedas as [|e quedas IH]; intros acc Hnd; simpl.
  - rewrite app_nil_r. reflexivity.
  - assert (Hfresh : r_nome e ∉ map fst acc).
    { apply NoDup_app in Hnd as (_ & Hdisj & _).
      intros Hin. apply (Hdisj _ Hin). left. }
    unfold counter_add at 2.
    rewrite (proj2 (dict_get_None acc (r_nome e)) Hfresh).
    rewrite dict_set_fresh by exact Hfresh. cbn [default].
    rewrite IH.
    + rewrite <- app_assoc. reflexivity.
    + rewrite map_app. simpl. rewrite <- app_assoc. exact Hnd.
Qed.

(** X20: the ranking of the report built from the result of one round
    is the order of completion. A round reports at most one "Queda"
    row per unit, so every count is 1, and the "Top 5" lists the units
    of the first five rows, each with count 1 and the seconds of its
    one row. *)
Theorem top5_of_one_round (t : string) (completed : list (string * string))
  (s : state) :
  ready s ->
  completed ≡ₚ SITES ->
  exists snap s',
    get_status_data t completed s = (Ok snap, s')
    /\ most_common 5 (cont_por_unidade (s_quedas snap))
       = map (fun e => (r_nome e, 1)) (take 5 (s_quedas snap))
    /\ (forall e, e ∈ s_quedas snap ->
          default 0 (dict_get (tempo_por_unidade (s_quedas snap)) (r_nome e))
          = seconds_of e).
Proof.
  intros Hready Hperm.
  destruct (get_status_data_eq t completed s Hready Hperm)
    as (s' & Hrun & _).
  eexists _, s'. split; [exact Hrun|].
  unfold result_of. cbn [s_quedas].
  set (Q := flat_map (item_quedas t s) (status_dict_of completed s)).
  assert (Hnd : NoDup (map r_nome Q)).
  { apply (sublist_NoDup _ (map fst (status_dict_of completed s))).
    - unfold status_dict_of. rewrite map_map. cbn [fst].
      change (NoDup (map fst completed)).
      assert (Hn : map fst completed ≡ₚ ORDERED_NAMES)
        by (unfold ORDERED_NAMES; rewrite Hperm; reflexivity).
      rewrite Hn. apply NoDup_ORDERED_NAMES.
    - apply sublist_item_rows. intros p. unfold item_quedas, queda_rows.
      destruct (5 <=? _); [right; eexists; split; reflexivity
                          | left; reflexivity]. }
  split.
  - unfold most_common, cont_por_unidade.
    rewrite (cont_of_distinct Q []) by exact Hnd. cbn [app].
    rewrite sorted_by_flat.
    + rewrite <- fmap_take. reflexivity.
    + intros x y Hx Hy.
      apply list_elem_of_fmap in Hx as (ex & -> & _).
      apply list_elem_of_fmap in Hy as (ey & -> & _). reflexivity.
  - intros e He.
    pose proof (tempo_get Q (r_nome e) []) as H.
    fold (tempo_por_unidade Q) in H. rewrite H. cbn [dict_get default].
    assert (Hrows : rows_of (r_nome e) Q = [e]).
    { clear -Hnd He. induction Q as [|x Q IH]; [inversion He|].
      cbn [map] in Hnd. apply NoDup_cons in Hnd as [Hx Hnd].
      unfold rows_of. rewrite filter_cons.
      apply elem_of_cons in He as [->|He].
      - rewrite decide_True by reflexivity. f_equal.
        destruct (filter (fun r => r_nome r = r_nome x) Q) as [|y l] eqn:E;
          [reflexivity|].
        exfalso. apply Hx.
        assert (Hy : y ∈ filter (fun r => r_nome r = r_nome x) Q)
          by (rewrite E; left).
        apply list_elem_of_filter in Hy as [Hy1 Hy2].
        rewrite <- Hy1. apply (list_elem_of_fmap_2 r_nome) in Hy2. exact Hy2.
      - rewrite decide_False.
        + apply (IH Hnd He).
        + intros E. apply Hx. rewrite E.
          apply (list_elem_of_fmap_2 r_nome) in He. exact He. }
    rewrite Hrows. unfold total_seconds. simpl. lia.
Qed.

Lemma top5_of_one_round_witness :
  exists snap s',
    get_status_data "12:00:00" SITES (initial_state brasnorte_down)
    = (Ok snap, s')
    /\ most_common 5 (cont_por_unidade (s_quedas snap))
       = map (fun e => (r_nome e, 1)) (take 5 (s_quedas snap))
    /\ (forall e, e ∈ s_quedas snap ->
          default 0 (dict_get (tempo_por_unidade (s_quedas snap)) (r_nome e))
          = seconds_of e).
Proof.
  apply (top5_of_one_round "12:00:00" SITES (initial_state brasnorte_down)).
  - apply ready_initial_state.
  - reflexivity.
Defined.

(** The report of the first down round of "Brasnorte". *)
Example gerar_relatorio_pdf_first_down_round :
  match get_status_data "12:00:10" SITES
          (state_after (numbered_rounds 2) (initial_state brasnorte_outage))
  with
  | (Ok snap, _) =>
      gerar_relatorio_pdf snap "relatorio_monitoramento.pdf"
      = ([ Table
             [ [ Par "<b>Total de eventos</b>" "normal";
                 Par "<b>Quedas</b>" "normal";
                 Par "<b>Oscilações</b>" "normal";
                 Par "<b>Unidades afetadas</b>" "normal" ];
               [ Par "2" "h2"; Par "1" "h2"; Par "1" "h2"; Par "1" "h2" ] ];
           Spacer 8;
           Paragraph "Top 5 unidades com mais quedas" "muted";
           Table
             [ [Text "Unidade"; Text "Quedas"; Text "Tempo Offline (s)"];
               [Text "Brasnorte"; Text "1"; Text "5"] ];
           Spacer 14;
           Paragraph "Tabela de Quedas" "h2";
           KeepTogether
             [ [ Text "Data/Hora"; Text "Unidade"; Text "Tempo Offline";
                 Text "Tipo" ];
               [ Text "12:00:10"; Text "Brasnorte"; Text "5 s";
                 Par "Queda" "badge_red" ] ];
           Spacer 16;
           Paragraph "Tabela de Oscilações" "h2";
           KeepTogether
             [ [ Text "Data/Hora"; Text "Unidade"; Text "Tempo Offline";
                 Text "Tipo" ];
               [ Text "12:00:10"; Text "Brasnorte"; Text "-";
                 Par "Oscilação" "badge_amber" ] ] ],
         "relatorio_monitoramento.pdf")
  | _ => False
  end.
Proof. vm_compute. reflexivity. Qed.

(** X21: a read is a round. With the monitor imported and no cached
    dictionary that has "timestamps", every call of the reader runs a
    round of its own and returns its result: a sequence of reads
    leaves the results and the states of as many rounds, so each read
    appends a timestamp to the time index and a sample to every
    buffer. *)
Theorem reads_are_rounds (g : app_globals)
  (rounds : list (string * list (string * string))) (s : state) :
  has_timestamps (app_LATEST_DATA g) = None ->
  has_timestamps (_local_latest g) = None ->
  monitor_get_status_data g = true ->
  ready s ->
  valid_rounds rounds ->
  reads g rounds s = run_rounds rounds s
  /\ timestamps (state_after rounds s)
     = fold_left push (map fst rounds) (timestamps s).
Proof.
  intros H1 H2 Hm Hready Hvalid. split.
  - revert s Hready. induction rounds as [|[t c] rounds IH]; intros s Hready;
      [reflexivity|].
    apply Forall_cons in Hvalid as [Hperm Hvalid]. cbn [snd] in Hperm.
    destruct (get_status_data_spec t c s Hready Hperm)
      as (snap & s' & Hrun & Hready' & _).
    cbn [reads run_rounds].
    assert (E : _get_current_data g t c s = get_status_data t c s).
    { unfold _get_current_data, bind, try_except, ret.
      rewrite H1, H2, Hm, Hrun. reflexivity. }
    rewrite E, Hrun. cbn [snd]. rewrite (IH Hvalid s' Hready').
    reflexivity.
  - revert s Hready. induction rounds as [|[t c] rounds IH]; intros s Hready;
      [reflexivity|].
    apply Forall_cons in Hvalid as [Hperm Hvalid]. cbn [snd] in Hperm.
    destruct (get_status_data_spec t c s Hready Hperm)
      as (snap & s' & Hrun & Hready' & Hts & _).
    cbn [state_after map fold_left fst]. rewrite Hrun. cbn [snd].
    rewrite (IH Hvalid s' Hready'), Hts. reflexivity.
Qed.

(** Three reads from the initial state leave three timestamps. *)
Lemma reads_are_rounds_witness :
  reads unpublished (numbered_rounds 3) (initial_state all_up)
  = run_rounds (numbered_rounds 3) (initial_state all_up)
  /\ timestamps (state_after (numbered_rounds 3) (initial_state all_up))
     = fold_left push (map fst (numbered_rounds 3))
         (timestamps (initial_state all_up)).
Proof.
  apply (reads_are_rounds unpublished (numbered_rounds 3)
           (initial_state all_up)).
  - reflexivity.
  - reflexivity.
  - reflexivity.
  - apply ready_initial_state.
  - repeat constructor.
Defined.
